(** * Plugwise-Smile: the topology and schedule resolution engine

    A shallow embedding of [Plugwise_Smile/Smile.py] and the properties of
    its specification.  Python values are modelled as the code has them:
    dictionaries keep their insertion order, identifiers are [None], an
    integer or a text, the four documents are element trees queried by
    path, methods of the [Smile] object thread the object through a state
    and exception monad, and measurements are IEEE binary64 numbers. *)

From Stdlib Require Import ZArith Lia Bool.
From Stdlib Require Import Floats.SpecFloat.
From Stdlib Require Import Ascii String DecimalN.
From stdpp Require Import base option list strings gmap sets.

Set Warnings "-register-all,-clear-no-such-hyp".

Local Open Scope Z_scope.
Local Open Scope string_scope.
Local Open Scope list_scope.

(** ** Python values, exceptions and dictionaries *)

Module Py.

(** The exceptions the modelled code can raise. *)
Inductive exn :=
| KeyError
| TypeError
| AttributeError
| ValueError
| IndexError
| XMLDataMissingError
| DeviceTimeoutError
| ErrorSendingCommandError
| ResponseError
| InvalidXMLError
| SyntaxError.

Inductive result (A : Type) :=
| Ok (a : A)
| Raise (e : exn).
Global Arguments Ok {A} a.
Global Arguments Raise {A} e.

Definition rbind {A B} (r : result A) (k : A → result B) : result B :=
  match r with
  | Ok a => k a
  | Raise e => Raise e
  end.

(** [o.attr] or [o[...]] on a value that may be [None]. *)
Definition need {A} (e : exn) (o : option A) : result A :=
  match o with
  | Some a => Ok a
  | None => Raise e
  end.

(** A [for] loop whose body may raise: the loop state is threaded
    through the items in order and the first exception ends the loop. *)
Fixpoint for_each {A S} (body : A → S → result S) (items : list A) (s : S)
  : result S :=
  match items with
  | [] => Ok s
  | a :: rest => rbind (body a s) (for_each body rest)
  end.

(** An identifier as the code holds it: [None], the integer of the
    synthesized location, or the text of an [id] attribute. *)
Inductive pyid :=
| PNone
| PInt (n : Z)
| PStr (s : string).

Global Instance pyid_eq_dec : EqDecision pyid.
Proof. solve_decision. Defined.

Definition pyid_enc (k : pyid) : unit + (Z + string) :=
  match k with
  | PNone => inl tt
  | PInt n => inr (inl n)
  | PStr s => inr (inr s)
  end.

Definition pyid_dec (x : unit + (Z + string)) : pyid :=
  match x with
  | inl _ => PNone
  | inr (inl n) => PInt n
  | inr (inr s) => PStr s
  end.

Global Instance pyid_countable : Countable pyid.
Proof.
  refine (inj_countable' pyid_enc pyid_dec _).
  intros []; reflexivity.
Defined.

(** [not x] on an identifier: [None], [0] and the empty text are falsy. *)
Definition falsy (k : pyid) : bool :=
  match k with
  | PNone => true
  | PInt n => (n =? 0)%Z
  | PStr s => bool_decide (s = "")
  end.

(** A [dict]: an association list in insertion order.  Assigning to a
    key that is present replaces its value where it stands; a new key is
    appended. *)
Definition dict (K V : Type) := list (K * V).

Section Dict.
Context {K V : Type} `{EqDecision K}.

Fixpoint dict_get (d : dict K V) (k : K) : option V :=
  match d with
  | [] => None
  | (k', v) :: rest => if decide (k' = k) then Some v else dict_get rest k
  end.

Fixpoint dict_set (d : dict K V) (k : K) (v : V) : dict K V :=
  match d with
  | [] => [(k, v)]
  | (k', v') :: rest =>
      if decide (k' = k) then (k, v) :: rest
      else (k', v') :: dict_set rest k v
  end.

Definition dict_in (d : dict K V) (k : K) : bool :=
  bool_decide (is_Some (dict_get d k)).

Definition keys (d : dict K V) : list K := d.*1.
End Dict.

End Py.

Export Py.

Global Instance result_ret : MRet result := fun _ a => Ok a.
Global Instance result_bind : MBind result := fun _ _ k r => rbind r k.

(** ** Element trees and the path queries of the code *)

Module Xml.

(** An element as lxml gives it: tag, attributes, the text before the
    first child, the children, and the text after the closing tag. *)
Inductive element :=
| Element (tag : string) (attrib : list (string * string))
          (text : option string) (children : list element)
          (tail : option string).

Definition tag (e : element) : string :=
  match e with Element t _ _ _ _ => t end.
Definition attrib (e : element) : list (string * string) :=
  match e with Element _ a _ _ _ => a end.
Definition text (e : element) : option string :=
  match e with Element _ _ t _ _ => t end.
Definition children (e : element) : list element :=
  match e with Element _ _ _ c _ => c end.
Definition tail (e : element) : option string :=
  match e with Element _ _ _ _ t => t end.

(** [e.get(name)] and [e.attrib[name]]. *)
Definition get (e : element) (name : string) : option string :=
  dict_get (attrib e) name.

Definition attrib_item (e : element) (name : string) : result string :=
  need KeyError (get e name).

Definition opt_text (o : option string) : string := default "" o.

(** ["".join(e.itertext())]: the text of [e] and of its descendants in
    document order, tails of the descendants included. *)
Fixpoint itertext (e : element) : string :=
  match e with
  | Element _ _ t cs _ =>
      opt_text t +:+
      (fix go (l : list element) : string :=
         match l with
         | [] => ""
         | c :: l' => itertext c +:+ opt_text (tail c) +:+ go l'
         end) cs
  end.

(** [e.iter()] without [e] itself: the descendants in document order. *)
Fixpoint descendants (e : element) : list element :=
  match e with
  | Element _ _ _ cs _ =>
      (fix go (l : list element) : list element :=
         match l with
         | [] => []
         | c :: l' => c :: descendants c ++ go l'
         end) cs
  end.

(** The steps of the path language the locators of the code use. *)
Inductive step :=
| Child (t : string)               (* [/t] or a leading [t] *)
| Desc (t : string)                (* [.//t] *)
| HasChildText (t v : string)      (* [[t='v']] *)
| HasAttr (a v : string).          (* [[@a='v']] *)

Definition has_tag (t : string) (e : element) : bool :=
  bool_decide (tag e = t).

Definition select_step (s : step) (ctx : list element) : list element :=
  match s with
  | Child t => ctx ≫= (fun e => filter (fun c => has_tag t c = true) (children e))
  | Desc t => ctx ≫= (fun e => filter (fun c => has_tag t c = true) (descendants e))
  | HasChildText t v =>
      filter (fun e =>
                existsb (fun c => has_tag t c && bool_decide (itertext c = v))
                        (children e) = true) ctx
  | HasAttr a v => filter (fun e => get e a = Some v) ctx
  end.

Definition path := list step.

Definition findall (p : path) (e : element) : list element :=
  fold_left (fun ctx s => select_step s ctx) p [e].

Definition find (p : path) (e : element) : option element :=
  head (findall p e).

(** The locators of the code are texts, and many of them are formatted
    with an id, a name or a tag that the caller or a document supplies.
    A [path] is what such a text means as long as each formatted part is
    free of the quote that encloses it in the text.  Any other text is
    for lxml to read: it may refuse the text, or select by another test
    than the one the code intends.  [lxml_findall] is
    [element.findall(text)] on those texts; [element.find(text)] is the
    first element of it. *)
Class Lxml := lxml_findall : string → element → result (list element).

Inductive locator :=
| Plain (p : path)
| Text (s : string).

Definition double_quote : ascii := "034"%char.
Definition single_quote : ascii := "'"%char.

Definition quote_free (q : ascii) (s : string) : bool :=
  forallb (fun c => negb (Ascii.eqb c q)) (list_ascii_of_string s).

(** [q + s + q] *)
Definition quoted (q : ascii) (s : string) : string :=
  String q (s +:+ String q EmptyString).

Definition findall_text {lx : Lxml} (l : locator) (e : element)
  : result (list element) :=
  match l with
  | Plain p => Ok (findall p e)
  | Text s => lxml_findall s e
  end.

Definition find_text {lx : Lxml} (l : locator) (e : element)
  : result (option element) :=
  elements ← findall_text l e; Ok (head elements).

End Xml.

Export Xml.

(** ** Numbers: [int()], [float()], [round()] and ["{:.nf}".format()]

    Texts are sequences of the code points 0 to 255.  A [float] is an IEEE
    binary64 number; parsing and rounding are exact computations on
    integers followed by one correct rounding to the nearest binary64
    number, ties to even, as CPython's [strtod] and [dtoa] do. *)

Module PyNum.

Definition float := spec_float.
Definition prec : Z := 53.
Definition emax : Z := 1024.

Definition chars (s : string) : list ascii := list_ascii_of_string s.
Definition code (c : ascii) : N := N_of_ascii c.

(** The blanks that [int()] and [float()] strip from both ends of a
    text, on the code points below 256: the ASCII blanks, tab to
    carriage return and the space, and the two blanks above 127, next
    line and no-break space, which the parsers turn into a space first.
    The separators 28 to 31 are blanks for [str.isspace] but not for the
    parsers. *)
Definition is_space (c : ascii) : bool :=
  let n := code c in
  ((9 <=? n) && (n <=? 13) || (n =? 32) || (n =? 133) || (n =? 160))%N.

Definition is_digit (c : ascii) : bool :=
  ((48 <=? code c) && (code c <=? 57))%N.

Fixpoint lstrip (cs : list ascii) : list ascii :=
  match cs with
  | c :: rest => if is_space c then lstrip rest else cs
  | [] => []
  end.

Definition strip (cs : list ascii) : list ascii :=
  rev (lstrip (rev (lstrip cs))).

(** A run of digit characters as a decimal numeral. *)
Fixpoint numeral (cs : list ascii) : Decimal.uint :=
  match cs with
  | [] => Decimal.Nil
  | c :: rest =>
      let u := numeral rest in
      match code c with
      | 48 => Decimal.D0 u | 49 => Decimal.D1 u | 50 => Decimal.D2 u
      | 51 => Decimal.D3 u | 52 => Decimal.D4 u | 53 => Decimal.D5 u
      | 54 => Decimal.D6 u | 55 => Decimal.D7 u | 56 => Decimal.D8 u
      | _ => Decimal.D9 u
      end%N
  end.

Definition number (cs : list ascii) : Z := Z.of_N (N.of_uint (numeral cs)).

(** The digits of a numeral as characters. *)
Fixpoint digits (u : Decimal.uint) : list ascii :=
  match u with
  | Decimal.Nil => []
  | Decimal.D0 u => "0"%char :: digits u
  | Decimal.D1 u => "1"%char :: digits u
  | Decimal.D2 u => "2"%char :: digits u
  | Decimal.D3 u => "3"%char :: digits u
  | Decimal.D4 u => "4"%char :: digits u
  | Decimal.D5 u => "5"%char :: digits u
  | Decimal.D6 u => "6"%char :: digits u
  | Decimal.D7 u => "7"%char :: digits u
  | Decimal.D8 u => "8"%char :: digits u
  | Decimal.D9 u => "9"%char :: digits u
  end.

(** Split off the longest run of leading digits. *)
Fixpoint span_digits (cs : list ascii) : list ascii * list ascii :=
  match cs with
  | c :: rest =>
      if is_digit c
      then let '(ds, tl) := span_digits rest in (c :: ds, tl)
      else ([], cs)
  | [] => ([], [])
  end.

(** An optional sign: whether it is a minus, and what follows it. *)
Definition sign (cs : list ascii) : bool * list ascii :=
  match cs with
  | "-"%char :: rest => (true, rest)
  | "+"%char :: rest => (false, rest)
  | _ => (false, cs)
  end.

(** *** [int(text)] *)

(** Digits with single underscores between them; [after_digit] tells
    whether the previous character was a digit. *)
Fixpoint int_digits (after_digit : bool) (cs : list ascii)
  : option (list ascii) :=
  match cs with
  | [] => if after_digit then Some [] else None
  | c :: rest =>
      if is_digit c then (c ::.) <$> int_digits true rest
      else if bool_decide (c = "_"%char) && after_digit
           then int_digits false rest
           else None
  end.

Definition py_int (s : string) : result Z :=
  let '(neg, body) := sign (strip (chars s)) in
  match int_digits false body with
  | Some ds => Ok (if neg then - number ds else number ds)
  | None => Raise ValueError
  end.

(** *** [float(text)] *)

(** The nearest binary64 number to [(-1)^neg * d * 10^e]. *)
Definition nearest (neg : bool) (d : Z) (e : Z) : float :=
  match d with
  | Zpos m =>
      match e with
      | Zneg k =>
          SFdiv prec emax (S754_finite neg m 0)
                (S754_finite false (10 ^ k)%positive 0)
      | _ => binary_round prec emax neg (m * Z.to_pos (10 ^ e))%positive 0
      end
  | _ => S754_zero neg
  end.

(** Underscores are accepted between two digits only, and dropped. *)
Fixpoint drop_underscores (prev : option ascii) (cs : list ascii)
  : option (list ascii) :=
  match cs with
  | [] => if bool_decide (prev = Some "_"%char) then None else Some []
  | c :: rest =>
      if bool_decide (c = "_"%char) then
        if from_option is_digit false prev
        then drop_underscores (Some c) rest else None
      else if bool_decide (prev = Some "_"%char) && negb (is_digit c)
           then None
           else (c ::.) <$> drop_underscores (Some c) rest
  end.

Definition lower (c : ascii) : ascii :=
  if ((65 <=? code c) && (code c <=? 90))%N
  then ascii_of_N (code c + 32) else c.

(** The exponent part: nothing, or [e] or [E], an optional sign and at
    least one digit, up to the end of the text. *)
Definition exponent (cs : list ascii) : option Z :=
  match cs with
  | [] => Some 0
  | c :: rest =>
      if bool_decide (lower c = "e"%char) then
        let '(neg, body) := sign rest in
        match span_digits body with
        | ((_ :: _) as ds, []) => Some (if neg then - number ds else number ds)
        | _ => None
        end
      else None
  end.

Definition py_float (s : string) : result float :=
  match drop_underscores None (strip (chars s)) with
  | None => Raise ValueError
  | Some cs =>
      let '(neg, body) := sign cs in
      let word := string_of_list_ascii (lower <$> body) in
      if bool_decide (word = "inf") || bool_decide (word = "infinity")
      then Ok (S754_infinity neg)
      else if bool_decide (word = "nan") then Ok S754_nan
      else
        let '(ip, r1) := span_digits body in
        let '(fp, r2) :=
          match r1 with
          | "."%char :: r => span_digits r
          | _ => ([], r1)
          end in
        match ip ++ fp, exponent r2 with
        | _ :: _, Some e =>
            Ok (nearest neg (number (ip ++ fp)) (e - Z.of_nat (length fp)))
        | _, _ => Raise ValueError
        end
  end.

(** *** [round(x, n)] and ["{:.nf}".format(x)] *)

(** [m * 2^e * 10^n] rounded to an integer, ties to even. *)
Definition scaled (m : positive) (e : Z) (n : nat) : Z :=
  let num := (Zpos m * 10 ^ Z.of_nat n)%Z in
  match e with
  | Zneg k =>
      let den := Zpos (2 ^ k) in
      let q := (num / den)%Z in
      let r := (num mod den)%Z in
      match (2 * r ?= den)%Z with
      | Lt => q
      | Gt => (q + 1)%Z
      | Eq => if Z.even q then q else (q + 1)%Z
      end
  | _ => (num * 2 ^ e)%Z
  end.

Definition py_round (x : float) (n : nat) : float :=
  match x with
  | S754_finite neg m e => nearest neg (scaled m e n) (- Z.of_nat n)
  | _ => x
  end.

(** [k] written with at least [n + 1] digits and a point before the
    last [n]. *)
Definition fixed (k : Z) (n : nat) : list ascii :=
  let ds := digits (N.to_uint (Z.to_N k)) in
  let ds := replicate (S n - length ds) "0"%char ++ ds in
  take (length ds - n) ds ++ "."%char :: drop (length ds - n) ds.

(** The sign as ["{:.nf}".format] writes it. *)
Definition sgn (neg : bool) : list ascii := if neg then ["-"%char] else [].

Definition format_f (n : nat) (x : float) : string :=
  match x with
  | S754_nan => "nan"
  | S754_infinity neg => if neg then "-inf" else "inf"
  | S754_zero neg =>
      string_of_list_ascii (sgn neg ++ fixed 0 n)
  | S754_finite neg m e =>
      string_of_list_ascii (sgn neg ++ fixed (scaled m e n) n)
  end.

(** [x < 10] and [x > 3.5]: comparisons with a [nan] are false. *)
Definition ten : float := nearest false 10 0.
Definition three_and_a_half : float := nearest false 35 (-1).
Definition flt (x y : float) : bool := SFltb x y.

End PyNum.

Export PyNum.

(** ** The [Smile] object and its methods *)

Module Smile.

(** The fields of [self] the resolution engine reads or writes.  The
    four documents are [None] until fetched. *)
Record smile := {
  _appliances : option element;
  _direct_objects : option element;
  _domain_objects : option element;
  _home_location : pyid;
  _locations : option element;
  _smile_legacy : bool;
  _thermo_master_id : pyid;
  gateway_id : pyid;
  heater_id : pyid;
  smile_name : option string;
  smile_type : option string
}.

(** A method: it reads and writes [self], and returns or raises. *)
Definition M (A : Type) : Type := smile → smile * result A.

Definition ret {A} (a : A) : M A := fun self => (self, Ok a).
Definition bind {A B} (m : M A) (k : A → M B) : M B :=
  fun self =>
    match m self with
    | (self', Ok a) => k a self'
    | (self', Raise e) => (self', Raise e)
    end.
Definition lift {A} (r : result A) : M A := fun self => (self, r).
Definition read {A} (f : smile → A) : M A := fun self => (self, Ok (f self)).
Definition write (f : smile → smile) : M unit := fun self => (f self, Ok tt).

Notation "x <~ m ; k" := (bind m (fun x : _ => k))
  (at level 20, m at level 100, k at level 200, only parsing).
Notation "' x <~ m ; k" := (bind m (fun x : _ => k))
  (at level 20, x pattern, m at level 100, k at level 200, only parsing).

(** A [for] loop inside a method. *)
Fixpoint for_eachM {A} (body : A → M unit) (items : list A) : M unit :=
  match items with
  | [] => ret tt
  | a :: rest => _ <~ body a; for_eachM body rest
  end.

Definition set_home_location (v : pyid) (self : smile) : smile :=
  {| _appliances := _appliances self; _direct_objects := _direct_objects self;
     _domain_objects := _domain_objects self; _home_location := v;
     _locations := _locations self; _smile_legacy := _smile_legacy self;
     _thermo_master_id := _thermo_master_id self;
     gateway_id := gateway_id self; heater_id := heater_id self;
     smile_name := smile_name self; smile_type := smile_type self |}.

Definition set_thermo_master_id (v : pyid) (self : smile) : smile :=
  {| _appliances := _appliances self; _direct_objects := _direct_objects self;
     _domain_objects := _domain_objects self;
     _home_location := _home_location self;
     _locations := _locations self; _smile_legacy := _smile_legacy self;
     _thermo_master_id := v;
     gateway_id := gateway_id self; heater_id := heater_id self;
     smile_name := smile_name self; smile_type := smile_type self |}.

Definition set_gateway_id (v : pyid) (self : smile) : smile :=
  {| _appliances := _appliances self; _direct_objects := _direct_objects self;
     _domain_objects := _domain_objects self;
     _home_location := _home_location self;
     _locations := _locations self; _smile_legacy := _smile_legacy self;
     _thermo_master_id := _thermo_master_id self;
     gateway_id := v; heater_id := heater_id self;
     smile_name := smile_name self; smile_type := smile_type self |}.

Definition set_heater_id (v : pyid) (self : smile) : smile :=
  {| _appliances := _appliances self; _direct_objects := _direct_objects self;
     _domain_objects := _domain_objects self;
     _home_location := _home_location self;
     _locations := _locations self; _smile_legacy := _smile_legacy self;
     _thermo_master_id := _thermo_master_id self;
     gateway_id := gateway_id self; heater_id := v;
     smile_name := smile_name self; smile_type := smile_type self |}.

Definition set_appliances (v : option element) (self : smile) : smile :=
  {| _appliances := v; _direct_objects := _direct_objects self;
     _domain_objects := _domain_objects self;
     _home_location := _home_location self;
     _locations := _locations self; _smile_legacy := _smile_legacy self;
     _thermo_master_id := _thermo_master_id self;
     gateway_id := gateway_id self; heater_id := heater_id self;
     smile_name := smile_name self; smile_type := smile_type self |}.

Definition set_direct_objects (v : option element) (self : smile) : smile :=
  {| _appliances := _appliances self; _direct_objects := v;
     _domain_objects := _domain_objects self;
     _home_location := _home_location self;
     _locations := _locations self; _smile_legacy := _smile_legacy self;
     _thermo_master_id := _thermo_master_id self;
     gateway_id := gateway_id self; heater_id := heater_id self;
     smile_name := smile_name self; smile_type := smile_type self |}.

Definition set_domain_objects (v : option element) (self : smile) : smile :=
  {| _appliances := _appliances self; _direct_objects := _direct_objects self;
     _domain_objects := v;
     _home_location := _home_location self;
     _locations := _locations self; _smile_legacy := _smile_legacy self;
     _thermo_master_id := _thermo_master_id self;
     gateway_id := gateway_id self; heater_id := heater_id self;
     smile_name := smile_name self; smile_type := smile_type self |}.

Definition set_locations (v : option element) (self : smile) : smile :=
  {| _appliances := _appliances self; _direct_objects := _direct_objects self;
     _domain_objects := _domain_objects self;
     _home_location := _home_location self;
     _locations := v; _smile_legacy := _smile_legacy self;
     _thermo_master_id := _thermo_master_id self;
     gateway_id := gateway_id self; heater_id := heater_id self;
     smile_name := smile_name self; smile_type := smile_type self |}.

(** [self._smile_legacy and self.smile_type == "power"] *)
Definition legacy_power (self : smile) : bool :=
  _smile_legacy self && bool_decide (smile_type self = Some "power").

(** [self._smile_legacy and self.smile_type == "thermostat"] *)
Definition legacy_thermostat (self : smile) : bool :=
  _smile_legacy self && bool_decide (smile_type self = Some "thermostat").

(** *** The poll: [update_*] and [full_update_device] *)

Definition APPLIANCES := "/core/appliances".
Definition DIRECT_OBJECTS := "/core/direct_objects".
Definition DOMAIN_OBJECTS := "/core/domain_objects".
Definition LOCATIONS := "/core/locations".

(** The transport is outside the engine: [request] tells for each
    command what [await self.request(command)] gives during the poll:
    a parsed document, [None] (an accepted command has no body), or
    one of its exceptions. *)
Definition transport := string → result (option element).

(** [new_data = await self.request(...)]; the field is assigned only
    when [new_data is not None]. *)
Definition update (request : transport) (command : string)
    (set : option element → smile → smile) : M unit :=
  new_data <~ lift (request command);
  match new_data with
  | Some doc => write (set (Some doc))
  | None => ret tt
  end.

Definition update_appliances (request : transport) : M unit :=
  legacy_power <~ read legacy_power;
  if legacy_power then ret tt
  else update request APPLIANCES set_appliances.

Definition update_direct_objects (request : transport) : M unit :=
  legacy_power <~ read legacy_power;
  if legacy_power then ret tt
  else update request DIRECT_OBJECTS set_direct_objects.

Definition update_domain_objects (request : transport) : M unit :=
  update request DOMAIN_OBJECTS set_domain_objects.

Definition update_locations (request : transport) : M unit :=
  update request LOCATIONS set_locations.

(** [self.smile_type == "power" and not self._smile_legacy] *)
Definition power_not_legacy (self : smile) : bool :=
  bool_decide (smile_type self = Some "power") && negb (_smile_legacy self).

Definition is_none {A} (o : option A) : bool :=
  match o with Some _ => false | None => true end.

Definition full_update_device (request : transport) : M unit :=
  _ <~ update_appliances request;
  _appliances <~ read _appliances;
  power_not_legacy' <~ read power_not_legacy;
  _ <~ (if is_none _appliances && power_not_legacy'
        then lift (Raise XMLDataMissingError) else ret tt);
  _ <~ update_direct_objects request;
  _direct_objects <~ read _direct_objects;
  power_not_legacy' <~ read power_not_legacy;
  _ <~ (if is_none _direct_objects && power_not_legacy'
        then lift (Raise XMLDataMissingError) else ret tt);
  _ <~ update_domain_objects request;
  _domain_objects <~ read _domain_objects;
  _ <~ (if is_none _domain_objects
        then lift (Raise XMLDataMissingError) else ret tt);
  _ <~ update_locations request;
  _locations <~ read _locations;
  if is_none _locations then lift (Raise XMLDataMissingError) else ret tt.

Definition HOME_MEASUREMENTS : dict string string :=
  [ ("electricity_consumed", "power");
    ("electricity_produced", "power");
    ("gas_consumed", "gas");
    ("outdoor_temperature", "temperature") ].

(** The value of a location in the dictionaries of [get_all_locations],
    [match_locations] and [scan_thermostats]; the last one adds the
    keys [master], [master_prio] and [slaves] to the zones it scans. *)
Record thermo := {
  master : pyid;
  master_prio : Z;
  slaves : gset pyid
}.

Record Location := {
  loc_name : option string;
  loc_types : gset string;
  members : gset string;
  zone : option thermo
}.

(** The value of an appliance in the dictionary of [get_all_appliances]. *)
Record Appliance := {
  name : option string;
  types : gset string;
  class : option string;
  location : pyid
}.

(** While [get_all_appliances] runs, the [types] of an appliance without
    a location is not a set of its own: it is the [types] set object of
    the home location, shared by all such appliances and grown by each. *)
Inductive types_ref :=
| Own (s : gset string)
| HomeTypes.

Definition truthy_text (o : option string) : bool :=
  match o with
  | Some s => negb (bool_decide (s = ""))
  | None => false
  end.

Definition point_log (measure : string) : path :=
  [Desc "logs"; Child "point_log"; HasChildText "type" measure].

Definition _types_finder (data : element) : gset string :=
  foldl
    (fun types '(measure, measure_type) =>
       match find (point_log measure) data with
       | Some log =>
           let types :=
             if bool_decide (measure = "outdoor_temperature")
             then {[measure_type]} ∪ types else types in
           match find [Desc "electricity_point_meter"] log with
           | Some meter =>
               if truthy_text (get meter "id")
               then {[measure_type]} ∪ types else types
           | None => types
           end
       | None => types
       end)
    ∅ HOME_MEASUREMENTS.

(** *** [get_all_locations] *)

(** The location synthesized for a legacy Anna without locations. *)
Definition legacy_location (appliances : gset string) : Location :=
  {| loc_name := Some "Legacy"; loc_types := {["temperature"]};
     members := appliances; zone := None |}.

(** One turn of [for location in self._locations]. *)
Definition location_entry (legacy_power : bool) (location : element)
    (acc : dict pyid Location * pyid)
  : result (dict pyid Location * pyid) :=
  let '(locations, home_location) := acc in
  name_el ← need AttributeError (find [Child "name"] location);
  let location_name := text name_el in
  location_id ← attrib_item location "id";
  let locator := [Desc "appliances"; Child "appliance"] in
  location_members ←
    match find locator location with
    | Some _ =>
        for_each (fun member set => id ← attrib_item member "id";
                                    Ok ({[id]} ∪ set))
                 (findall locator location) (∅ : gset string)
    | None => Ok ∅
    end;
  let '(home_location, location_types) :=
    if bool_decide (location_name = Some "Home")
    then (PStr location_id, {["home"]} ∪ _types_finder location)
    else (home_location, (∅ : gset string)) in
  '(location_name, home_location, location_types) ←
    (if legacy_power then
       services ← need TypeError (find [Desc "services"] location);
       if (0 <? Z.of_nat (length (children services)))%Z
       then Ok (Some "Home", PStr location_id,
                {["power"]} ∪ ({["home"]} ∪ location_types))
       else Ok (location_name, home_location, location_types)
     else Ok (location_name, home_location, location_types));
  Ok (dict_set locations (PStr location_id)
        {| loc_name := location_name; loc_types := location_types;
           members := location_members; zone := None |},
      home_location).

Definition get_all_locations : M (dict pyid Location * pyid) :=
  _locations <~ read _locations;
  locs <~ lift (need TypeError _locations);
  legacy <~ read _smile_legacy;
  if (length (children locs) =? 0)%nat && legacy then
    _appliances <~ read _appliances;
    apps <~ lift (need TypeError _appliances);
    appliances <~ lift
      (for_each (fun appliance set => id ← attrib_item appliance "id";
                                      Ok ({[id]} ∪ set))
                (children apps) (∅ : gset string));
    ret ([(PInt 0, legacy_location appliances)], PInt 0)
  else
    legacy_power <~ read legacy_power;
    '(locations, home_location) <~ lift
      (for_each (location_entry legacy_power) (children locs) ([], PNone));
    _ <~ write (set_home_location home_location);
    ret (locations, home_location).

(** *** [get_all_appliances] *)

(** The body of the first loop: [appliance.find("type").text] is
    evaluated for each of the two tests. *)
Definition find_gateway_heater (appliance : element) : M unit :=
  t <~ lift (need AttributeError (find [Child "type"] appliance));
  _ <~ (if bool_decide (text t = Some "gateway") then
          id <~ lift (attrib_item appliance "id");
          write (set_gateway_id (PStr id))
        else ret tt);
  t <~ lift (need AttributeError (find [Child "type"] appliance));
  if bool_decide (text t = Some "heater_central") then
    id <~ lift (attrib_item appliance "id");
    write (set_heater_id (PStr id))
  else ret tt.

(** The dictionary under construction: the [types] of an entry is a
    set of its own or the shared set of the home location. *)
Record appliance_entry := {
  e_name : option string;
  e_types : types_ref;
  e_class : option string;
  e_location : pyid
}.

Definition add_type (t : string) (l : Location) : Location :=
  {| loc_name := loc_name l; loc_types := {[t]} ∪ loc_types l;
     members := members l; zone := zone l |}.

(** One turn of the second loop.  [locations] is the local dictionary
    of the method: the home location's [types] is the object the
    appliances without a location share. *)
Definition appliance_entry_of (heater_id gateway_id : pyid)
    (smile_name : option string) (home_location : pyid)
    (appliance : element)
    (acc : dict pyid appliance_entry * dict pyid Location)
  : result (dict pyid appliance_entry * dict pyid Location) :=
  let '(appliances, locations) := acc in
  id ← attrib_item appliance "id";
  let appliance_id := PStr id in
  type_el ← need AttributeError (find [Child "type"] appliance);
  let appliance_class := text type_el in
  name_el ← need AttributeError (find [Child "name"] appliance);
  let appliance_name := text name_el in
  if bool_decide (appliance_class = Some "open_therm_gateway") then
    Ok (appliances, locations)
  else
    '(appliance_location, appliance_types, appliance_id, appliance_name) ←
      match find [Child "location"] appliance with
      | Some loc_el =>
          loc ← attrib_item loc_el "id";
          Ok (PStr loc, Own (_types_finder appliance),
              appliance_id, appliance_name)
      | None =>
          _ ← need KeyError (dict_get locations home_location);
          let '(appliance_id, appliance_name) :=
            if bool_decide (appliance_class = Some "heater_central")
            then (heater_id, smile_name)
            else (appliance_id, appliance_name) in
          let '(appliance_id, appliance_name) :=
            if bool_decide (appliance_class = Some "gateway")
            then (gateway_id, smile_name)
            else (appliance_id, appliance_name) in
          Ok (PNone, HomeTypes, appliance_id, appliance_name)
      end;
    let functionality :=
      match find [Desc "actuator_functionalities";
                  Child "relay_functionality"] appliance with
      | Some _ => Some "plug"
      | None =>
          match find [Desc "actuator_functionalities";
                      Child "thermostat_functionality"] appliance with
          | Some _ => Some "thermostat"
          | None => None
          end
      end in
    let '(appliance_types, locations) :=
      match functionality, appliance_types with
      | None, _ => (appliance_types, locations)
      | Some t, Own s => (Own ({[t]} ∪ s), locations)
      | Some t, HomeTypes =>
          (HomeTypes,
           match dict_get locations home_location with
           | Some home => dict_set locations home_location (add_type t home)
           | None => locations
           end)
      end in
    Ok (dict_set appliances appliance_id
          {| e_name := appliance_name; e_types := appliance_types;
             e_class := appliance_class; e_location := appliance_location |},
        locations).

(** What the caller sees in the returned dictionary: a shared [types]
    is the home location's set as it stands when the method returns. *)
Definition resolve (locations : dict pyid Location)
    (home_location : pyid) (e : appliance_entry) : Appliance :=
  {| name := e_name e;
     types := match e_types e with
              | Own s => s
              | HomeTypes =>
                  match dict_get locations home_location with
                  | Some home => loc_types home
                  | None => ∅
                  end
              end;
     class := e_class e;
     location := e_location e |}.

Definition get_all_appliances : M (dict pyid Appliance) :=
  '(locations, home_location) <~ get_all_locations;
  legacy_power <~ read legacy_power;
  if legacy_power then
    _home_location <~ read _home_location;
    ret [(_home_location,
          {| name := Some "Smile P1"; types := {["power"; "home"]};
             class := Some "gateway"; location := home_location |})]
  else
    _appliances <~ read _appliances;
    apps <~ lift (need TypeError _appliances);
    _ <~ for_eachM find_gateway_heater (children apps);
    legacy_thermostat <~ read legacy_thermostat;
    _ <~ (if legacy_thermostat
          then heater_id <~ read heater_id; write (set_gateway_id heater_id)
          else ret tt);
    heater_id <~ read heater_id;
    gateway_id <~ read gateway_id;
    smile_name <~ read smile_name;
    '(appliances, locations) <~ lift
      (for_each (appliance_entry_of heater_id gateway_id smile_name
                                    home_location)
                (children apps) ([], locations));
    ret (prod_map id (resolve locations home_location) <$> appliances).

(** *** [match_locations] *)

Definition add_types (ts : gset string) (l : Location)
  : Location :=
  {| loc_name := loc_name l; loc_types := loc_types l ∪ ts;
     members := members l; zone := zone l |}.

Definition match_location (appliances : dict pyid Appliance)
    (location_id : pyid) (location_details : Location)
  : Location :=
  foldl (fun details '(_, appliance_details) =>
           if bool_decide (location appliance_details = location_id)
           then add_types (types appliance_details) details
           else details)
        location_details appliances.

Definition match_locations : M (dict pyid Location * pyid) :=
  '(locations, home_location) <~ get_all_locations;
  appliances <~ get_all_appliances;
  ret (foldl (fun match_locations '(location_id, location_details) =>
                dict_set match_locations location_id
                  (match_location appliances location_id location_details))
             [] locations,
       home_location).

(** *** [scan_thermostats] *)

Definition thermo_matching : dict string Z :=
  [ ("thermostat", 3);
    ("zone_thermostat", 2);
    ("thermostatic_radiator_valve", 1) ].

(** [thermo_matching[appl_class]] when [appl_class in thermo_matching]. *)
Definition prio (appl_class : option string) : option Z :=
  appl_class ≫= dict_get thermo_matching.

(** [{"master": None, "master_prio": 0, "slaves": set([])}] *)
Definition no_master : thermo :=
  {| master := PNone; master_prio := 0; slaves := ∅ |}.

(** [loc_id == appliance_details["location"] or
     (self._smile_legacy and not appliance_details["location"])] *)
Definition in_zone (legacy : bool) (loc_id : pyid)
    (appliance_details : Appliance) : bool :=
  bool_decide (loc_id = location appliance_details)
  || (legacy && falsy (location appliance_details)).

(** The election: what one appliance of the zone does to the zone. *)
Definition elect (appliance_id : pyid) (p : Z) (z : thermo) : thermo :=
  if (master_prio z <? p)%Z then
    {| master := appliance_id;
       master_prio := p;
       slaves := if bool_decide (master z = PNone) then slaves z
                 else {[master z]} ∪ slaves z |}
  else
    {| master := master z; master_prio := master_prio z;
       slaves := {[appliance_id]} ∪ slaves z |}.

(** What the inner loop carries: the zone, [high_prio] and
    [self._thermo_master_id]. *)
Record scan := {
  scan_zone : thermo;
  high_prio : Z;
  thermo_master : pyid
}.

(** One turn of [for appliance_id, appliance_details in appliances.items()]. *)
Definition scan_appliance (legacy : bool) (loc_id : pyid) (s : scan)
    (item : pyid * Appliance) : scan :=
  let '(appliance_id, appliance_details) := item in
  let appl_class := class appliance_details in
  let z :=
    match prio appl_class with
    | Some p =>
        if in_zone legacy loc_id appliance_details
        then elect appliance_id p (scan_zone s)
        else scan_zone s
    | None => scan_zone s
    end in
  match prio appl_class with
  | Some p =>
      if (high_prio s <? p)%Z
      then {| scan_zone := z; high_prio := p; thermo_master := appliance_id |}
      else {| scan_zone := z; high_prio := high_prio s;
              thermo_master := thermo_master s |}
  | None => {| scan_zone := z; high_prio := high_prio s;
               thermo_master := thermo_master s |}
  end.

(** Whether [scan_thermostats] scans the location: it carries the
    "thermostat" tag and is not the home location, or it is the home
    location of a legacy Smile. *)
Definition is_zone (legacy : bool) (home_location loc_id : pyid)
    (location_details : Location) : bool :=
  (bool_decide ("thermostat" ∈ loc_types location_details)
   && negb (bool_decide (loc_id = home_location)))
  || (bool_decide (loc_id = home_location) && legacy).

Definition with_zone (z : thermo) (l : Location) : Location :=
  {| loc_name := loc_name l; loc_types := loc_types l;
     members := members l; zone := Some z |}.

(** One turn of [for loc_id, location_details in locations.items()]:
    the dictionary, [high_prio] and [self._thermo_master_id] after it. *)
Definition scan_location (legacy : bool) (home_location : pyid)
    (appliances : dict pyid Appliance)
    (acc : dict pyid Location * Z * pyid)
    (item : pyid * Location)
  : dict pyid Location * Z * pyid :=
  let '(locations, high, tm) := acc in
  let '(loc_id, location_details) := item in
  if is_zone legacy home_location loc_id location_details then
    let s := foldl (scan_appliance legacy loc_id)
                   {| scan_zone := no_master; high_prio := high;
                      thermo_master := tm |}
                   appliances in
    (dict_set locations loc_id (with_zone (scan_zone s) location_details),
     high_prio s, thermo_master s)
  else (dict_set locations loc_id location_details, high, tm).

Definition scan_thermostats : M (dict pyid Location * pyid) :=
  '(locations, home_location) <~ match_locations;
  appliances <~ get_all_appliances;
  legacy <~ read _smile_legacy;
  _thermo_master_id <~ read _thermo_master_id;
  let '(locations, _, tm) :=
    foldl (scan_location legacy home_location appliances)
          (locations, 0, _thermo_master_id) locations in
  _ <~ write (set_thermo_master_id tm);
  ret (locations, home_location).

(** *** [get_all_devices] *)

Definition with_location (v : pyid) (d : Appliance)
  : Appliance :=
  {| name := name d; types := types d; class := class d; location := v |}.

Definition with_class (v : option string) (d : Appliance)
  : Appliance :=
  {| name := name d; types := types d; class := v; location := location d |}.

(** [appliance in thermo_locations[loc_id]["slaves"]], guarded by
    [loc_id in thermo_locations] and ["slaves" in thermo_locations[loc_id]]. *)
Definition is_slave (thermo_locations : dict pyid Location)
    (loc_id appliance : pyid) : bool :=
  match dict_get thermo_locations loc_id with
  | Some l =>
      match zone l with
      | Some z => bool_decide (appliance ∈ slaves z)
      | None => false
      end
  | None => false
  end.

(** One turn of [for appliance, details in appliances.items()]. *)
Definition device_of (thermo_locations : dict pyid Location)
    (home_location : pyid) (appliance : pyid) (details : Appliance)
  : Appliance :=
  let loc_id := location details in
  let details :=
    if bool_decide (loc_id = PNone)
    then with_location home_location details else details in
  if is_slave thermo_locations loc_id appliance
  then with_class (Some "thermo_sensor") details
  else details.

Definition get_all_devices : M (dict pyid Appliance) :=
  appliances <~ get_all_appliances;
  '(thermo_locations, home_location) <~ scan_thermostats;
  ret (foldl (fun devices '(appliance, details) =>
                dict_set devices appliance
                  (device_of thermo_locations home_location appliance details))
             [] appliances).

(** *** Measurements: [_format_measure] and [get_appliance_data] *)

(** The values of a device record. *)
Inductive value :=
| VNone
| VBool (b : bool)
| VInt (n : Z)
| VFloat (x : float)
| VStr (s : string)
| VList (l : list value)
| VDict (d : list (string * value)).

(** [float(measure)]: a [TypeError] when the element has no text. *)
Definition float_of (measure : option string) : result float :=
  match measure with
  | Some s => py_float s
  | None => Raise TypeError
  end.

(** [float("{:.nf}".format(round(x, n)))] *)
Definition rounded (n : nat) (x : float) : result float :=
  py_float (format_f n (py_round x n)).

Definition _format_measure (measure : option string) : result value :=
  match measure with
  | None => Raise TypeError
  | Some s =>
      match py_int s with
      | Ok n => Ok (VInt n)
      | Raise ValueError =>
          match (x ← py_float s;
                 if flt x ten then rounded 2 x else rounded 1 x) with
          | Ok x => Ok (VFloat x)
          | Raise ValueError =>
              if bool_decide (s = "on") then Ok (VBool true)
              else if bool_decide (s = "off") then Ok (VBool false)
              else Ok (VStr s)
          | Raise e => Raise e
          end
      | Raise e => Raise e
      end
  end.

Definition DEVICE_MEASUREMENTS : dict string string :=
  [ ("thermostat", "setpoint");
    ("temperature", "temperature");
    ("schedule_temperature", "schedule_temperature");
    ("battery", "battery");
    ("valve_position", "valve_position");
    ("temperature_difference", "temperature_difference");
    ("electricity_consumed", "electricity_consumed");
    ("electricity_produced", "electricity_produced");
    ("relay", "relay");
    ("outdoor_temperature", "outdoor_temperature");
    ("intended_central_heating_state", "heating_state");
    ("domestic_hot_water_state", "dhw_state");
    ("boiler_temperature", "water_temperature");
    ("return_water_temperature", "return_temperature");
    ("central_heater_water_pressure", "water_pressure");
    ("boiler_state", "boiler_state");
    ("intended_boiler_state", "intended_boiler_state");
    ("intended_boiler_temperature", "intended_boiler_temperature");
    ("modulation_level", "modulation_level");
    ("cooling_state", "cooling_state");
    ("slave_boiler_state", "slave_boiler_state");
    ("compressor_state", "compressor_state");
    ("flame_state", "flame_state") ].

(** [".//logs/<log>[type='<measurement>']/period/measurement"] *)
Definition log_locator (log measurement : string) : path :=
  [Desc "logs"; Child log; HasChildText "type" measurement;
   Child "period"; Child "measurement"].

(** [str(x)] of an identifier, as the locators format it. *)
Definition py_str (k : pyid) : string :=
  match k with
  | PNone => "None"
  | PInt n =>
      (if (n <? 0)%Z then "-" else "") +:+
      string_of_list_ascii (digits (N.to_uint (Z.abs_N n)))
  | PStr s => s
  end.

(** The interval and cumulative logs of one measurement; [name] is
    rebound by each of the two, so the second suffix comes after the
    first. *)
Definition other_logs (appliance : element) (measurement name : string)
    (data : dict string value) : result (dict string value) :=
  '(name, data) ←
    match find (log_locator "interval_log" measurement) appliance with
    | Some m =>
        let name := name +:+ "_interval" in
        v ← _format_measure (text m); Ok (name, dict_set data name v)
    | None => Ok (name, data)
    end;
  match find (log_locator "cumulative_log" measurement) appliance with
  | Some m =>
      let name := name +:+ "_cumulative" in
      v ← _format_measure (text m); Ok (dict_set data name v)
  | None => Ok data
  end.

(** One turn of [for measurement, name in DEVICE_MEASUREMENTS.items()];
    the two [continue] leave the turn. *)
Definition read_measurement (legacy : bool) (appliance : element)
    (item : string * string) (data : dict string value)
  : result (dict string value) :=
  let '(measurement, name) := item in
  match find (log_locator "point_log" measurement) appliance with
  | Some m =>
      if legacy && bool_decide (measurement = "domestic_hot_water_state")
      then Ok data
      else
        let measure := text m in
        unrealistic ←
          (if bool_decide (measurement = "central_heater_water_pressure")
           then x ← float_of measure; Ok (flt three_and_a_half x)
           else Ok false);
        if (unrealistic : bool) then Ok data
        else
          v ← _format_measure measure;
          other_logs appliance measurement name (dict_set data name v)
  | None => other_logs appliance measurement name data
  end.

(** ['.//appliance[@id="{}"]'.format(dev_id)] *)
Definition appliance_locator (dev_id : pyid) : locator :=
  let id := py_str dev_id in
  if quote_free double_quote id
  then Plain [Desc "appliance"; HasAttr "id" id]
  else Text (".//appliance[@id=" +:+ quoted double_quote id +:+ "]").

Section Locators.

(** What lxml makes of the locators that are no [path]. *)
Context {lx : Lxml}.

Definition get_appliance_data (dev_id : pyid) : M (dict string value) :=
  legacy <~ read _smile_legacy;
  search <~ (if legacy then read _domain_objects else read _appliances);
  search <~ lift (need AttributeError search);
  appliances <~ lift (findall_text (appliance_locator dev_id) search);
  lift (for_each
          (fun appliance =>
             for_each (read_measurement legacy appliance) DEVICE_MEASUREMENTS)
          appliances []).

(** *** Schedules: [in_between] and the interval table of [get_schemas] *)

(** A [datetime.time]. *)
Record time := {
  hour : Z;
  minute : Z;
  second : Z;
  microsecond : Z
}.

(** The order of [datetime.time]: hour, then minute, then second, then
    microsecond. *)
Definition time_compare (a b : time) : comparison :=
  match (hour a ?= hour b)%Z with
  | Eq =>
      match (minute a ?= minute b)%Z with
      | Eq =>
          match (second a ?= second b)%Z with
          | Eq => (microsecond a ?= microsecond b)%Z
          | c => c
          end
      | c => c
      end
  | c => c
  end.

Definition time_leb (a b : time) : bool :=
  match time_compare a b with Gt => false | _ => true end.
Definition time_ltb (a b : time) : bool :=
  match time_compare a b with Lt => true | _ => false end.

Definition in_between (now start end_ : time) : bool :=
  if time_leb start end_
  then time_leb start now && time_ltb now end_
  else time_leb start now || time_ltb now end_.

(** [text.split(sep)] with a separator of one character. *)
Fixpoint split_on (sep : ascii) (cs : list ascii) : list (list ascii) :=
  match cs with
  | [] => [[]]
  | c :: rest =>
      if bool_decide (c = sep) then [] :: split_on sep rest
      else match split_on sep rest with
           | part :: parts => (c :: part) :: parts
           | [] => [[c]]
           end
  end.

(** [text.replace(c, "")] *)
Definition remove (c : ascii) (cs : list ascii) : list ascii :=
  filter (fun x => x ≠ c) cs.

(** The alternatives of [%H] and of [%M] in the pattern [strptime]
    compiles, in the order it tries them: the digits matched, as a
    number, and what follows. *)
Definition match_H (cs : list ascii) : list (Z * list ascii) :=
  match cs with
  | a :: b :: rest =>
      (if bool_decide (a = "2"%char) && is_digit b
          && (code b <=? 51)%N
       then [(number [a; b], rest)] else []) ++
      (if (bool_decide (a = "0"%char) || bool_decide (a = "1"%char))
          && is_digit b
       then [(number [a; b], rest)] else []) ++
      (if is_digit a then [(number [a], b :: rest)] else [])
  | [a] => if is_digit a then [(number [a], [])] else []
  | [] => []
  end.

Definition match_M (cs : list ascii) : list (Z * list ascii) :=
  match cs with
  | a :: b :: rest =>
      (if is_digit a && (code a <=? 53)%N && is_digit b
       then [(number [a; b], rest)] else []) ++
      (if is_digit a then [(number [a], b :: rest)] else [])
  | [a] => if is_digit a then [(number [a], [])] else []
  | [] => []
  end.

(** [datetime.strptime(text, "%H:%M").time()]: the first way to match
    the pattern at the start of the text, which must then be the whole
    text. *)
Definition strptime (text : list ascii) : result time :=
  let found :=
    '(h, r) ← match_H text;
    match r with
    | ":"%char :: r' => '(m, r'') ← match_M r'; [(h, m, r'')]
    | _ => []
    end in
  match found with
  | (h, m, []) :: _ =>
      Ok {| hour := h; minute := m; second := 0; microsecond := 0 |}
  | _ => Raise ValueError
  end.

Definition days : dict string Z :=
  [ ("mo", 0); ("tu", 1); ("we", 2); ("th", 3);
    ("fr", 4); ("sa", 5); ("su", 6) ].

(** [days.get(moment[0], "None") == weekday] *)
Definition on_day (moment : list (list ascii)) (weekday : Z) : bool :=
  match moment !! 0%nat with
  | Some d =>
      bool_decide (dict_get days (string_of_list_ascii d) = Some weekday)
  | None => false
  end.

(** One turn of [for period, temp in schedules.items()]; [weekday] and
    [now] stand for [dt.datetime.now()]. *)
Definition schedule_entry {T} (weekday : Z) (now : time)
    (item : string * T) (schedule_temperature : option T)
  : result (option T) :=
  let '(period, temp) := item in
  '(moment_1, moment_2) ←
    match split_on ","%char (chars period) with
    | [a; b] => Ok (a, b)
    | _ => Raise ValueError
    end;
  let moment_1 := split_on " "%char (remove "["%char moment_1) in
  let moment_2 := split_on " "%char (remove ")"%char moment_2) in
  start ← (t ← need IndexError (moment_1 !! 1%nat); strptime t);
  end_ ← (t ← need IndexError (moment_2 !! 1%nat); strptime t);
  if on_day moment_1 weekday || on_day moment_2 weekday then
    if in_between now start end_ then Ok (Some temp)
    else Ok schedule_temperature
  else Ok schedule_temperature.

Definition schedule_setpoint {T} (weekday : Z) (now : time)
    (schedules : dict string T) : result (option T) :=
  for_each (schedule_entry weekday now) schedules None.

(** *** Presets, schedules and the record of a device *)

(** [del d[k]] when [k] is there, as [d.pop(k, None)] does. *)
Fixpoint dict_del {V} (d : dict string V) (k : string) : dict string V :=
  match d with
  | [] => []
  | (k', v) :: rest =>
      if bool_decide (k' = k) then rest else (k', v) :: dict_del rest k
  end.

(** [sub in text] *)
Fixpoint starts_with (sub text : list ascii) : bool :=
  match sub, text with
  | [], _ => true
  | a :: sub', b :: text' => bool_decide (a = b) && starts_with sub' text'
  | _ :: _, [] => false
  end.

Fixpoint occurs_in (sub text : list ascii) : bool :=
  starts_with sub text
  || match text with
     | [] => false
     | _ :: text' => occurs_in sub text'
     end.

Definition contains (text sub : string) : bool :=
  occurs_in (chars sub) (chars text).

(** ['.//contexts/context/zone/location[@id="{}"]'.format(loc_id)] *)
Definition zone_locator (loc_id : pyid) : locator :=
  let id := py_str loc_id in
  if quote_free double_quote id
  then Plain [Desc "contexts"; Child "context"; Child "zone";
              Child "location"; HasAttr "id" id]
  else Text (".//contexts/context/zone/location[@id="
             +:+ quoted double_quote id +:+ "]").

(** ['.//template[@tag="{}"]'.format(tag)] *)
Definition template_locator (tag : string) : locator :=
  if quote_free double_quote tag
  then Plain [Desc "template"; HasAttr "tag" tag]
  else Text (".//template[@tag=" +:+ quoted double_quote tag +:+ "]").

(** ['.//rule[name="{}"]'.format(name)] *)
Definition named_rule_locator (name : string) : locator :=
  if quote_free double_quote name
  then Plain [Desc "rule"; HasChildText "name" name]
  else Text (".//rule[name=" +:+ quoted double_quote name +:+ "]").

(** The dictionary or [None] that the two [get_rule_ids_*] return. *)
Definition or_none {K V} (d : dict K V) : option (dict K V) :=
  match d with [] => None | _ => Some d end.

Definition get_rule_ids_by_tag (tag : string) (loc_id : pyid)
  : M (option (dict string pyid)) :=
  _domain_objects <~ read _domain_objects;
  domain_objects <~ lift (need AttributeError _domain_objects);
  schema_ids <~ lift
    (for_each
       (fun rule schema_ids =>
          template ← find_text (template_locator tag) rule;
          match template with
          | Some _ =>
              location ← find_text (zone_locator loc_id) rule;
              let v := match location with
                       | Some _ => loc_id
                       | None => PNone
                       end in
              id ← attrib_item rule "id";
              Ok (dict_set schema_ids id v)
          | None => Ok schema_ids
          end)
       (findall [Desc "rule"] domain_objects) []);
  ret (or_none schema_ids).

Definition get_rule_ids_by_name (name : string) (loc_id : pyid)
  : M (option (dict string pyid)) :=
  _domain_objects <~ read _domain_objects;
  domain_objects <~ lift (need AttributeError _domain_objects);
  rules <~ lift (findall_text (named_rule_locator name) domain_objects);
  schema_ids <~ lift
    (for_each
       (fun rule schema_ids =>
          location ← find_text (zone_locator loc_id) rule;
          match location with
          | Some _ =>
              id ← attrib_item rule "id";
              Ok (dict_set schema_ids id loc_id)
          | None => Ok schema_ids
          end)
       rules []);
  ret (or_none schema_ids).

(** ["rule[@id='{}']/<child>".format(rule_id)], from the root of the
    domain objects. *)
Definition rule_child (rule_id child : string) : locator :=
  if quote_free single_quote rule_id
  then Plain [Child "rule"; HasAttr "id" rule_id; Child child]
  else Text ("rule[@id=" +:+ quoted single_quote rule_id +:+ "]/"
             +:+ child).

(** [".//location[@id='{}']/<child>".format(loc_id)] *)
Definition location_child (loc_id : pyid) (child : string) : locator :=
  let id := py_str loc_id in
  if quote_free single_quote id
  then Plain [Desc "location"; HasAttr "id" id; Child child]
  else Text (".//location[@id=" +:+ quoted single_quote id +:+ "]/"
             +:+ child).

(** [preset[key]] on the attributes of an element, then [float()]. *)
Definition float_attr (attrib : list (string * string)) (key : string)
  : result float :=
  s ← need KeyError (dict_get attrib key); py_float s.

(** [str(keys[0])] for the [keys] unzipped from the items of the
    attributes: without an attribute there is nothing to unpack. *)
Definition first_key (attrib : list (string * string)) : result string :=
  match attrib with
  | (k, _) :: _ => Ok k
  | [] => Raise ValueError
  end.

(** A preset: the list of its heating and its cooling setpoint. *)
Definition presets_t := dict string (list value).

Definition __get_presets_legacy : M presets_t :=
  _domain_objects <~ read _domain_objects;
  domain_objects <~ lift (need AttributeError _domain_objects);
  lift (for_each
          (fun directive preset_dictionary =>
             match get directive "icon" with
             | Some icon =>
                 t ← float_attr (attrib directive) "temperature";
                 Ok (dict_set preset_dictionary icon [VFloat t; VInt 0])
             | None => Ok preset_dictionary
             end)
          (findall [Child "rule"; Child "directives"; Child "when";
                    Child "then"] domain_objects)
          []).

(** One turn of [for directive in directives] in [get_presets]. *)
Definition preset_of (directive : element) (presets : presets_t)
  : result presets_t :=
  then_ ← need AttributeError (find [Child "then"] directive);
  let preset := attrib then_ in
  key ← first_key preset;
  setpoints ←
    (if bool_decide (key = "setpoint") then
       t ← float_attr preset "setpoint"; Ok [VFloat t; VInt 0]
     else
       h ← float_attr preset "heating_setpoint";
       c ← float_attr preset "cooling_setpoint";
       Ok [VFloat h; VFloat c]);
  name ← attrib_item directive "preset";
  Ok (dict_set presets name setpoints).

Definition get_presets (loc_id : pyid) : M (option presets_t) :=
  legacy <~ read _smile_legacy;
  if legacy then
    presets <~ __get_presets_legacy; ret (Some presets)
  else
    rule_ids <~ get_rule_ids_by_tag "zone_setpoint_and_state_based_on_preset"
                                    loc_id;
    rule_ids <~ (match rule_ids with
                 | Some ids => ret (Some ids)
                 | None => get_rule_ids_by_name "Thermostat presets" loc_id
                 end);
    match rule_ids with
    | None => ret None
    | Some rule_ids =>
        _domain_objects <~ read _domain_objects;
        domain_objects <~ lift (need AttributeError _domain_objects);
        presets <~ lift
          (for_each
             (fun rule_id presets =>
                directives ←
                  find_text (rule_child rule_id "directives") domain_objects;
                directives ← need TypeError directives;
                for_each preset_of (children directives) presets)
             (keys rule_ids) []);
        ret (Some presets)
    end.

Definition get_preset (loc_id : pyid) : M value :=
  legacy <~ read _smile_legacy;
  _domain_objects <~ read _domain_objects;
  domain_objects <~ lift (need AttributeError _domain_objects);
  if legacy then
    match find [Child "rule"; HasChildText "active" "true";
                Child "directives"; Child "when"; Child "then"]
               domain_objects with
    | Some active_rule =>
        match get active_rule "icon" with
        | Some icon => ret (VStr icon)
        | None => ret (VStr "none")
        end
    | None => ret (VStr "none")
    end
  else
    preset <~ lift (find_text (location_child loc_id "preset") domain_objects);
    match preset with
    | Some preset =>
        ret (match text preset with Some s => VStr s | None => VNone end)
    | None => ret VNone
    end.

(** [get_presets] only reads: inside the loops of [get_schemas] it is
    what it returns or raises that matters. *)
Definition outcome {A} (m : M A) : M (result A) :=
  fun self => (self, Ok (m self).2).

(** [determine_selected]: the names in order, and the last one that is
    active. *)
Definition determine_selected (available : list (option string))
    (selected : option string) (schemas : dict (option string) bool)
  : list (option string) * option string :=
  foldl (fun '(available, selected) '(schema_a, schema_b) =>
           (available ++ [schema_a],
            if (schema_b : bool) then schema_a else selected))
        (available, selected) schemas.

(** What [get_schemas] returns: the available schedules, the selected
    one and the setpoint of the schedule for now. *)
Definition schemas_t : Type :=
  list (option string) * option string * option float.

(** One turn of [for directive in directives] in [get_schemas]. *)
Definition schedule_of (presets : result (option presets_t))
    (directive : element) (schedules : dict string float)
  : result (dict string float) :=
  then_ ← need AttributeError (find [Child "then"] directive);
  let schedule := attrib then_ in
  key ← first_key schedule;
  temp ←
    (if bool_decide (key = "preset") then
       presets ← presets;
       name ← need KeyError (dict_get schedule "preset");
       presets ← need TypeError presets;
       setpoints ← need KeyError (dict_get presets name);
       first ← need IndexError (setpoints !! 0%nat);
       match first with
       | VFloat t => Ok t
       | _ => Raise TypeError
       end
     else float_attr schedule "setpoint");
  time ← attrib_item directive "time";
  Ok (dict_set schedules time temp).

(** The state of the loop over the rules in [get_schemas]; [returned]
    when a rule without directives ended the method. *)
Record schemas_loop := {
  schemas : dict (option string) bool;
  schedule_temperature : option float;
  returned : bool
}.

Definition schema_of (weekday : Z) (now : time) (loc_id : pyid)
    (presets : result (option presets_t)) (domain_objects : element)
    (item : string * pyid) (acc : schemas_loop) : result schemas_loop :=
  if returned acc then Ok acc else
  let '(rule_id, location_id) := item in
  name_el ← find_text (rule_child rule_id "name") domain_objects;
  name_el ← need AttributeError name_el;
  let name := text name_el in
  active ←
    (if bool_decide (location_id = loc_id) then
       active_el ← find_text (rule_child rule_id "active") domain_objects;
       active_el ← need AttributeError active_el;
       Ok (bool_decide (text active_el = Some "true"))
     else Ok false);
  let schemas := dict_set (schemas acc) name active in
  directives ← find_text (rule_child rule_id "directives") domain_objects;
  match directives with
  | None =>
      Ok {| schemas := schemas;
            schedule_temperature := schedule_temperature acc;
            returned := true |}
  | Some directives =>
      schedules ← for_each (schedule_of presets) (children directives) [];
      temp ← for_each (schedule_entry weekday now) schedules
                      (schedule_temperature acc);
      Ok {| schemas := schemas; schedule_temperature := temp;
            returned := false |}
  end.

Definition get_schemas (weekday : Z) (now : time) (loc_id : pyid)
  : M schemas_t :=
  legacy <~ read _smile_legacy;
  if legacy then
    _domain_objects <~ read _domain_objects;
    domain_objects <~ lift (need AttributeError _domain_objects);
    name <~ lift
      (for_each
         (fun schema name =>
            name_el ← need AttributeError (find [Child "name"] schema);
            match text name_el with
            | Some rule_name =>
                if negb (bool_decide (rule_name = ""))
                   && negb (contains rule_name "preset")
                then Ok (Some rule_name) else Ok name
            | None => Ok name
            end)
         (findall [Desc "rule"] domain_objects) None);
    let active :=
      match find [Child "appliance"; HasChildText "type" "thermostat";
                  Child "logs"; Child "point_log";
                  HasChildText "type" "schedule_state";
                  Child "period"; Child "measurement"] domain_objects with
      | Some m => bool_decide (text m = Some "on")
      | None => false
      end in
    let schemas := match name with
                   | Some n => [(Some n, active)]
                   | None => []
                   end in
    let '(available, selected) := determine_selected [] None schemas in
    ret (available, selected, None)
  else
    rule_ids <~ get_rule_ids_by_tag
      "zone_preset_based_on_time_and_presence_with_override" loc_id;
    match rule_ids with
    | None => ret ([], None, None)
    | Some rule_ids =>
        _domain_objects <~ read _domain_objects;
        domain_objects <~ lift (need AttributeError _domain_objects);
        presets <~ outcome (get_presets loc_id);
        acc <~ lift
          (for_each (schema_of weekday now loc_id presets domain_objects)
                    rule_ids
                    {| schemas := []; schedule_temperature := None;
                       returned := false |});
        if returned acc then ret ([], None, schedule_temperature acc)
        else
          let '(available, selected) :=
            determine_selected [] None (schemas acc) in
          ret (available, selected, schedule_temperature acc)
    end.

Section LastUsed.

(** [(parse(text) - epoch).total_seconds()], of the dateutil library. *)
Variable total_seconds : option string → result float.

(** [sorted(schemas.items(), key=lambda kv: kv[1])[-1][0]]: the sort is
    stable, so among the latest schedules the last one is taken. *)
Definition latest (schemas : dict (option string) float) : option string :=
  match foldl (fun best '(name, t) =>
                 match best with
                 | Some (_, t') => if flt t t' then best else Some (name, t)
                 | None => Some (name, t)
                 end)
              None schemas with
  | Some (name, _) => name
  | None => None
  end.

Definition get_last_active_schema (loc_id : pyid) : M (option string) :=
  rule_ids <~ get_rule_ids_by_tag
    "zone_preset_based_on_time_and_presence_with_override" loc_id;
  match rule_ids with
  | None => ret None
  | Some rule_ids =>
      _domain_objects <~ read _domain_objects;
      domain_objects <~ lift (need AttributeError _domain_objects);
      schemas <~ lift
        (for_each
           (fun '(rule_id, location_id) schemas =>
              if bool_decide (location_id = loc_id) then
                name_el ←
                  find_text (rule_child rule_id "name") domain_objects;
                name_el ← need AttributeError name_el;
                date_el ←
                  find_text (rule_child rule_id "modified_date")
                            domain_objects;
                date_el ← need AttributeError date_el;
                t ← total_seconds (text date_el);
                Ok (dict_set schemas (text name_el) t)
              else Ok schemas)
           rule_ids []);
      ret (latest schemas)
  end.

Definition log_list : list string :=
  ["point_log"; "cumulative_log"; "interval_log"].
Definition peak_list : list string := ["nl_peak"; "nl_offpeak"].

(** [text.split("_")[i]] *)
Definition part (i : nat) (text : string) : result string :=
  need IndexError (string_of_list_ascii <$> split_on "_"%char (chars text) !! i).

(** The body of the three loops of [get_direct_objects_from_location]. *)
Definition direct_entry (loc_logs : element) (power : bool)
    (t_string measurement log_type peak_select : string)
    (direct_data : dict string float) : result (dict string float) :=
  let plain := [Desc log_type; HasChildText "type" measurement;
                Child "period"; Child "measurement"] in
  let locator := plain ++ [HasAttr t_string peak_select] in
  let unsplit := is_none (find locator loc_logs) && power in
  if unsplit && bool_decide (peak_select = "nl_offpeak") then Ok direct_data
  else
    match find (if unsplit then plain else locator) loc_logs with
    | None => Ok direct_data
    | Some m =>
        peak ← part 1 peak_select;
        let peak := if bool_decide (peak = "offpeak") then "off_peak"
                    else peak in
        log_found ← part 0 log_type;
        let key_string :=
          if contains measurement "gas"
          then measurement +:+ "_" +:+ log_found
          else measurement +:+ "_" +:+ peak +:+ "_" +:+ log_found in
        let net_string := "net_electricity_" +:+ log_found in
        val ← float_of (text m);
        let direct_data :=
          if contains measurement "electricity" then
            let diff := if contains measurement "produced"
                        then SFopp val else val in
            let net := default (S754_zero false)
                               (dict_get direct_data net_string) in
            dict_set direct_data net_string (SFadd prec emax net diff)
          else direct_data in
        Ok (dict_set direct_data key_string val)
    end.

Definition get_direct_objects_from_location (loc_id : pyid)
  : M (option (dict string float)) :=
  legacy_power <~ read legacy_power;
  search <~ (if legacy_power then read _domain_objects
             else read _direct_objects);
  let t_string := if legacy_power then "tariff_indicator" else "tariff" in
  search <~ lift (need AttributeError search);
  loc_logs <~ lift (find_text (location_child loc_id "logs") search);
  match loc_logs with
  | None => ret None
  | Some loc_logs =>
      smile_type <~ read smile_type;
      let power := bool_decide (smile_type = Some "power") in
      direct_data <~ lift
        (for_each
           (fun measurement =>
              for_each
                (fun log_type =>
                   for_each (direct_entry loc_logs power t_string
                                          measurement log_type)
                            peak_list)
                log_list)
           (keys HOME_MEASUREMENTS) []);
      ret (or_none direct_data)
  end.

(** A tag made of letters and underscores. *)
Definition tag_name (s : string) : bool :=
  negb (bool_decide (s = ""))
  && forallb (fun c => let n := code c in
                ((65 <=? n) && (n <=? 90) || (97 <=? n) && (n <=? 122)
                 || (n =? 95))%N)
             (chars s).

(** [".//{}[@id='{}']/logs/point_log[type='{}']/period/measurement"
     .format(obj_type, appl_id, measurement)] *)
Definition value_locator (obj_type : string) (appl_id : pyid)
    (measurement : string) : locator :=
  let id := py_str appl_id in
  if tag_name obj_type && quote_free single_quote id
     && quote_free single_quote measurement
  then Plain [Desc obj_type; HasAttr "id" id; Child "logs";
              Child "point_log"; HasChildText "type" measurement;
              Child "period"; Child "measurement"]
  else Text (".//" +:+ obj_type +:+ "[@id=" +:+ quoted single_quote id
             +:+ "]/logs/point_log[type="
             +:+ quoted single_quote measurement
             +:+ "]/period/measurement").

Definition get_object_value (obj_type : string) (appl_id : pyid)
    (measurement : string) : M (option float) :=
  legacy_power <~ read legacy_power;
  search <~ (if legacy_power then read _domain_objects
             else read _direct_objects);
  search <~ lift (need AttributeError search);
  m <~ lift (find_text (value_locator obj_type appl_id measurement) search);
  match m with
  | Some m =>
      val <~ lift (float_of (text m));
      val <~ lift (rounded 1 val);
      ret (Some val)
  | None => ret None
  end.

(** *** [get_device_data] *)

Definition thermostat_classes : list string :=
  ["thermostat"; "zone_thermostat"; "thermostatic_radiator_valve"].

Definition opt_value {A} (f : A → value) (o : option A) : value :=
  match o with Some a => f a | None => VNone end.

(** [if x:] on a value. *)
Definition truthy (v : value) : bool :=
  match v with
  | VNone => false
  | VBool b => b
  | VInt n => negb (n =? 0)%Z
  | VFloat (S754_zero _) => false
  | VFloat _ => true
  | VStr s => negb (bool_decide (s = ""))
  | VList l => negb (bool_decide (l = []))
  | VDict d => negb (bool_decide (d = []))
  end.

(** ["".join(map(str, names))] *)
Definition joined (names : list (option string)) : string :=
  foldr (fun n s => default "None" n +:+ s) "" names.

(** The keys a thermostat adds to its record. *)
Definition thermostat_data (weekday : Z) (now : time) (location : pyid)
    (device_data : dict string value) : M (dict string value) :=
  active_preset <~ get_preset location;
  let device_data := dict_set device_data "active_preset" active_preset in
  presets <~ get_presets location;
  let device_data :=
    dict_set device_data "presets"
      (opt_value (fun p => VDict (prod_map id VList <$> p)) presets) in
  '(avail_schemas, sel_schema, sched_setpoint) <~
    get_schemas weekday now location;
  legacy <~ read _smile_legacy;
  let device_data :=
    if legacy then device_data
    else dict_set device_data "schedule_temperature"
                  (opt_value VFloat sched_setpoint) in
  let device_data :=
    dict_set device_data "available_schedules"
             (VList (opt_value VStr <$> avail_schemas)) in
  let device_data :=
    dict_set device_data "selected_schedule" (opt_value VStr sel_schema) in
  if legacy then
    ret (dict_set device_data "last_used" (VStr (joined avail_schemas)))
  else
    last_used <~ get_last_active_schema location;
    ret (dict_set device_data "last_used" (opt_value VStr last_used)).

(** The keys the gateway adds to its record. *)
Definition gateway_data (location : pyid) (device_data : dict string value)
  : M (dict string value) :=
  power_data <~ get_direct_objects_from_location location;
  let device_data :=
    match power_data with
    | Some power_data =>
        foldl (fun d '(k, v) => dict_set d k (VFloat v)) device_data power_data
    | None => device_data
    end in
  heater_id <~ read heater_id;
  heater_data <~ get_appliance_data heater_id;
  outdoor_temperature <~
    (match dict_get heater_data "outdoor_temperature" with
     | Some VNone | None =>
         _home_location <~ read _home_location;
         v <~ get_object_value "location" _home_location "outdoor_temperature";
         ret (opt_value VFloat v)
     | Some v => ret v
     end);
  if truthy outdoor_temperature
  then ret (dict_set device_data "outdoor_temperature" outdoor_temperature)
  else ret device_data.

(** [get_device_data] once [devices = self.get_all_devices()] is done. *)
Definition device_record (weekday : Z) (now : time) (dev_id : pyid)
    (devices : dict pyid Appliance) : M (dict string value) :=
  let details := dict_get devices dev_id in
  device_data <~ get_appliance_data dev_id;
  device_data <~ lift
    (if dict_in device_data "boiler_state" then
       v ← need KeyError (dict_get device_data "intended_boiler_state");
       Ok (dict_del (dict_del (dict_set device_data "heating_state" v)
                              "boiler_state")
                    "intended_boiler_state")
     else Ok device_data);
  let device_data :=
    if dict_in device_data "setpoint"
    then dict_del device_data "heating_state" else device_data in
  details <~ lift (need TypeError details);
  device_data <~
    (if bool_decide (class details ∈ Some <$> thermostat_classes)
     then thermostat_data weekday now (location details) device_data
     else ret device_data);
  device_data <~
    (if bool_decide (class details = Some "thermostat") then
       illuminance <~ get_object_value "appliance" dev_id "illuminance";
       ret (dict_set device_data "illuminance" (opt_value VFloat illuminance))
     else ret device_data);
  gateway_id <~ read gateway_id;
  if bool_decide (class details = Some "gateway")
     || bool_decide (dev_id = gateway_id)
  then gateway_data (location details) device_data
  else ret device_data.

Definition get_device_data (weekday : Z) (now : time) (dev_id : pyid)
  : M (dict string value) :=
  devices <~ get_all_devices;
  device_record weekday now dev_id devices.

End LastUsed.

End Locators.

(** *** Vocabulary of the specification *)

(** The candidates of a zone, in scan order: the appliances of the zone
    whose class has a priority, each with that priority. *)
Definition candidates (legacy : bool) (loc_id : pyid)
    (appliances : dict pyid Appliance) : list (pyid * Z) :=
  omap (fun '(appliance_id, details) =>
          p ← prio (class details);
          if in_zone legacy loc_id details
          then Some (appliance_id, p) else None)
       appliances.

(** The highest priority among candidates; [0] when there is none. *)
Definition max_prio (cands : list (pyid * Z)) : Z :=
  foldr Z.max 0 cands.*2.

(** The election over the candidates of a zone. *)
Definition election (cands : list (pyid * Z)) : thermo :=
  foldl (fun z '(appliance_id, p) => elect appliance_id p z) no_master cands.

(** The fields no method of the engine assigns. *)
Definition config (s : smile) :=
  (_appliances s, _direct_objects s, _domain_objects s, _locations s,
   _smile_legacy s, smile_name s, smile_type s).

(** A method that leaves those fields as they are. *)
Definition frames {A} (m : M A) : Prop := ∀ s, config (m s).1 = config s.

(** The election continued from a zone [z]. *)
Definition elect_all (z : thermo) (cands : list (pyid * Z)) : thermo :=
  foldl (fun z '(appliance_id, p) => elect appliance_id p z) z cands.

(** What [get_all_appliances] promises about its dictionary: no key
    twice, no [open_therm_gateway], and a thermostat class only under
    the text of an [id] attribute. *)
Definition well_keyed (appliances : dict pyid Appliance) : Prop :=
  NoDup (keys appliances) ∧
  ∀ appliance_id details, (appliance_id, details) ∈ appliances →
    class details ≠ Some "open_therm_gateway" ∧
    (is_Some (prio (class details)) → ∃ s, appliance_id = PStr s).

Definition well_keyed_entries (appliances : dict pyid appliance_entry)
  : Prop :=
  NoDup (keys appliances) ∧
  ∀ appliance_id e, (appliance_id, e) ∈ appliances →
    e_class e ≠ Some "open_therm_gateway" ∧
    (is_Some (prio (e_class e)) → ∃ s, appliance_id = PStr s).

(** What [scan_thermostats] leaves in a location. *)
Definition scanned (legacy : bool) (home_location : pyid)
    (appliances : dict pyid Appliance) (loc_id : pyid) (details : Location)
  : Location :=
  if is_zone legacy home_location loc_id details
  then with_zone (election (candidates legacy loc_id appliances)) details
  else details.

(** Locations as [get_all_locations] and [match_locations] give them:
    without the keys of a scanned zone. *)
Definition unscanned (locations : dict pyid Location) : Prop :=
  ∀ k l, (k, l) ∈ locations → zone l = None.

(** The microseconds since midnight of a time of day, and the times
    of day [datetime.time] can hold. *)
Definition micros (t : time) : Z :=
  (((hour t * 60 + minute t) * 60 + second t) * 1000000 + microsecond t)%Z.

Definition valid_time (t : time) : Prop :=
  (0 ≤ hour t < 24 ∧ 0 ≤ minute t < 60 ∧ 0 ≤ second t < 60
   ∧ 0 ≤ microsecond t < 1000000)%Z.

Definition at_hm (h m : Z) : time :=
  {| hour := h; minute := m; second := 0; microsecond := 0 |}.

(** The entry of [DEVICE_MEASUREMENTS] for the water pressure. *)
Definition pressure : string * string :=
  ("central_heater_water_pressure", "water_pressure").

(** The magnitude of a number. *)
Definition magnitude (x : float) : float := SFabs x.

(** A method that neither reads nor assigns [self._thermo_master_id]. *)
Definition ignores_thermo_master {A} (m : M A) : Prop :=
  ∀ s t, m (set_thermo_master_id t s)
         = (set_thermo_master_id t (m s).1, (m s).2).

(** A method that assigns nothing. *)
Definition reader {A} (m : M A) : Prop := ∀ s, (m s).1 = s.

(** An assignment that may not take place. *)
Definition assign (set : pyid → smile → smile) (w : option pyid) (s : smile)
  : smile :=
  match w with Some v => set v s | None => s end.

(** Keys of the location dictionaries are never [None]. *)
Definition located (locations : dict pyid Location) : Prop :=
  PNone ∉ keys locations.

(** The resolution pipeline: [get_device_data] for each device id in
    turn on one object, with what each call gives, a record or an
    exception, in that order. *)
Fixpoint device_records {lx : Lxml}
    (total_seconds : option string → result float) (weekday : Z) (now : time) (ids : list pyid) (self : smile)
  : smile * list (result (dict string value)) :=
  match ids with
  | [] => (self, [])
  | dev_id :: rest =>
      let '(self, record) :=
        get_device_data total_seconds weekday now dev_id self in
      let '(self, records) :=
        device_records total_seconds weekday now rest self in
      (self, record :: records)
  end.

(** *** Methods beside the pipeline *)

(** [single_master_thermostat]: [None], [True] or [False]. *)
Definition single_master_thermostat : M (option bool) :=
  '(locations, _) <~ scan_thermostats;
  let count :=
    foldl (fun count '(_, data) =>
             match zone data with
             | Some z => if (0 <? master_prio z)%Z then (count + 1)%Z
                         else count
             | None => count
             end)
          0%Z locations in
  if (count =? 0)%Z then ret None
  else if (count =? 1)%Z then ret (Some true)
  else ret (Some false).

(** The class [[a-zA-Z#]] of the pattern. *)
Definition entity_char (c : ascii) : bool :=
  let n := code c in
  ((65 <=? n) && (n <=? 90))%N || ((97 <=? n) && (n <=? 122))%N
  || bool_decide (c = "#"%char).

(** [re.sub(r"&([^a-zA-Z#])", r"&amp;\1", xmldata)]: the matches are
    taken from left to right and do not overlap, so the character after
    a replaced [&] is not looked at again. *)
Fixpoint sub_ampersand (cs : list ascii) : list ascii :=
  match cs with
  | [] => []
  | c :: rest =>
      if bool_decide (c = "&"%char) then
        match rest with
        | d :: rest' =>
            if entity_char d then c :: sub_ampersand rest
            else chars "&amp;" ++ d :: sub_ampersand rest'
        | [] => [c]
        end
      else c :: sub_ampersand rest
  end.

Definition escape_illegal_xml_characters (xmldata : string) : string :=
  string_of_list_ascii (sub_ampersand (chars xmldata)).

(** *** More vocabulary *)

(** A method that leaves [f self] as it is. *)
Definition keeps {A T} (f : smile → T) (m : M A) : Prop :=
  ∀ s, f (m s).1 = f s.

(** The fields a poll does not assign. *)
Definition carried (s : smile) :=
  (_home_location s, _thermo_master_id s, gateway_id s, heater_id s,
   _smile_legacy s, smile_name s, smile_type s).

(** The appliances that have a thermostat class, each with its
    priority, in the order of the dictionary, wherever they are. *)
Definition thermostats (appliances : dict pyid Appliance)
  : list (pyid * Z) :=
  omap (fun '(appliance_id, details) =>
          p ← prio (class details); Some (appliance_id, p))
       appliances.

(** The first of the candidates that has the highest priority. *)
Definition first_highest (cands : list (pyid * Z)) : option pyid :=
  fst <$> head (filter (fun c => c.2 = max_prio cands) cands).

(** A location with a master thermostat. *)
Definition has_master (l : Location) : bool :=
  match zone l with
  | Some z => negb (bool_decide (master z = PNone))
  | None => false
  end.

(** No [&] of the text is followed by a character that is neither a
    letter nor [#]. *)
Fixpoint escaped (cs : list ascii) : bool :=
  match cs with
  | [] => true
  | c :: rest =>
      (if bool_decide (c = "&"%char)
       then match rest with
            | d :: _ => entity_char d
            | [] => true
            end
       else true)
      && escaped rest
  end.

(** The four documents are there. *)
Definition complete (s : smile) : Prop :=
  is_Some (_appliances s) ∧ is_Some (_direct_objects s) ∧
  is_Some (_domain_objects s) ∧ is_Some (_locations s).

End Smile.

(** ** Snapshots used as examples *)

Module Snapshots.
Import Smile.

Definition leaf (t x : string) : element := Element t [] (Some x) [] None.

Definition node (t : string) (cs : list element) : element :=
  Element t [] None cs None.

(** [<point_log>] and the like, with one measurement. *)
Definition a_log (kind type measurement : string) : element :=
  node kind [leaf "type" type; node "period" [leaf "measurement" measurement]].

(** [<appliance id=...>] with its name, type, location and more. *)
Definition an_appliance (id class name : string) (loc : option string)
    (more : list element) : element :=
  Element "appliance" [("id", id)] None
    ([leaf "name" name; leaf "type" class]
     ++ match loc with
        | Some l => [Element "location" [("id", l)] None [] None]
        | None => []
        end
     ++ more)
    None.

Definition thermostat_functionality : element :=
  node "actuator_functionalities"
       [Element "thermostat_functionality" [("id", "tf")] None [] None].

Definition a_location (id name : string) : element :=
  Element "location" [("id", id)] None [leaf "name" name] None.

Definition fresh (legacy : bool) (type : string)
    (appliances locations : option element) : smile :=
  {| _appliances := appliances; _direct_objects := None;
     _domain_objects := appliances;
     _home_location := PNone; _locations := locations;
     _smile_legacy := legacy; _thermo_master_id := PNone;
     gateway_id := PNone; heater_id := PNone;
     smile_name := Some "Smile"; smile_type := Some type |}.

(** An Adam: a gateway, an OpenTherm gateway, and a zone with a radiator
    valve, a zone thermostat and a second radiator valve. *)
Definition adam_appliances : element :=
  node "appliances"
    [ an_appliance "gw" "gateway" "Adam" None [];
      an_appliance "otg" "open_therm_gateway" "OpenTherm" None [];
      an_appliance "tom" "thermostatic_radiator_valve" "Tom" (Some "z1")
                [thermostat_functionality];
      an_appliance "lisa" "zone_thermostat" "Lisa" (Some "z1")
                [thermostat_functionality];
      an_appliance "tom2" "thermostatic_radiator_valve" "Tom 2" (Some "z1")
                [thermostat_functionality] ].

Definition adam_locations : element :=
  node "locations" [a_location "home" "Home"; a_location "z1" "Living room"].

Definition adam : smile :=
  fresh false "thermostat" (Some adam_appliances) (Some adam_locations).

(** A legacy Anna: three appliances and no location. *)
Definition anna_appliances : element :=
  node "appliances"
    [ an_appliance "a1" "thermostat" "Anna" None [thermostat_functionality];
      an_appliance "a2" "heater_central" "Boiler" None [];
      an_appliance "a3" "gateway" "Gateway" None [] ].

Definition anna : smile :=
  fresh true "thermostat" (Some anna_appliances) (Some (node "locations" [])).

(** A boiler with one water pressure reading. *)
Definition boiler (reading : string) : smile :=
  fresh false "thermostat"
    (Some (node "appliances"
             [an_appliance "heater" "heater_central" "Boiler" None
                [node "logs"
                   [a_log "point_log" "central_heater_water_pressure"
                        reading]]]))
    (Some adam_locations).

(** A legacy Anna whose boiler reports hot water and its own state. *)
Definition legacy_boiler : smile :=
  fresh true "thermostat"
    (Some (node "appliances"
             [an_appliance "heater" "heater_central" "Boiler" None
                [node "logs"
                   [a_log "point_log" "domestic_hot_water_state" "on";
                    a_log "point_log" "modulation_level" "0"]]]))
    (Some (node "locations" [])).

(** A plug with the three logs of the electricity it consumed. *)
Definition plug : smile :=
  fresh false "thermostat"
    (Some (node "appliances"
             [an_appliance "plug" "zz_misc" "Plug" (Some "z1")
                [node "logs"
                   [a_log "point_log" "electricity_consumed" "12.5";
                    a_log "interval_log" "electricity_consumed" "3";
                    a_log "cumulative_log" "electricity_consumed" "250"]]]))
    (Some adam_locations).

(** [<rule id=...>] with its name, state, template, zone and
    directives. *)
Definition a_rule (id name active tag loc : string) (directives : list element)
  : element :=
  Element "rule" [("id", id)] None
    [leaf "name" name; leaf "active" active;
     leaf "modified_date" "2020-01-01T00:00:00";
     Element "template" [("tag", tag)] None [] None;
     node "contexts"
       [node "context"
          [node "zone" [Element "location" [("id", loc)] None [] None]]];
     node "directives" directives]
    None.

(** [<when ...><then .../></when>] *)
Definition a_directive (when_ then_ : list (string * string)) : element :=
  Element "when" when_ None [Element "then" then_ None [] None] None.

(** The domain objects of the Adam: the presets and a week schedule of
    the living room, and the outdoor temperature at home. *)
Definition adam_domain_objects : element :=
  node "domain_objects"
    [ a_rule "r1" "Thermostat presets" "true"
        "zone_setpoint_and_state_based_on_preset" "z1"
        [ a_directive [("preset", "home")]
            [("heating_setpoint", "20.5"); ("cooling_setpoint", "25")];
          a_directive [("preset", "away")]
            [("heating_setpoint", "15"); ("cooling_setpoint", "30")] ];
      a_rule "r2" "Weekschema" "true"
        "zone_preset_based_on_time_and_presence_with_override" "z1"
        [ a_directive [("time", "[mo 06:00,mo 22:00)")] [("preset", "home")];
          a_directive [("time", "[mo 22:00,mo 06:00)")] [("setpoint", "16")] ];
      Element "location" [("id", "z1")] None
        [leaf "name" "Living room"; leaf "preset" "home"] None;
      Element "location" [("id", "home")] None
        [leaf "name" "Home";
         node "logs" [a_log "point_log" "outdoor_temperature" "7.44"]]
        None ].

Definition adam_polled : smile :=
  {| _appliances := Some adam_appliances;
     _direct_objects := Some adam_domain_objects;
     _domain_objects := Some adam_domain_objects;
     _home_location := PNone; _locations := Some adam_locations;
     _smile_legacy := false; _thermo_master_id := PNone;
     gateway_id := PNone; heater_id := PNone;
     smile_name := Some "Adam"; smile_type := Some "thermostat" |}.

(** A transport that has every document but the appliances. *)
Definition without_appliances : transport :=
  fun command =>
    if bool_decide (command = APPLIANCES) then Ok None
    else Ok (Some (node "xml" [])).

(** A Smile before its first poll. *)
Definition unpolled (legacy : bool) (type : string) : smile :=
  fresh legacy type None None.

(** A transport that has the four documents of a snapshot. *)
Definition serving (appliances direct_objects domain_objects locations
                    : element) : transport :=
  fun command =>
    if bool_decide (command = APPLIANCES) then Ok (Some appliances)
    else if bool_decide (command = DIRECT_OBJECTS)
         then Ok (Some direct_objects)
    else if bool_decide (command = DOMAIN_OBJECTS)
         then Ok (Some domain_objects)
    else Ok (Some locations).

(** The object after a poll. *)
Definition polled (request : transport) (self : smile) : smile :=
  (full_update_device request self).1.

(** A legacy Anna without locations that lists the given appliances. *)
Definition legacy_anna (appliances : list element) : transport :=
  serving (node "appliances" appliances) (node "direct_objects" [])
          (node "domain_objects" appliances) (node "locations" []).

Definition anna_gateway : element :=
  an_appliance "g" "gateway" "Gateway" None [].

Definition anna_boiler : element :=
  an_appliance "h" "heater_central" "Boiler" None [].

(** The legacy Anna polled while it lists its boiler, and polled again
    when it lists the gateway only: by a new object, and by the object
    that ran [get_device_data] after the first poll. *)
Definition with_boiler : transport := legacy_anna [anna_boiler; anna_gateway].

Definition without_boiler : transport := legacy_anna [anna_gateway].

(** An lxml that refuses every locator that is no [path]. *)
Definition refusing : Lxml := fun _ _ => Raise SyntaxError.

(** A clock for [get_last_active_schema]: every date is the epoch. *)
Definition at_epoch (date : option string) : result float :=
  Ok (SpecFloat.S754_zero false).

(** A legacy P1: one location, whose services are filled. *)
Definition legacy_p1 : smile :=
  fresh true "power" None
    (Some (node "locations"
             [Element "location" [("id", "p1")] None
                [leaf "name" "Meter";
                 node "services" [node "electricity_point_meter" []]]
                None])).

(** A legacy Anna polled: its thermostat reports the setpoint and the
    two boiler states. *)
Definition anna_polled : smile :=
  polled
    (legacy_anna
       [an_appliance "a1" "thermostat" "Anna" None
          [thermostat_functionality;
           node "logs"
             [a_log "point_log" "thermostat" "20.5";
              a_log "point_log" "boiler_state" "on";
              a_log "point_log" "intended_boiler_state" "off"]]])
    (unpolled true "thermostat").

Definition new_object : smile :=
  polled without_boiler (unpolled true "thermostat").

Definition old_object {lx : Lxml} : smile :=
  polled without_boiler
    (get_device_data at_epoch 0 (at_hm 12 0) (PStr "h")
       (polled with_boiler (unpolled true "thermostat"))).1.

End Snapshots.

Import Smile Snapshots.

(** * Properties

    ** Dictionaries, loops and methods *)

Section DictFacts.
Context {K V : Type} `{EqDecision K}.
Implicit Types (d : dict K V) (k : K) (v : V).

Lemma dict_get_set_eq d k v : dict_get (dict_set d k v) k = Some v.
Proof.
  induction d as [|[k' v'] d IH]; simpl.
  - by rewrite decide_True.
  - destruct (decide (k' = k)) as [->|Hne]; simpl.
    + by rewrite decide_True.
    + by rewrite decide_False.
Qed.

Lemma dict_get_set_ne d k k' v :
  k ≠ k' → dict_get (dict_set d k v) k' = dict_get d k'.
Proof.
  intros Hne. induction d as [|[k0 v0] d IH]; simpl.
  - by rewrite decide_False.
  - destruct (decide (k0 = k)) as [->|Hk]; simpl.
    + by rewrite !decide_False.
    + destruct (decide (k0 = k')); done.
Qed.

Lemma dict_get_Some_elem d k v : dict_get d k = Some v → (k, v) ∈ d.
Proof.
  induction d as [|[k0 v0] d IH]; simpl; [done|].
  destruct (decide (k0 = k)) as [->|Hk].
  - intros [= ->]. left.
  - intros ?. right. auto.
Qed.

Lemma dict_get_None d k : dict_get d k = None ↔ k ∉ keys d.
Proof.
  unfold keys. induction d as [|[k0 v0] d IH]; csimpl.
  - split; [intros _; apply not_elem_of_nil | done].
  - rewrite not_elem_of_cons. destruct (decide (k0 = k)) as [->|Hk].
    + split; [done | intros [? _]; done].
    + rewrite IH. intuition congruence.
Qed.

Lemma dict_get_elem d k v :
  NoDup (keys d) → (k, v) ∈ d → dict_get d k = Some v.
Proof.
  unfold keys. induction d as [|[k0 v0] d IH]; csimpl.
  - intros _ Hin. by apply elem_of_nil in Hin.
  - intros Hnd Hin. apply NoDup_cons in Hnd as [Hk0 Hnd].
    apply elem_of_cons in Hin as [[= <- <-]|Hin].
    + by rewrite decide_True.
    + rewrite decide_False; [auto|].
      intros ->. apply Hk0. apply list_elem_of_fmap. by exists (k, v).
Qed.

Lemma dict_set_fresh d k v : k ∉ keys d → dict_set d k v = d ++ [(k, v)].
Proof.
  unfold keys. induction d as [|[k0 v0] d IH]; csimpl; [done|].
  rewrite not_elem_of_cons. intros [Hne Hk].
  rewrite decide_False by done. by rewrite IH.
Qed.

Lemma dict_set_here (pre post : dict K V) k v0 v :
  k ∉ keys pre →
  dict_set (pre ++ (k, v0) :: post) k v = pre ++ (k, v) :: post.
Proof.
  unfold keys. induction pre as [|[k1 v1] pre IH]; csimpl.
  - intros _. by rewrite decide_True.
  - rewrite not_elem_of_cons. intros [Hne Hk].
    rewrite decide_False by done. by rewrite IH.
Qed.

Lemma keys_dict_set d k v :
  keys (dict_set d k v)
  = match dict_get d k with Some _ => keys d | None => keys d ++ [k] end.
Proof.
  unfold keys. induction d as [|[k0 v0] d IH]; csimpl; [done|].
  destruct (decide (k0 = k)) as [->|Hk]; csimpl; [done|].
  rewrite IH. by destruct (dict_get d k).
Qed.

Lemma NoDup_keys_dict_set d k v :
  NoDup (keys d) → NoDup (keys (dict_set d k v)).
Proof.
  intros Hnd. rewrite keys_dict_set.
  destruct (dict_get d k) eqn:E; [done|].
  apply dict_get_None in E.
  apply NoDup_app. split_and!; [done| |apply NoDup_singleton].
  by intros x Hx ->%list_elem_of_singleton.
Qed.

Lemma dict_in_true d k : dict_in d k = true ↔ is_Some (dict_get d k).
Proof. unfold dict_in. by rewrite bool_decide_eq_true. Qed.

(** Rebuilding a dictionary entry by entry keeps the entries in place. *)
Lemma foldl_dict_set_fresh {W} (f : K → W → V) (l : dict K W) d :
  NoDup (keys d ++ keys l) →
  foldl (λ acc '(k, w), dict_set acc k (f k w)) d l
  = d ++ ((λ '(k, w), (k, f k w)) <$> l).
Proof.
  revert d. induction l as [|[k w] l IH]; intros d Hnd; csimpl.
  - by rewrite app_nil_r.
  - unfold keys in *. csimpl in Hnd.
    rewrite IH.
    + rewrite dict_set_fresh; [by rewrite <- app_assoc|].
      apply NoDup_app in Hnd as (_ & Hd & _).
      intros Hk. apply (Hd k Hk). left.
    + rewrite dict_set_fresh.
      * rewrite fmap_app. csimpl. rewrite <- app_assoc. done.
      * apply NoDup_app in Hnd as (_ & Hd & _).
        intros Hk. apply (Hd k Hk). left.
Qed.

Lemma foldl_dict_set_nil {W} (f : K → W → V) (l : dict K W) :
  NoDup (keys l) →
  foldl (λ acc '(k, w), dict_set acc k (f k w)) [] l
  = (λ '(k, w), (k, f k w)) <$> l.
Proof. intros Hnd. by rewrite foldl_dict_set_fresh. Qed.

Lemma keys_fmap_snd {W} (f : K → W → V) (l : dict K W) :
  keys ((λ '(k, w), (k, f k w)) <$> l) = keys l.
Proof.
  unfold keys. induction l as [|[k w] l IH]; csimpl; [done|]. by rewrite IH.
Qed.
End DictFacts.

Section MonadFacts.
Context {A B : Type}.

Lemma bind_ok (m : M A) (k : A → M B) s s' b :
  bind m k s = (s', Ok b) →
  ∃ s1 a, m s = (s1, Ok a) ∧ k a s1 = (s', Ok b).
Proof.
  unfold bind. destruct (m s) as [s1 [a|e]]; [eauto|done].
Qed.

Lemma rbind_ok (r : result A) (k : A → result B) b :
  rbind r k = Ok b → ∃ a, r = Ok a ∧ k a = Ok b.
Proof. destruct r; simpl; eauto. done. Qed.

Lemma lift_ok (r : result A) s s' a :
  lift r s = (s', Ok a) → s' = s ∧ r = Ok a.
Proof. unfold lift. by intros [= -> ->]. Qed.

Lemma read_ok (f : smile → A) s s' a :
  read f s = (s', Ok a) → s' = s ∧ a = f s.
Proof. unfold read. by intros [= -> ->]. Qed.

Lemma ret_ok (a a' : A) s s' : ret a s = (s', Ok a') → s' = s ∧ a' = a.
Proof. unfold ret. by intros [= -> ->]. Qed.
End MonadFacts.

Lemma for_each_inv {A S} (P : S → Prop) (body : A → S → result S) l s s' :
  (∀ a s s', a ∈ l → P s → body a s = Ok s' → P s') →
  P s → for_each body l s = Ok s' → P s'.
Proof.
  revert s. induction l as [|a l IH]; intros s Hbody Hs; simpl.
  - by intros [= <-].
  - intros (s1 & H1 & H2)%rbind_ok.
    apply (IH s1); [|by eapply Hbody; [left|..]|done].
    intros ???? ; apply Hbody. by right.
Qed.



Lemma frames_ret {A} (a : A) : frames (ret a).
Proof. done. Qed.
Lemma frames_lift {A} (r : result A) : frames (lift r).
Proof. done. Qed.
Lemma frames_read {A} (f : smile → A) : frames (read f).
Proof. done. Qed.
Lemma frames_bind {A B} (m : M A) (k : A → M B) :
  frames m → (∀ a, frames (k a)) → frames (bind m k).
Proof.
  intros Hm Hk s. unfold bind. specialize (Hm s).
  destruct (m s) as [s1 [a|e]]; simpl in *; [|done].
  by rewrite Hk.
Qed.
Lemma frames_set_home_location v : frames (write (set_home_location v)).
Proof. done. Qed.
Lemma frames_set_thermo_master_id v : frames (write (set_thermo_master_id v)).
Proof. done. Qed.
Lemma frames_set_gateway_id v : frames (write (set_gateway_id v)).
Proof. done. Qed.
Lemma frames_set_heater_id v : frames (write (set_heater_id v)).
Proof. done. Qed.
Lemma frames_for_eachM {A} (body : A → M unit) l :
  (∀ a, frames (body a)) → frames (for_eachM body l).
Proof.
  intros Hb. induction l as [|a l IH]; simpl; [apply frames_ret|].
  apply frames_bind; auto.
Qed.

Ltac frames_step :=
  first
    [ apply frames_ret | apply frames_lift | apply frames_read
    | apply frames_set_home_location | apply frames_set_thermo_master_id
    | apply frames_set_gateway_id | apply frames_set_heater_id
    | apply frames_bind; [|intros ?]
    | apply frames_for_eachM; intros ?
    | match goal with
      | |- frames (if ?b then _ else _) => destruct b
      | |- frames (match ?x with _ => _ end) => destruct x
      end ].

Lemma frames_get_all_locations : frames get_all_locations.
Proof. unfold get_all_locations. repeat frames_step. Qed.

Lemma frames_get_all_appliances : frames get_all_appliances.
Proof.
  unfold get_all_appliances, find_gateway_heater.
  repeat (frames_step || apply frames_get_all_locations).
Qed.

Lemma frames_match_locations : frames match_locations.
Proof.
  unfold match_locations.
  repeat (frames_step || apply frames_get_all_locations
          || apply frames_get_all_appliances).
Qed.

Lemma frames_scan_thermostats : frames scan_thermostats.
Proof.
  unfold scan_thermostats.
  repeat (frames_step || apply frames_match_locations
          || apply frames_get_all_appliances).
Qed.

Lemma frames_get_all_devices : frames get_all_devices.
Proof.
  unfold get_all_devices.
  repeat (frames_step || apply frames_scan_thermostats
          || apply frames_get_all_appliances).
Qed.

Lemma frames_legacy {A} (m : M A) s s' r :
  frames m → m s = (s', r) → _smile_legacy s' = _smile_legacy s.
Proof.
  intros Hm Hs. specialize (Hm s). rewrite Hs in Hm. simpl in Hm.
  unfold config in Hm. congruence.
Qed.

(** ** The election of a master *)

(** Election *)




Lemma scan_zone_foldl legacy loc_id s appliances :
  scan_zone (foldl (scan_appliance legacy loc_id) s appliances)
  = elect_all (scan_zone s) (candidates legacy loc_id appliances).
Proof.
  revert s. induction appliances as [|[id a] l IH]; intros s; [done|].
  cbn [foldl]. rewrite IH. unfold candidates. cbn [omap list_omap].
  unfold scan_appliance, elect_all.
  destruct (prio (class a)) as [p|]; cbn.
  - destruct (in_zone legacy loc_id a); cbn;
      by destruct (high_prio s <? p)%Z.
  - done.
Qed.





(** ** The dictionary of [get_all_appliances] *)

Section DictFacts2.
Context {K V : Type} `{EqDecision K}.
Implicit Types (d : dict K V) (k : K) (v : V).

Lemma elem_of_dict_set d k v k' v' :
  (k', v') ∈ dict_set d k v → (k', v') = (k, v) ∨ (k', v') ∈ d.
Proof.
  induction d as [|[k0 v0] d IH]; cbn.
  - intros ->%list_elem_of_singleton. by left.
  - destruct (decide (k0 = k)) as [->|Hne].
    + intros [->|?]%elem_of_cons; [by left|right; by right].
    + intros [->|?]%elem_of_cons; [right; left|].
      destruct IH as [?|?]; [done|by left|right; by right].
Qed.
End DictFacts2.



Lemma well_keyed_entries_set appliances appliance_id e :
  well_keyed_entries appliances →
  e_class e ≠ Some "open_therm_gateway"%string →
  (is_Some (prio (e_class e)) → ∃ s, appliance_id = PStr s) →
  well_keyed_entries (dict_set appliances appliance_id e).
Proof.
  intros [Hnd Hin] Hc Hp. split; [by apply NoDup_keys_dict_set|].
  intros k v [[= -> ->]|?]%elem_of_dict_set; [done|by apply Hin].
Qed.

Lemma appliance_entry_of_well_keyed ht gw nm home appliance acc acc' :
  appliance_entry_of ht gw nm home appliance acc = Ok acc' →
  well_keyed_entries acc.1 → well_keyed_entries acc'.1.
Proof.
  destruct acc as [appliances locations]. unfold appliance_entry_of.
  intros H Hwk.
  apply rbind_ok in H as (id & _ & H).
  apply rbind_ok in H as (type_el & _ & H).
  apply rbind_ok in H as (name_el & _ & H).
  case_bool_decide as Hotg; [by injection H as <-|].
  apply rbind_ok in H as ([[[loc tys] aid] anm] & Hloc & H).
  assert (is_Some (prio (text type_el)) → ∃ s, aid = PStr s) as Hkey.
  { destruct (find [Child "location"] appliance).
    - apply rbind_ok in Hloc as (? & _ & [= _ _ <- _]). eauto.
    - apply rbind_ok in Hloc as (? & _ & Hloc).
      repeat case_bool_decide; injection Hloc as _ _ <- _; eauto;
        repeat match goal with
               | Hc : text type_el = Some _ |- _ => rewrite Hc; clear Hc
               end; by intros [? [=]]. }
  repeat case_match; injection H as <-; cbn;
    by apply well_keyed_entries_set.
Qed.

Lemma keys_resolve locations home (appliances : dict pyid appliance_entry) :
  keys (prod_map id (resolve locations home) <$> appliances) = keys appliances.
Proof.
  unfold keys. rewrite <- list_fmap_compose. apply list_fmap_ext.
  by intros ? [].
Qed.

Lemma get_all_appliances_well_keyed s s' appliances :
  get_all_appliances s = (s', Ok appliances) → well_keyed appliances.
Proof.
  unfold get_all_appliances. intros H.
  apply bind_ok in H as (s1 & [locations home] & _ & H).
  apply bind_ok in H as (s2 & lp & _ & H).
  destruct lp.
  - apply bind_ok in H as (s3 & hl & _ & H).
    apply ret_ok in H as [_ ->]. split.
    + apply NoDup_singleton.
    + intros k v [= -> ->]%list_elem_of_singleton. cbn. split; [done|].
      by intros [? [=]].
  - apply bind_ok in H as (s3 & ? & _ & H).
    apply bind_ok in H as (s4 & apps & _ & H).
    apply bind_ok in H as (s5 & ? & _ & H).
    apply bind_ok in H as (s6 & ? & _ & H).
    apply bind_ok in H as (s7 & ? & _ & H).
    apply bind_ok in H as (s8 & ht & _ & H).
    apply bind_ok in H as (s9 & gw & _ & H).
    apply bind_ok in H as (s10 & nm & _ & H).
    apply bind_ok in H as (s11 & [entries locations'] & Hloop & H).
    apply ret_ok in H as [_ ->].
    apply lift_ok in Hloop as [_ Hloop].
    eapply (for_each_inv (λ acc, well_keyed_entries acc.1)) in Hloop.
    + destruct Hloop as [Hnd Hin]. cbn in *. split.
      * by rewrite keys_resolve.
      * intros k v ([k' e] & [= -> ->] & He)%list_elem_of_fmap. cbn.
        by apply Hin.
    + intros a acc acc' _ Hacc Hbody.
      by eapply appliance_entry_of_well_keyed.
    + split; [apply NoDup_nil_2|]. intros ?? []%elem_of_nil.
Qed.

(** ** The scan of the locations *)

Lemma scan_location_dict legacy home appliances locations high tm loc_id details :
  ∃ high' tm',
    scan_location legacy home appliances (locations, high, tm)
                  (loc_id, details)
    = (dict_set locations loc_id
         (scanned legacy home appliances loc_id details), high', tm').
Proof.
  unfold scan_location, scanned.
  destruct (is_zone legacy home loc_id details); [|by eauto].
  do 2 eexists. by rewrite scan_zone_foldl.
Qed.

Lemma scan_locations_fold legacy home appliances pre done' todo high tm :
  NoDup (keys (pre ++ todo)) → keys done' = keys pre →
  (foldl (scan_location legacy home appliances)
         (done' ++ todo, high, tm) todo).1.1
  = done' ++ ((λ '(k, l), (k, scanned legacy home appliances k l)) <$> todo).
Proof.
  revert pre done' high tm.
  induction todo as [|[k l] todo IH]; intros pre done' high tm Hnd Hkeys.
  - done.
  - cbn [foldl].
    destruct (scan_location_dict legacy home appliances
                (done' ++ (k, l) :: todo) high tm k l) as (high' & tm' & Hs).
    unfold dict in *. rewrite Hs. clear Hs.
    rewrite dict_set_here.
    + rewrite (cons_middle _ done' todo), app_assoc.
      rewrite (IH (pre ++ [(k, l)])).
      * rewrite <- app_assoc. done.
      * by rewrite <- app_assoc.
      * unfold keys in *. rewrite !fmap_app, Hkeys. done.
    + rewrite Hkeys. unfold keys in *. rewrite fmap_app in Hnd.
      apply NoDup_app in Hnd as (_ & Hnd & _).
      intros Hk. apply (Hnd _ Hk). cbn. left.
Qed.

Lemma match_locations_keys s s' matched home :
  match_locations s = (s', Ok (matched, home)) → NoDup (keys matched).
Proof.
  unfold match_locations. intros H.
  apply bind_ok in H as (s1 & [locations home'] & _ & H).
  apply bind_ok in H as (s2 & appliances & _ & H).
  apply ret_ok in H as [_ [= -> _]].
  assert (∀ d : dict pyid Location, NoDup (keys d) →
            NoDup (keys (foldl (λ ml '(location_id, location_details),
                           dict_set ml location_id
                             (match_location appliances location_id
                                             location_details))
                         d locations))) as Hgen.
  { induction locations as [|[k l] locations IH]; intros d Hd; [done|].
    cbn [foldl]. apply IH. by apply NoDup_keys_dict_set. }
  apply Hgen. apply NoDup_nil_2.
Qed.

Lemma scan_thermostats_ok s s' locations home_location :
  scan_thermostats s = (s', Ok (locations, home_location)) →
  ∃ s1 s2 matched appliances,
    match_locations s = (s1, Ok (matched, home_location)) ∧
    get_all_appliances s1 = (s2, Ok appliances) ∧
    NoDup (keys matched) ∧ well_keyed appliances ∧
    locations
    = (λ '(k, l), (k, scanned (_smile_legacy s) home_location appliances k l))
        <$> matched.
Proof.
  unfold scan_thermostats. intros H.
  apply bind_ok in H as (s1 & [matched home] & Hm & H).
  apply bind_ok in H as (s2 & appliances & Ha & H).
  apply bind_ok in H as (s3 & legacy & [-> ->]%read_ok & H).
  apply bind_ok in H as (s4 & tm & [-> ->]%read_ok & H).
  destruct (foldl _ _ matched) as [[locations' high] tm'] eqn:Hfold.
  apply bind_ok in H as (s5 & [] & _ & H).
  apply ret_ok in H as [_ [= -> ->]].
  exists s1, s2, matched, appliances.
  pose proof (match_locations_keys _ _ _ _ Hm) as Hnd.
  split_and!; [done|done|done|by eapply get_all_appliances_well_keyed|].
  pose proof (scan_locations_fold (_smile_legacy s2) home appliances
                [] [] matched 0 (_thermo_master_id s2) Hnd eq_refl) as Hs.
  cbn [app] in Hs. unfold dict in *. rewrite Hfold in Hs. cbn in Hs.
  subst locations'.
  rewrite (frames_legacy _ _ _ _ frames_get_all_appliances Ha).
  rewrite (frames_legacy _ _ _ _ frames_match_locations Hm). done.
Qed.

(** ** Candidates *)

Lemma elem_of_candidates legacy loc_id appliances appliance_id p :
  (appliance_id, p) ∈ candidates legacy loc_id appliances ↔
  ∃ details, (appliance_id, details) ∈ appliances ∧
             prio (class details) = Some p ∧
             in_zone legacy loc_id details = true.
Proof.
  unfold candidates. rewrite list_elem_of_omap. split.
  - intros ([id a] & Hin & Hsome).
    destruct (prio (class a)) as [q|] eqn:Hq; [|done]. cbn in Hsome.
    destruct (in_zone legacy loc_id a) eqn:Hz; [|done].
    injection Hsome as -> ->. eauto.
  - intros (a & Hin & Hq & Hz). exists (appliance_id, a).
    split; [done|]. rewrite Hq. cbn. by rewrite Hz.
Qed.

Lemma prio_positive c p : prio c = Some p → (0 < p)%Z.
Proof.
  destruct c as [c|]; [|done]. cbn. unfold thermo_matching. cbn.
  repeat case_decide; intros [= <-]; lia.
Qed.

Lemma candidates_keys legacy loc_id appliances appliance_id :
  appliance_id ∈ (candidates legacy loc_id appliances).*1 →
  appliance_id ∈ keys appliances.
Proof.
  intros ([id p] & -> & Hin)%list_elem_of_fmap.
  apply elem_of_candidates in Hin as (a & Hin & _).
  unfold keys. apply list_elem_of_fmap. by exists (id, a).
Qed.

Lemma NoDup_candidates legacy loc_id appliances :
  NoDup (keys appliances) → NoDup (candidates legacy loc_id appliances).*1.
Proof.
  induction appliances as [|[id a] l IH]; intros Hnd.
  - apply NoDup_nil_2.
  - unfold keys in Hnd. rewrite fmap_cons in Hnd.
    apply NoDup_cons in Hnd as [Hid Hnd].
    unfold candidates. cbn [omap list_omap].
    destruct (prio (class a) ≫= _) as [[id' p]|] eqn:Hc; [|by apply IH].
    assert (id' = id) as ->.
    { destruct (prio (class a)); [|done]. cbn in Hc.
      destruct (in_zone legacy loc_id a); congruence. }
    rewrite fmap_cons. apply NoDup_cons. split; [|by apply IH].
    intros Hin. by apply Hid, (candidates_keys legacy loc_id).
Qed.


(** The master is never among the slaves when no identifier is scanned
    twice. *)
Lemma election_master_not_slave cands :
  NoDup cands.*1 →
  master (election cands) ≠ PNone →
  master (election cands) ∉ slaves (election cands).
Proof.
  intros Hnd. unfold election.
  cut (∀ (seen : gset pyid) z,
         (∀ x, x ∈ cands.*1 → x ∉ seen) →
         slaves z ⊆ seen → (master z = PNone ∨ master z ∈ seen) →
         (master z ≠ PNone → master z ∉ slaves z) →
         master (elect_all z cands) ≠ PNone →
         master (elect_all z cands) ∉ slaves (elect_all z cands)).
  { intros Hcut. apply (Hcut ∅); cbn; [set_solver..|by left|done]. }
  induction cands as [|[id p] l IH]; intros seen z Hfresh Hsub Hm Hinv.
  - done.
  - cbn [elect_all foldl]. fold (elect_all (elect id p z) l).
    rewrite fmap_cons in Hnd, Hfresh. apply NoDup_cons in Hnd as [Hid Hnd].
    assert (id ∉ seen) as Hid' by (apply Hfresh; left).
    apply (IH Hnd ({[id]} ∪ seen)).
    + intros x Hx. rewrite not_elem_of_union, not_elem_of_singleton.
      split; [by intros ->|]. apply Hfresh. by right.
    + unfold elect. destruct (master_prio z <? p)%Z; cbn;
        [case_bool_decide|]; set_solver.
    + unfold elect. destruct (master_prio z <? p)%Z; cbn; [set_solver|].
      destruct Hm; [by left|right; set_solver].
    + unfold elect. destruct (master_prio z <? p)%Z; cbn.
      * case_bool_decide; set_solver.
      * intros Hne. specialize (Hinv Hne). destruct Hm; [done|]. set_solver.
Qed.

(** ** Master and slaves *)

Lemma location_entry_unscanned lp location acc acc' :
  location_entry lp location acc = Ok acc' →
  unscanned acc.1 → unscanned acc'.1.
Proof.
  destruct acc as [locations home]. unfold location_entry. intros H Hun.
  apply rbind_ok in H as (name_el & _ & H).
  apply rbind_ok in H as (location_id & _ & H).
  apply rbind_ok in H as (location_members & _ & H).
  destruct (if bool_decide (text name_el = Some "Home"%string) then _ else _)
    as [home' tys].
  apply rbind_ok in H as ([[nm home''] tys'] & _ & [= <-]).
  intros k l [[= -> ->]|?]%elem_of_dict_set; [done|by eapply Hun].
Qed.

Lemma get_all_locations_unscanned s s' locations home :
  get_all_locations s = (s', Ok (locations, home)) → unscanned locations.
Proof.
  unfold get_all_locations. intros H.
  apply bind_ok in H as (s1 & ? & _ & H).
  apply bind_ok in H as (s2 & locs & _ & H).
  apply bind_ok in H as (s3 & legacy & _ & H).
  destruct (_ && _).
  - apply bind_ok in H as (s4 & ? & _ & H).
    apply bind_ok in H as (s5 & ? & _ & H).
    apply bind_ok in H as (s6 & ? & _ & H).
    apply ret_ok in H as [_ [= -> _]].
    by intros k l [= -> ->]%list_elem_of_singleton.
  - apply bind_ok in H as (s4 & ? & _ & H).
    apply bind_ok in H as (s5 & [locations' home'] & [_ Hloop]%lift_ok & H).
    apply bind_ok in H as (s6 & ? & _ & H).
    apply ret_ok in H as [_ [= -> _]].
    eapply (for_each_inv (λ acc, unscanned acc.1)) in Hloop; [done|..].
    + intros a acc acc' _ Hacc Hbody. by eapply location_entry_unscanned.
    + by intros ?? ?%elem_of_nil.
Qed.

Lemma zone_match_location appliances k l :
  zone (match_location appliances k l) = zone l.
Proof.
  unfold match_location. revert l.
  induction appliances as [|[id a] apps IH]; intros l; [done|].
  cbn [foldl]. rewrite IH. by case_bool_decide.
Qed.

Lemma match_locations_unscanned s s' matched home :
  match_locations s = (s', Ok (matched, home)) → unscanned matched.
Proof.
  unfold match_locations. intros H.
  apply bind_ok in H as (s1 & [locations home'] & Hl & H).
  apply bind_ok in H as (s2 & appliances & _ & H).
  apply ret_ok in H as [_ [= -> _]].
  apply get_all_locations_unscanned in Hl.
  assert (∀ d : dict pyid Location, unscanned d →
            unscanned (foldl (λ ml '(location_id, location_details),
                         dict_set ml location_id
                           (match_location appliances location_id
                                           location_details))
                       d locations)) as Hgen.
  { induction locations as [|[k l] locations IH]; intros d Hd; [done|].
    cbn [foldl]. apply IH.
    - intros ???. apply (Hl k0 l0). by right.
    - intros k' l' [[= -> ->]|?]%elem_of_dict_set; [|by eapply Hd].
      rewrite zone_match_location. apply (Hl k l). left. }
  apply Hgen. by intros ?? ?%elem_of_nil.
Qed.

Lemma max_prio_nonneg cands : (0 ≤ max_prio cands)%Z.
Proof.
  unfold max_prio. induction cands.*2 as [|x l IH]; cbn; lia.
Qed.

(** C8.  After [scan_thermostats], in every location of the result that
    carries a master which is not [None], the master is not in the
    [slaves] of that location. *)
Theorem scan_thermostats_master_not_slave self self' locations home_location :
  scan_thermostats self = (self', Ok (locations, home_location)) →
  ∀ loc_id details z,
    (loc_id, details) ∈ locations → zone details = Some z →
    master z ≠ PNone → master z ∉ slaves z.
Proof.
  intros (s1 & s2 & matched & appliances & Hm & Ha & Hnd & [Hkeys _] & ->)
    %scan_thermostats_ok loc_id details z Hin Hz.
  apply list_elem_of_fmap in Hin as ([k l] & [= -> ->] & Hin).
  unfold scanned in Hz.
  destruct (is_zone _ _ _ _).
  - injection Hz as <-. apply election_master_not_slave.
    by apply NoDup_candidates.
  - by rewrite (match_locations_unscanned _ _ _ _ Hm _ _ Hin) in Hz.
Qed.


(** ** Devices, discarded appliances and the legacy location *)

Lemma located_dict_set (locations : dict pyid Location) k l :
  located locations → k ≠ PNone → located (dict_set locations k l).
Proof.
  unfold located. rewrite keys_dict_set.
  destruct (dict_get locations k); [done|].
  rewrite not_elem_of_app, not_elem_of_cons. intros ??.
  split_and!; [done|done|apply not_elem_of_nil].
Qed.

Lemma location_entry_located lp location acc acc' :
  location_entry lp location acc = Ok acc' →
  located acc.1 → located acc'.1.
Proof.
  destruct acc as [locations home]. unfold location_entry. intros H Hun.
  apply rbind_ok in H as (name_el & _ & H).
  apply rbind_ok in H as (location_id & _ & H).
  apply rbind_ok in H as (location_members & _ & H).
  destruct (if bool_decide (text name_el = Some "Home"%string) then _ else _)
    as [home' tys].
  apply rbind_ok in H as ([[nm home''] tys'] & _ & [= <-]).
  by apply located_dict_set.
Qed.

Lemma get_all_locations_located s s' locations home :
  get_all_locations s = (s', Ok (locations, home)) → located locations.
Proof.
  unfold get_all_locations. intros H.
  apply bind_ok in H as (s1 & ? & _ & H).
  apply bind_ok in H as (s2 & locs & _ & H).
  apply bind_ok in H as (s3 & legacy & _ & H).
  destruct (_ && _).
  - apply bind_ok in H as (s4 & ? & _ & H).
    apply bind_ok in H as (s5 & ? & _ & H).
    apply bind_ok in H as (s6 & ? & _ & H).
    apply ret_ok in H as [_ [= -> _]].
    unfold located. cbn. by intros [=]%list_elem_of_singleton.
  - apply bind_ok in H as (s4 & ? & _ & H).
    apply bind_ok in H as (s5 & [locations' home'] & [_ Hloop]%lift_ok & H).
    apply bind_ok in H as (s6 & ? & _ & H).
    apply ret_ok in H as [_ [= -> _]].
    eapply (for_each_inv (λ acc, located acc.1)) in Hloop; [done|..].
    + intros a acc acc' _ Hacc Hbody. by eapply location_entry_located.
    + apply not_elem_of_nil.
Qed.

Lemma match_locations_located s s' matched home :
  match_locations s = (s', Ok (matched, home)) → located matched.
Proof.
  unfold match_locations. intros H.
  apply bind_ok in H as (s1 & [locations home'] & Hl & H).
  apply bind_ok in H as (s2 & appliances & _ & H).
  apply ret_ok in H as [_ [= -> _]].
  apply get_all_locations_located in Hl.
  assert (∀ d : dict pyid Location, located d →
            located (foldl (λ ml '(location_id, location_details),
                         dict_set ml location_id
                           (match_location appliances location_id
                                           location_details))
                       d locations)) as Hgen.
  { unfold located, keys in Hl.
    induction locations as [|[k l] locations IH]; intros d Hd; [done|].
    rewrite fmap_cons, not_elem_of_cons in Hl. destruct Hl as [Hk Hl].
    cbn [foldl]. apply IH; [done|]. by apply located_dict_set. }
  apply Hgen. apply not_elem_of_nil.
Qed.

Lemma scan_thermostats_located s s' locations home :
  scan_thermostats s = (s', Ok (locations, home)) → located locations.
Proof.
  intros (s1 & s2 & matched & appliances & Hm & _ & _ & _ & ->)
    %scan_thermostats_ok.
  unfold located. rewrite keys_fmap_snd. by eapply match_locations_located.
Qed.

Lemma is_slave_true thermo_locations loc_id appliance :
  is_slave thermo_locations loc_id appliance = true ↔
  ∃ l z, dict_get thermo_locations loc_id = Some l ∧ zone l = Some z ∧
         appliance ∈ slaves z.
Proof.
  unfold is_slave. split.
  - destruct (dict_get thermo_locations loc_id) as [l|]; [|done].
    destruct (zone l) as [z|] eqn:Hz; [|done].
    intros ?%bool_decide_eq_true. by exists l, z.
  - intros (l & z & -> & -> & ?). by apply bool_decide_eq_true.
Qed.

(** C10.  In the result of [get_all_devices] an appliance has the class
    "thermo_sensor" when it has a location of its own, that location is
    in the result of the thermostat scan with a [slaves] set, and the
    appliance is in it; every other appliance keeps the class
    [get_all_appliances] gave it. *)
Theorem get_all_devices_slave_class self self' devices :
  get_all_devices self = (self', Ok devices) →
  ∃ self1 appliances thermo_locations home_location,
    get_all_appliances self = (self1, Ok appliances) ∧
    scan_thermostats self1 = (self', Ok (thermo_locations, home_location)) ∧
    keys devices = keys appliances ∧
    ∀ appliance details,
      (appliance, details) ∈ appliances →
      ∃ device,
        dict_get devices appliance = Some device ∧
        let slave :=
          location details ≠ PNone ∧
          ∃ l z, dict_get thermo_locations (location details) = Some l ∧
                 zone l = Some z ∧ appliance ∈ slaves z in
        (slave → class device = Some "thermo_sensor"%string) ∧
        (¬ slave → class device = class details).
Proof.
  unfold get_all_devices. intros H.
  apply bind_ok in H as (s1 & appliances & Ha & H).
  apply bind_ok in H as (s2 & [thermo_locations home] & Hs & H).
  apply ret_ok in H as [-> ->].
  exists s1, appliances, thermo_locations, home.
  pose proof (get_all_appliances_well_keyed _ _ _ Ha) as [Hnd _].
  rewrite (foldl_dict_set_nil
             (λ appliance details,
                device_of thermo_locations home appliance details)) by done.
  split_and!; [done|done|by rewrite keys_fmap_snd|].
  intros appliance details Hin.
  exists (device_of thermo_locations home appliance details). split.
  - apply dict_get_elem; [by rewrite keys_fmap_snd|].
    apply list_elem_of_fmap. by exists (appliance, details).
  - unfold device_of. split.
    + intros [_ Hslave]. apply is_slave_true in Hslave. by rewrite Hslave.
    + intros Hnot.
      destruct (is_slave thermo_locations (location details) appliance)
        eqn:Hslave; [|by case_bool_decide].
      exfalso. apply Hnot. split; [|by apply is_slave_true].
      intros Hnone. rewrite Hnone in Hslave.
      apply is_slave_true in Hslave as (l & z & Hget & _).
      apply dict_get_Some_elem in Hget.
      apply (scan_thermostats_located _ _ _ _ Hs).
      unfold keys. apply list_elem_of_fmap. by exists (PNone, l).
Qed.

(** C7.  No entry of the result of [get_all_appliances] has the class
    "open_therm_gateway", and so none of the devices of
    [get_all_devices] has it. *)
Theorem open_therm_gateway_discarded self self' :
  (∀ appliances,
     get_all_appliances self = (self', Ok appliances) →
     ∀ appliance_id details, (appliance_id, details) ∈ appliances →
       class details ≠ Some "open_therm_gateway"%string) ∧
  (∀ devices,
     get_all_devices self = (self', Ok devices) →
     ∀ appliance_id details, (appliance_id, details) ∈ devices →
       class details ≠ Some "open_therm_gateway"%string).
Proof.
  split.
  - intros appliances [_ Hwk]%get_all_appliances_well_keyed id d Hin.
    by apply (Hwk id d).
  - intros devices H id d Hin. unfold get_all_devices in H.
    apply bind_ok in H as (s1 & appliances & Ha & H).
    apply bind_ok in H as (s2 & [thermo_locations home] & Hs & H).
    apply ret_ok in H as [-> ->].
    pose proof (get_all_appliances_well_keyed _ _ _ Ha) as [Hnd Hwk].
    rewrite (foldl_dict_set_nil
               (λ appliance details,
                  device_of thermo_locations home appliance details)) in Hin
      by done.
    apply list_elem_of_fmap in Hin as ([k a] & [= -> ->] & Hin).
    destruct (Hwk _ _ Hin) as [Hc _]. unfold device_of.
    destruct (is_slave _ _ _); [done|]. by case_bool_decide.
Qed.

Lemma for_each_ids (l : list element) (set : gset string) :
  Forall (λ a, is_Some (get a "id")) l →
  for_each (fun appliance set => id ← attrib_item appliance "id";
                                  Ok ({[id]} ∪ set)) l set
  = Ok (list_to_set (omap (λ a, get a "id") l) ∪ set).
Proof.
  revert set. induction l as [|a l IH]; intros set Hall.
  - cbn. f_equal. set_solver.
  - apply Forall_cons in Hall as [[id Hid] Hall]. cbn.
    unfold attrib_item at 1. rewrite Hid. cbn. rewrite IH by done.
    f_equal. set_solver.
Qed.

(** C6.  For a legacy Smile whose locations document has no entry,
    [get_all_locations] returns one location, under the identifier [0],
    tagged "temperature" only, whose members are the identifiers of all
    the appliances of the appliances document, and returns [0] as the home
    location. *)
Theorem legacy_without_locations self locs apps :
  _smile_legacy self = true →
  _locations self = Some locs → children locs = [] →
  _appliances self = Some apps →
  Forall (λ a, is_Some (get a "id")) (children apps) →
  get_all_locations self
  = (self,
     Ok ([(PInt 0,
           {| loc_name := Some "Legacy"%string;
              loc_types := {["temperature"%string]};
              members :=
                list_to_set (omap (λ a, get a "id") (children apps));
              zone := None |})],
         PInt 0)).
Proof.
  intros Hlegacy Hlocs Hnil Happs Hids.
  unfold get_all_locations, bind, read, lift, ret.
  rewrite Hlocs. cbn [need]. rewrite Hnil, Hlegacy. cbn [length Nat.eqb andb].
  rewrite Happs. cbn [need].
  rewrite for_each_ids by done. unfold legacy_location.
  by rewrite (right_id_L ∅ (∪)).
Qed.

(** ** Times of day *)

Lemma time_compare_micros a b :
  valid_time a → valid_time b →
  time_compare a b = (micros a ?= micros b)%Z.
Proof.
  unfold valid_time, time_compare, micros.
  destruct a as [ha ma sa ua], b as [hb mb sb ub]; cbn.
  intros (?&?&?&?) (?&?&?&?).
  symmetry.
  destruct (Z.compare_spec ha hb) as [->| |];
    [|apply Z.compare_lt_iff; lia|apply Z.compare_gt_iff; lia].
  destruct (Z.compare_spec ma mb) as [->| |];
    [|apply Z.compare_lt_iff; lia|apply Z.compare_gt_iff; lia].
  destruct (Z.compare_spec sa sb) as [->| |];
    [|apply Z.compare_lt_iff; lia|apply Z.compare_gt_iff; lia].
  destruct (Z.compare_spec ua ub) as [->| |];
    [apply Z.compare_refl|apply Z.compare_lt_iff; lia
    |apply Z.compare_gt_iff; lia].
Qed.

Lemma time_leb_micros a b :
  valid_time a → valid_time b →
  time_leb a b = true ↔ (micros a ≤ micros b)%Z.
Proof.
  intros Ha Hb. unfold time_leb. rewrite time_compare_micros by done.
  destruct (Z.compare_spec (micros a) (micros b)); split; (done || lia).
Qed.

Lemma time_ltb_micros a b :
  valid_time a → valid_time b →
  time_ltb a b = true ↔ (micros a < micros b)%Z.
Proof.
  intros Ha Hb. unfold time_ltb. rewrite time_compare_micros by done.
  destruct (Z.compare_spec (micros a) (micros b)); split; (done || lia).
Qed.

(** C5.  [in_between now start end] is the half-open interval from
    [start] to [end], wrapping around midnight when [start] is after
    [end].  With the interval from mo 06:00 to mo 22:00, the setpoint of
    the interval is the schedule's on a Monday at 10:00 and is not at
    23:00, when the interval from mo 22:00 to mo 06:00 matches. *)
Theorem in_between_half_open_wrap_around now start end_ :
  valid_time now → valid_time start → valid_time end_ →
  ((micros start ≤ micros end_)%Z →
   in_between now start end_ = true ↔
   (micros start ≤ micros now < micros end_)%Z) ∧
  ((micros end_ < micros start)%Z →
   in_between now start end_ = true ↔
   (micros start ≤ micros now ∨ micros now < micros end_)%Z) ∧
  (∀ (T : Type) (setpoint : T),
     schedule_setpoint 0 (at_hm 10 0) [("[mo 06:00,mo 22:00)"%string, setpoint)]
     = Ok (Some setpoint) ∧
     schedule_setpoint 0 (at_hm 23 0) [("[mo 06:00,mo 22:00)"%string, setpoint)]
     = Ok None ∧
     schedule_setpoint 0 (at_hm 23 0) [("[mo 22:00,mo 06:00)"%string, setpoint)]
     = Ok (Some setpoint)).
Proof.
  intros Hn Hs He. unfold in_between.
  pose proof (time_leb_micros start end_ Hs He) as Hse.
  pose proof (time_leb_micros start now Hs Hn) as Hsn.
  pose proof (time_ltb_micros now end_ Hn He) as Hne.
  split_and!.
  - intros Hle. rewrite (proj2 Hse Hle), andb_true_iff. tauto.
  - intros Hlt. destruct (time_leb start end_); [lia|].
    rewrite orb_true_iff. tauto.
  - intros T setpoint. split_and!; reflexivity.
Qed.

(** ** The poll *)





(** ** Reading back a formatted number *)

Lemma is_digit_digits u : Forall (λ c, is_digit c = true) (digits u).
Proof. induction u; cbn; constructor; done. Qed.

Lemma numeral_digits u : numeral (digits u) = u.
Proof. induction u; cbn; by f_equal. Qed.

Lemma numeral_zeros k cs :
  N.of_uint (numeral (replicate k "0"%char ++ cs)) = N.of_uint (numeral cs).
Proof. induction k; [done|]. cbn. apply IHk. Qed.

Lemma number_padded k (n : N) :
  number (replicate k "0"%char ++ digits (N.to_uint n)) = Z.of_N n.
Proof.
  unfold number. rewrite numeral_zeros, numeral_digits.
  by rewrite DecimalN.Unsigned.of_to.
Qed.

Lemma span_digits_all ds rest :
  Forall (λ c, is_digit c = true) ds →
  match rest with [] => True | c :: _ => is_digit c = false end →
  span_digits (ds ++ rest) = (ds, rest).
Proof.
  intros Hds Hrest. induction Hds as [|d ds Hd _ IH]; cbn.
  - destruct rest as [|c rest]; [done|]. cbn. by rewrite Hrest.
  - by rewrite Hd, IH.
Qed.

Lemma digit_not_space c : is_digit c = true → is_space c = false.
Proof.
  unfold is_digit, is_space. intros [H1 H2]%andb_true_iff.
  apply N.leb_le in H1, H2.
  repeat match goal with
         | |- _ || _ = false => apply orb_false_iff; split
         | |- _ && _ = false => apply andb_false_iff
         end;
    first [apply N.eqb_neq; lia
          |right; apply N.leb_gt; lia
          |left; apply N.leb_gt; lia].
Qed.

Lemma digit_not_underscore c : is_digit c = true → c ≠ "_"%char.
Proof. intros Hc ->. done. Qed.

Lemma lstrip_id c cs : is_space c = false → lstrip (c :: cs) = c :: cs.
Proof. intros Hc. cbn. by rewrite Hc. Qed.

Lemma strip_id c cs c' :
  is_space c = false → is_space c' = false →
  strip (c :: cs ++ [c']) = c :: cs ++ [c'].
Proof.
  intros Hc Hc'. unfold strip. rewrite lstrip_id by done.
  change (c :: cs ++ [c']) with ((c :: cs) ++ [c']).
  rewrite rev_app_distr. cbn [rev app]. rewrite lstrip_id by done.
  change (c' :: rev cs ++ [c]) with ([c'] ++ rev (c :: cs)).
  rewrite rev_app_distr, rev_involutive. done.
Qed.

Lemma drop_underscores_id prev cs :
  prev ≠ Some "_"%char → Forall (λ c, c ≠ "_"%char) cs →
  drop_underscores prev cs = Some cs.
Proof.
  intros Hprev Hcs. revert prev Hprev.
  induction Hcs as [|c cs Hc _ IH]; intros prev Hprev; cbn.
  - by rewrite bool_decide_false.
  - rewrite (bool_decide_false (c = _)) by done.
    rewrite (bool_decide_false (prev = _)) by done. cbn.
    rewrite IH; [done|]. by intros [= ->].
Qed.

Lemma lstrip_no_space cs :
  Forall (λ c, is_space c = false) cs → lstrip cs = cs.
Proof. intros [|c cs' Hc _]; [done|]. cbn. by rewrite Hc. Qed.

Lemma strip_no_space cs :
  Forall (λ c, is_space c = false) cs → strip cs = cs.
Proof.
  intros Hcs. unfold strip. rewrite (lstrip_no_space cs) by done.
  rewrite lstrip_no_space; [apply rev_involutive|].
  apply Forall_forall. intros c Hc. rewrite Forall_forall in Hcs.
  apply Hcs. apply list_elem_of_In. apply list_elem_of_In in Hc.
  by apply in_rev.
Qed.

Lemma sign_digit d rest :
  is_digit d = true → sign (d :: rest) = (false, d :: rest).
Proof.
  destruct d as [[] [] [] [] [] [] [] []]; cbn; done.
Qed.

Lemma not_word_digit d rest (w : string) :
  is_digit d = true →
  match w with String c _ => is_digit c = false | EmptyString => True end →
  bool_decide (string_of_list_ascii (lower <$> d :: rest) = w) = false.
Proof.
  intros Hd Hw. apply bool_decide_eq_false. cbn. intros <-.
  assert (lower d = d) as Heq.
  { unfold lower. unfold is_digit in Hd.
    apply andb_true_iff in Hd as [H1 H2]. apply N.leb_le in H1, H2.
    destruct (_ && _) eqn:Hc; [|done].
    apply andb_true_iff in Hc as [H3 _]. apply N.leb_le in H3. lia. }
  rewrite Heq in Hw. congruence.
Qed.

Lemma py_float_decimal neg ip fp :
  ip ≠ [] →
  Forall (λ c, is_digit c = true) ip → Forall (λ c, is_digit c = true) fp →
  py_float (string_of_list_ascii (sgn neg ++ ip ++ "."%char :: fp))
  = Ok (nearest neg (number (ip ++ fp)) (- Z.of_nat (length fp))).
Proof.
  intros Hne Hip Hfp. unfold py_float, chars.
  rewrite list_ascii_of_string_of_list_ascii.
  assert (Forall (λ c, is_space c = false ∧ c ≠ "_"%char)
                 (sgn neg ++ ip ++ "."%char :: fp)) as Hall.
  { repeat first [apply Forall_app; split | apply Forall_cons; split].
    - by destruct neg; repeat constructor.
    - eapply Forall_impl; [exact Hip|]. cbn. intros c Hc.
      split; [by apply digit_not_space|by apply digit_not_underscore].
    - done.
    - eapply Forall_impl; [exact Hfp|]. cbn. intros c Hc.
      split; [by apply digit_not_space|by apply digit_not_underscore]. }
  rewrite strip_no_space by (eapply Forall_impl; [exact Hall|]; by intros ? []).
  rewrite drop_underscores_id;
    [|done|eapply Forall_impl; [exact Hall|]; by intros ? []].
  destruct ip as [|d ip]; [done|]. apply Forall_cons in Hip as [Hd Hip].
  assert (sign (sgn neg ++ (d :: ip) ++ "."%char :: fp)
          = (neg, (d :: ip) ++ "."%char :: fp)) as ->.
  { destruct neg; [done|]. cbn [sgn app]. by apply sign_digit. }
  cbn [app]. rewrite !not_word_digit by done. cbn [orb].
  change (d :: ip ++ "."%char :: fp) with ((d :: ip) ++ "."%char :: fp).
  rewrite span_digits_all by (done || by constructor).
  rewrite <- (app_nil_r fp) at 1.
  rewrite span_digits_all by done.
  cbn [app exponent]. rewrite Z.sub_0_l. done.
Qed.

Lemma scaled_nonneg m e n : (0 ≤ scaled m e n)%Z.
Proof.
  unfold scaled. destruct e as [|p|p]; [lia|..].
  - apply Z.mul_nonneg_nonneg; [|by apply Z.pow_nonneg].
    apply Z.mul_nonneg_nonneg; [lia|]. apply Z.pow_nonneg. lia.
  - assert (0 ≤ Z.pos m * 10 ^ Z.of_nat n)%Z as Hnum.
    { apply Z.mul_nonneg_nonneg; [lia|]. apply Z.pow_nonneg. lia. }
    pose proof (Z.div_pos _ (Z.pos (2 ^ p)) Hnum ltac:(lia)).
    repeat case_match; lia.
Qed.

Lemma py_float_fixed neg k n :
  (0 ≤ k)%Z →
  py_float (string_of_list_ascii (sgn neg ++ fixed k n))
  = Ok (nearest neg k (- Z.of_nat n)).
Proof.
  intros Hk. unfold fixed.
  set (ds := replicate _ _ ++ _).
  assert (n < length ds)%nat as Hlen.
  { unfold ds. rewrite length_app, length_replicate. lia. }
  assert (Forall (λ c, is_digit c = true) ds) as Hds.
  { apply Forall_app. split; [|apply is_digit_digits].
    by apply Forall_replicate. }
  rewrite py_float_decimal.
  - rewrite take_drop, length_drop.
    replace (length ds - (length ds - n))%nat with n by lia.
    unfold ds. by rewrite number_padded, Z2N.id.
  - intros Htake. apply (f_equal length) in Htake.
    rewrite length_take in Htake. cbn in Htake. lia.
  - by apply Forall_take.
  - by apply Forall_drop.
Qed.

(** Writing a number with [n] decimals and reading it back rounds it to
    [n] decimals. *)
Lemma py_float_format_f n x : py_float (format_f n x) = Ok (py_round x n).
Proof.
  destruct x as [neg|neg| |neg m e]; cbn [format_f py_round].
  - exact (py_float_fixed neg 0 n ltac:(done)).
  - by destruct neg.
  - done.
  - apply (py_float_fixed neg). apply scaled_nonneg.
Qed.

(** ** Normalizing a measurement *)

Lemma py_int_cases s : (∃ n, py_int s = Ok n) ∨ py_int s = Raise ValueError.
Proof.
  unfold py_int. destruct (sign _) as [neg body].
  destruct (int_digits false body); eauto.
Qed.

Lemma py_float_cases s : (∃ x, py_float s = Ok x) ∨ py_float s = Raise ValueError.
Proof.
  unfold py_float. destruct (drop_underscores _ _); [|by right].
  destruct (sign _) as [neg body].
  repeat (case_match; eauto).
Qed.

Lemma rounded_ok n x : rounded n x = Ok (py_round (py_round x n) n).
Proof. unfold rounded. apply py_float_format_f. Qed.

(** C3, amended.  [_format_measure] gives the integer of a text [int()]
    reads; otherwise, for a text [float()] reads, the number rounded to 2
    decimals when it is below 10, the comparison being signed, and to 1
    decimal when it is not; otherwise [True] for "on" and [False] for
    "off"; and any other text as it is. *)
Theorem format_measure_cases (s : string) :
  (∀ n, py_int s = Ok n → _format_measure (Some s) = Ok (VInt n)) ∧
  (∀ x, py_int s = Raise ValueError → py_float s = Ok x →
     let places := if flt x ten then 2%nat else 1%nat in
     _format_measure (Some s)
     = Ok (VFloat (py_round (py_round x places) places))) ∧
  (py_int s = Raise ValueError → py_float s = Raise ValueError →
     _format_measure (Some s)
     = Ok (if bool_decide (s = "on"%string) then VBool true
           else if bool_decide (s = "off"%string) then VBool false
           else VStr s)) ∧
  _format_measure (Some "2"%string) = Ok (VInt 2) ∧
  (∃ x, py_float "2.35" = Ok x ∧
        _format_measure (Some "2.345"%string) = Ok (VFloat x)) ∧
  (∃ x, py_float "12.3" = Ok x ∧
        _format_measure (Some "12.34"%string) = Ok (VFloat x)) ∧
  _format_measure (Some "on"%string) = Ok (VBool true) ∧
  _format_measure (Some "off"%string) = Ok (VBool false).
Proof.
  split_and!.
  - intros n Hn. unfold _format_measure. by rewrite Hn.
  - intros x Hi Hx places. unfold _format_measure. rewrite Hi, Hx.
    unfold mbind, result_bind, rbind. subst places.
    by destruct (flt x ten); rewrite rounded_ok.
  - intros Hi Hx. unfold _format_measure. rewrite Hi, Hx.
    unfold mbind, result_bind, rbind. by repeat case_bool_decide.
  - by vm_compute.
  - eexists. split; by vm_compute.
  - eexists. split; by vm_compute.
  - by vm_compute.
  - by vm_compute.
Qed.

Lemma format_measure_cases_witness :
  ∃ x, py_float "-12.34" = Ok x ∧
       _format_measure (Some "-12.34"%string)
       = Ok (VFloat (py_round (py_round x 2) 2)).
Proof.
  eexists. split; [by vm_compute|].
  apply (proj1 (proj2 (format_measure_cases "-12.34"))); by vm_compute.
Defined.

(** The claim as it is written fails: a value of magnitude 10 or more
    that is negative keeps two decimals. *)
Lemma format_measure_negative_keeps_two_decimals :
  ∃ x y, py_float "-12.34" = Ok x ∧ py_float "-12.3" = Ok y ∧
         flt (magnitude x) ten = false ∧
         py_round x 1 = y ∧
         _format_measure (Some "-12.34"%string) = Ok (VFloat x) ∧
         _format_measure (Some "-12.34"%string) ≠ Ok (VFloat y).
Proof.
  do 2 eexists. split_and!; try by vm_compute.
Qed.

(** ** The water pressure *)

Lemma for_each_app {A S} (body : A → S → result S) l1 l2 s :
  for_each body (l1 ++ l2) s = rbind (for_each body l1 s) (for_each body l2).
Proof.
  revert s. induction l1 as [|a l1 IH]; intros s; [done|].
  cbn. destruct (body a s); [apply IH|done].
Qed.

(** The logs of a measurement other than the point log never write
    the key [key] when neither suffixed name is [key]. *)
Lemma other_logs_keeps appliance measurement name key data data' :
  name +:+ "_interval" ≠ key →
  name +:+ "_cumulative" ≠ key →
  (name +:+ "_interval") +:+ "_cumulative" ≠ key →
  other_logs appliance measurement name data = Ok data' →
  dict_get data' key = dict_get data key.
Proof.
  intros H1 H2 H3. unfold other_logs. intros H.
  apply rbind_ok in H as ([name' data1] & Hi & H).
  destruct (Xml.find (log_locator "interval_log" measurement) appliance).
  - apply rbind_ok in Hi as (v & _ & [= <- <-]).
    destruct (Xml.find (log_locator "cumulative_log" measurement) appliance).
    + apply rbind_ok in H as (v' & _ & [= <-]).
      by rewrite !dict_get_set_ne.
    + injection H as <-. by rewrite dict_get_set_ne.
  - injection Hi as <- <-.
    destruct (Xml.find (log_locator "cumulative_log" measurement) appliance).
    + apply rbind_ok in H as (v' & _ & [= <-]).
      by rewrite dict_get_set_ne.
    + by injection H as <-.
Qed.

(** Every other measurement leaves the key [water_pressure] alone. *)
Lemma read_measurement_keeps legacy appliance item data data' :
  item ∈ DEVICE_MEASUREMENTS → item ≠ pressure →
  read_measurement legacy appliance item data = Ok data' →
  dict_get data' "water_pressure"%string = dict_get data "water_pressure"%string.
Proof.
  intros Hin Hne. unfold read_measurement. destruct item as [measurement name].
  assert (name ≠ "water_pressure"%string ∧
          measurement ≠ "central_heater_water_pressure"%string ∧
          name +:+ "_interval" ≠ "water_pressure"%string ∧
          name +:+ "_cumulative" ≠ "water_pressure"%string ∧
          (name +:+ "_interval") +:+ "_cumulative" ≠ "water_pressure"%string)
    as (Hn & Hm & H1 & H2 & H3).
  { unfold DEVICE_MEASUREMENTS in Hin.
    repeat (apply elem_of_cons in Hin as [[= -> ->]|Hin];
            [by split_and!|]).
    by apply elem_of_nil in Hin. }
  destruct (Xml.find (log_locator "point_log" measurement) appliance) as [m|].
  - destruct (_ && _); [by intros [= <-]|].
    rewrite (bool_decide_false _ Hm). cbn.
    intros (v & _ & H)%rbind_ok.
    rewrite (other_logs_keeps _ _ _ _ _ _ H1 H2 H3 H).
    by rewrite dict_get_set_ne.
  - by apply other_logs_keeps.
Qed.

Lemma other_measurements :
  DEVICE_MEASUREMENTS
  = take 14 DEVICE_MEASUREMENTS ++ pressure :: drop 15 DEVICE_MEASUREMENTS ∧
  Forall (λ item, item ∈ DEVICE_MEASUREMENTS ∧ item ≠ pressure)
         (take 14 DEVICE_MEASUREMENTS ++ drop 15 DEVICE_MEASUREMENTS).
Proof.
  split; [done|]. apply (bool_decide_unpack _). by vm_compute.
Qed.

Lemma for_each_measurements_keep legacy appliance items data data' :
  Forall (λ item, item ∈ DEVICE_MEASUREMENTS ∧ item ≠ pressure) items →
  for_each (read_measurement legacy appliance) items data = Ok data' →
  dict_get data' "water_pressure"%string = dict_get data "water_pressure"%string.
Proof.
  intros Hitems H.
  eapply (for_each_inv
            (λ d, dict_get d "water_pressure"%string
                  = dict_get data "water_pressure"%string)) in H; [done| |done].
  intros item d d' Hin Hd Hbody. rewrite <- Hd.
  rewrite Forall_forall in Hitems. destruct (Hitems item Hin).
  by eapply read_measurement_keeps.
Qed.

(** The turn of the water pressure itself. *)
Lemma read_pressure legacy appliance m x data data' :
  Xml.find (log_locator "point_log" "central_heater_water_pressure") appliance
  = Some m →
  float_of (text m) = Ok x →
  read_measurement legacy appliance pressure data = Ok data' →
  if flt three_and_a_half x
  then data' = data
  else ∃ v, _format_measure (text m) = Ok v ∧
            dict_get data' "water_pressure"%string = Some v.
Proof.
  intros Hm Hx. unfold read_measurement, pressure. rewrite Hm.
  rewrite andb_false_r. rewrite bool_decide_true by done. rewrite Hx.
  unfold mbind, result_bind. cbn [rbind].
  destruct (flt three_and_a_half x); [by intros [= <-]|].
  intros (v & Hv & H)%rbind_ok. exists v. split; [done|].
  rewrite (other_logs_keeps _ _ "water_pressure"%string
             "water_pressure"%string _ _
             ltac:(done) ltac:(done) ltac:(done) H).
  apply dict_get_set_eq.
Qed.

(** The water pressure in the data of a device that is one appliance. *)
Lemma pressure_reading {lx : Lxml} dev_id self self' data search appliance
    m x :
  get_appliance_data dev_id self = (self', Ok data) →
  (if _smile_legacy self then _domain_objects self else _appliances self)
  = Some search →
  findall_text (appliance_locator dev_id) search = Ok [appliance] →
  Xml.find (log_locator "point_log" "central_heater_water_pressure") appliance
  = Some m →
  float_of (text m) = Ok x →
  if flt three_and_a_half x
  then dict_get data "water_pressure"%string = None
  else ∃ v, _format_measure (text m) = Ok v ∧
            dict_get data "water_pressure"%string = Some v.
Proof.
  intros H Hsearch Hall Hm Hx. unfold get_appliance_data in H.
  apply bind_ok in H as (s1 & legacy & [-> ->]%read_ok & H).
  apply bind_ok in H as (s2 & search' & Hs & H).
  assert (s2 = self ∧ search' = Some search) as [-> ->].
  { destruct (_smile_legacy self); apply read_ok in Hs as [-> ->]; done. }
  apply bind_ok in H as (s3 & ? & [-> [= <-]]%lift_ok & H).
  apply bind_ok in H as (s4 & appliances & [-> Happ]%lift_ok & H).
  rewrite Hall in Happ. injection Happ as <-.
  apply lift_ok in H as [-> H]. cbn [for_each] in H.
  apply rbind_ok in H as (data0 & H & [= ->]).
  destruct other_measurements as [Hsplit Hothers].
  apply Forall_app in Hothers as [Hpre Hpost].
  rewrite Hsplit, for_each_app in H.
  apply rbind_ok in H as (data1 & H1 & H). cbn [for_each] in H.
  apply rbind_ok in H as (data2 & H2 & H3).
  apply (for_each_measurements_keep _ _ _ _ _ Hpre) in H1.
  apply (for_each_measurements_keep _ _ _ _ _ Hpost) in H3.
  pose proof (read_pressure _ _ _ _ _ _ Hm Hx H2) as Hp.
  rewrite H3. destruct (flt three_and_a_half x).
  - by rewrite Hp, H1.
  - done.
Qed.

(** C4.  When the locator of the device id selects one appliance of the
    document, a point log reading of central_heater_water_pressure
    strictly above 3.5 leaves no water_pressure in the data
    [get_appliance_data] returns, and a reading that is not above 3.5 is
    there, normalized; a reading of 4.0 is left out and a reading of 2.1
    is kept as 2.1.  The locator is a path for an id without a double
    quote; for any other id the selection is what lxml makes of the
    formatted text. *)
Theorem water_pressure_above_limit_omitted {lx : Lxml} :
  (∀ dev_id self self' data search appliance m x,
     get_appliance_data dev_id self = (self', Ok data) →
     (if _smile_legacy self then _domain_objects self else _appliances self)
     = Some search →
     findall_text (appliance_locator dev_id) search = Ok [appliance] →
     Xml.find (log_locator "point_log" "central_heater_water_pressure")
              appliance = Some m →
     float_of (text m) = Ok x →
     if flt three_and_a_half x
     then dict_get data "water_pressure"%string = None
     else ∃ v, _format_measure (text m) = Ok v ∧
               dict_get data "water_pressure"%string = Some v) ∧
  (get_appliance_data (PStr "heater") (Snapshots.boiler "4.0")).2 = Ok [] ∧
  (∃ x, py_float "2.1" = Ok x ∧
        (get_appliance_data (PStr "heater") (Snapshots.boiler "2.1")).2
        = Ok [("water_pressure"%string, VFloat x)]).
Proof.
  split_and!.
  - intros. by eapply pressure_reading.
  - by vm_compute.
  - eexists. split; by vm_compute.
Qed.

(** ** Runs of the pipeline *)

Lemma ignores_ret {A} (a : A) : ignores_thermo_master (ret a).
Proof. done. Qed.
Lemma ignores_lift {A} (r : result A) : ignores_thermo_master (lift r).
Proof. done. Qed.
Lemma ignores_read {A} (f : smile → A) :
  (∀ s t, f (set_thermo_master_id t s) = f s) →
  ignores_thermo_master (read f).
Proof. intros Hf s t. unfold read. by rewrite Hf. Qed.
Lemma ignores_bind {A B} (m : M A) (k : A → M B) :
  ignores_thermo_master m → (∀ a, ignores_thermo_master (k a)) →
  ignores_thermo_master (bind m k).
Proof.
  intros Hm Hk s t. unfold bind. rewrite Hm.
  destruct (m s) as [s1 [a|e]]; cbn; [apply Hk|done].
Qed.
Lemma ignores_set_home_location v :
  ignores_thermo_master (write (set_home_location v)).
Proof. done. Qed.
Lemma ignores_set_gateway_id v :
  ignores_thermo_master (write (set_gateway_id v)).
Proof. done. Qed.
Lemma ignores_set_heater_id v :
  ignores_thermo_master (write (set_heater_id v)).
Proof. done. Qed.
Lemma ignores_for_eachM {A} (body : A → M unit) l :
  (∀ a, ignores_thermo_master (body a)) →
  ignores_thermo_master (for_eachM body l).
Proof.
  intros Hb. induction l as [|a l IH]; cbn; [apply ignores_ret|].
  apply ignores_bind; auto.
Qed.
Lemma ignores_outcome {A} (m : M A) :
  ignores_thermo_master m → ignores_thermo_master (outcome m).
Proof. intros Hm s t. unfold outcome. by rewrite Hm. Qed.

Ltac ignores_step :=
  first
    [ apply ignores_ret | apply ignores_lift
    | apply ignores_read; done
    | apply ignores_set_home_location | apply ignores_set_gateway_id
    | apply ignores_set_heater_id
    | apply ignores_bind; [|intros ?]
    | apply ignores_for_eachM; intros ?
    | apply ignores_outcome
    | match goal with
      | |- ignores_thermo_master (let _ := _ in _) => lazy zeta
      | |- ignores_thermo_master (if ?b then _ else _) => destruct b
      | |- ignores_thermo_master (match ?x with _ => _ end) => destruct x
      end ].

Lemma ignores_get_all_locations : ignores_thermo_master get_all_locations.
Proof. unfold get_all_locations. repeat ignores_step. Qed.

Lemma ignores_get_all_appliances : ignores_thermo_master get_all_appliances.
Proof.
  unfold get_all_appliances, find_gateway_heater.
  repeat (apply ignores_get_all_locations || ignores_step).
Qed.

Lemma ignores_get_appliance_data {lx : Lxml} dev_id :
  ignores_thermo_master (get_appliance_data dev_id).
Proof. unfold get_appliance_data. repeat ignores_step. Qed.

Lemma ignores_get_rule_ids_by_tag {lx : Lxml} tag loc_id :
  ignores_thermo_master (get_rule_ids_by_tag tag loc_id).
Proof. unfold get_rule_ids_by_tag. repeat ignores_step. Qed.

Lemma ignores_get_rule_ids_by_name {lx : Lxml} name loc_id :
  ignores_thermo_master (get_rule_ids_by_name name loc_id).
Proof. unfold get_rule_ids_by_name. repeat ignores_step. Qed.

Lemma ignores_get_presets {lx : Lxml}
    loc_id : ignores_thermo_master (get_presets loc_id).
Proof.
  unfold get_presets, __get_presets_legacy.
  repeat (apply ignores_get_rule_ids_by_tag
          || apply ignores_get_rule_ids_by_name || ignores_step).
Qed.

Lemma ignores_get_preset {lx : Lxml}
    loc_id : ignores_thermo_master (get_preset loc_id).
Proof. unfold get_preset. repeat ignores_step. Qed.

Lemma ignores_get_schemas {lx : Lxml} weekday now loc_id :
  ignores_thermo_master (get_schemas weekday now loc_id).
Proof.
  unfold get_schemas.
  repeat (apply ignores_get_rule_ids_by_tag
          || apply ignores_get_presets || ignores_step).
Qed.

Lemma ignores_get_last_active_schema {lx : Lxml} total_seconds loc_id :
  ignores_thermo_master (get_last_active_schema total_seconds loc_id).
Proof.
  unfold get_last_active_schema.
  repeat (apply ignores_get_rule_ids_by_tag || ignores_step).
Qed.

Lemma ignores_get_direct_objects_from_location {lx : Lxml} loc_id :
  ignores_thermo_master (get_direct_objects_from_location loc_id).
Proof. unfold get_direct_objects_from_location. repeat ignores_step. Qed.

Lemma ignores_get_object_value {lx : Lxml} obj_type appl_id measurement :
  ignores_thermo_master (get_object_value obj_type appl_id measurement).
Proof. unfold get_object_value. repeat ignores_step. Qed.

Lemma ignores_device_record {lx : Lxml}
    total_seconds weekday now dev_id devices :
  ignores_thermo_master
    (device_record total_seconds weekday now dev_id devices).
Proof.
  unfold device_record, thermostat_data, gateway_data.
  repeat (apply ignores_get_appliance_data
          || apply ignores_get_preset || apply ignores_get_presets
          || apply ignores_get_schemas || apply ignores_get_last_active_schema
          || apply ignores_get_direct_objects_from_location
          || apply ignores_get_object_value || ignores_step).
Qed.

Lemma reader_ret {A} (a : A) : reader (ret a).
Proof. done. Qed.
Lemma reader_lift {A} (r : result A) : reader (lift r).
Proof. done. Qed.
Lemma reader_read {A} (f : smile → A) : reader (read f).
Proof. done. Qed.
Lemma reader_outcome {A} (m : M A) : reader (outcome m).
Proof. done. Qed.
Lemma reader_bind {A B} (m : M A) (k : A → M B) :
  reader m → (∀ a, reader (k a)) → reader (bind m k).
Proof.
  intros Hm Hk s. unfold bind. specialize (Hm s).
  destruct (m s) as [s1 [a|e]]; cbn in *; [|done].
  subst s1. apply Hk.
Qed.

Ltac reader_step :=
  first
    [ apply reader_ret | apply reader_lift | apply reader_read
    | apply reader_outcome
    | apply reader_bind; [|intros ?]
    | match goal with
      | |- reader (let _ := _ in _) => lazy zeta
      | |- reader (if ?b then _ else _) => destruct b
      | |- reader (match ?x with _ => _ end) => destruct x
      end ].

Lemma reader_get_appliance_data {lx : Lxml}
    dev_id : reader (get_appliance_data dev_id).
Proof. unfold get_appliance_data. repeat reader_step. Qed.

Lemma reader_get_rule_ids_by_tag {lx : Lxml} tag loc_id :
  reader (get_rule_ids_by_tag tag loc_id).
Proof. unfold get_rule_ids_by_tag. repeat reader_step. Qed.

Lemma reader_get_rule_ids_by_name {lx : Lxml} name loc_id :
  reader (get_rule_ids_by_name name loc_id).
Proof. unfold get_rule_ids_by_name. repeat reader_step. Qed.

Lemma reader_get_presets {lx : Lxml} loc_id : reader (get_presets loc_id).
Proof.
  unfold get_presets, __get_presets_legacy.
  repeat (apply reader_get_rule_ids_by_tag
          || apply reader_get_rule_ids_by_name || reader_step).
Qed.

Lemma reader_get_preset {lx : Lxml} loc_id : reader (get_preset loc_id).
Proof. unfold get_preset. repeat reader_step. Qed.

Lemma reader_get_schemas {lx : Lxml} weekday now loc_id :
  reader (get_schemas weekday now loc_id).
Proof.
  unfold get_schemas.
  repeat (apply reader_get_rule_ids_by_tag || reader_step).
Qed.

Lemma reader_get_last_active_schema {lx : Lxml} total_seconds loc_id :
  reader (get_last_active_schema total_seconds loc_id).
Proof.
  unfold get_last_active_schema.
  repeat (apply reader_get_rule_ids_by_tag || reader_step).
Qed.

Lemma reader_get_direct_objects_from_location {lx : Lxml} loc_id :
  reader (get_direct_objects_from_location loc_id).
Proof. unfold get_direct_objects_from_location. repeat reader_step. Qed.

Lemma reader_get_object_value {lx : Lxml} obj_type appl_id measurement :
  reader (get_object_value obj_type appl_id measurement).
Proof. unfold get_object_value. repeat reader_step. Qed.

Lemma reader_device_record {lx : Lxml}
    total_seconds weekday now dev_id devices :
  reader (device_record total_seconds weekday now dev_id devices).
Proof.
  unfold device_record, thermostat_data, gateway_data.
  repeat (apply reader_get_appliance_data
          || apply reader_get_preset || apply reader_get_presets
          || apply reader_get_schemas || apply reader_get_last_active_schema
          || apply reader_get_direct_objects_from_location
          || apply reader_get_object_value || reader_step).
Qed.

(** [get_all_locations] reads the documents and the dialect only; what it
    assigns to [self._home_location], if anything, and what it returns
    depend on nothing else. *)
Lemma get_all_locations_spec s :
  ∃ w r, ∀ s2, config s2 = config s →
    get_all_locations s2 = (assign set_home_location w s2, r).
Proof.
  destruct s as [apps dir dom home locs legacy tm gw ht nm ty].
  unfold config; cbn.
  destruct locs as [locs|].
  2: { exists None, (Raise TypeError). intros [] [= -> -> -> -> -> -> ->]. done. }
  destruct ((length (children locs) =? 0)%nat && legacy) eqn:E.
  - destruct apps as [apps|].
    2: { exists None, (Raise TypeError).
         intros [] [= -> -> -> -> -> -> ->].
         unfold get_all_locations, bind, read, lift, ret; cbn. by rewrite E. }
    destruct (for_each (fun appliance set => id ← attrib_item appliance "id";
                                              Ok ({[id]} ∪ set))
                       (children apps) (∅ : gset string)) as [ids|e] eqn:F.
    + exists None, (Ok ([(PInt 0, legacy_location ids)], PInt 0)).
      intros [] [= -> -> -> -> -> -> ->].
      unfold get_all_locations, bind, read, lift, ret; cbn.
      rewrite E. cbn. by rewrite F.
    + exists None, (Raise e).
      intros [] [= -> -> -> -> -> -> ->].
      unfold get_all_locations, bind, read, lift, ret; cbn.
      rewrite E. cbn. by rewrite F.
  - destruct (for_each
                (location_entry (legacy && bool_decide (ty = Some "power"%string)))
                (children locs) ([], PNone)) as [[locations h]|e] eqn:F.
    + exists (Some h), (Ok (locations, h)).
      intros [] [= -> -> -> -> -> -> ->].
      unfold get_all_locations, bind, read, lift, ret, write, legacy_power;
        cbn.
      rewrite E. cbn. by rewrite F.
    + exists None, (Raise e).
      intros [] [= -> -> -> -> -> -> ->].
      unfold get_all_locations, bind, read, lift, ret, write, legacy_power;
        cbn.
      rewrite E. cbn. by rewrite F.
Qed.

(** The first loop of [get_all_appliances] assigns [gateway_id] and
    [heater_id], or not, whatever they held. *)
Lemma find_gateway_heater_spec (l : list element) :
  ∃ wg wh r, ∀ s,
    for_eachM find_gateway_heater l s
    = (assign set_heater_id wh (assign set_gateway_id wg s), r).
Proof.
  induction l as [|a l (wg & wh & r & IH)].
  - by exists None, None, (Ok tt).
  - cbn [for_eachM]. unfold find_gateway_heater.
    destruct (find [Child "type"] a) as [t|].
    2: { exists None, None, (Raise AttributeError). done. }
    destruct (bool_decide (text t = Some "gateway"%string)) eqn:Hg;
    destruct (bool_decide (text t = Some "heater_central"%string)) eqn:Hh;
    destruct (attrib_item a "id") as [id|e] eqn:Hid.
    all: unfold bind, lift, need, write, ret; cbn; rewrite ?Hg, ?Hh, ?Hid; cbn.
    all: try rewrite Hid; cbn.
    + apply bool_decide_eq_true in Hg, Hh. congruence.
    + apply bool_decide_eq_true in Hg, Hh. congruence.
    + exists (Some (default (PStr id) wg)), wh, r. intros s. rewrite IH.
      destruct s, wg, wh; done.
    + exists None, None, (Raise e). done.
    + exists wg, (Some (default (PStr id) wh)), r. intros s. rewrite IH.
      destruct s, wg, wh; done.
    + exists None, None, (Raise e). done.
    + exists wg, wh, r. intros s. by rewrite IH.
    + exists wg, wh, r. intros s. by rewrite IH.
Qed.

(** What [get_all_appliances] assigns and returns: the assignments [U]
    are the same on every object with these documents, a second time
    they change nothing, and the result is read off the object they
    leave. *)
Lemma get_all_appliances_spec s :
  ∃ (U : smile → smile) (F : smile → result (dict pyid Appliance)) w rl,
    (∀ s2, config s2 = config s → get_all_appliances s2 = (U s2, F (U s2))) ∧
    (∀ s2, config s2 = config s →
           get_all_locations s2 = (assign set_home_location w s2, rl)) ∧
    (∀ s2, config (U s2) = config s2) ∧
    (∀ s2, U (U s2) = U s2) ∧
    (∀ s2, U s2 = s2 → assign set_home_location w s2 = s2).
Proof.
  destruct (get_all_locations_spec s) as (w & rl & HL).
  destruct s as [apps dir dom home locs legacy tm gw ht nm ty].
  change (config (Build_smile apps dir dom home locs legacy tm gw ht nm ty))
    with (apps, dir, dom, locs, legacy, nm, ty) in *.
  assert (∀ s2 : smile, config s2 = (apps, dir, dom, locs, legacy, nm, ty) →
          config (assign set_home_location w s2)
          = (apps, dir, dom, locs, legacy, nm, ty)) as Hcfg.
  { intros [] <-. by destruct w. }
  destruct rl as [[locations home_location]|e].
  2: { exists (assign set_home_location w), (λ _, Raise e), w, (Raise e).
       split_and!; try (intros []; destruct w; done); [|done].
       intros s2 Hc. unfold get_all_appliances, bind. by rewrite HL. }
  destruct (legacy && bool_decide (ty = Some "power"%string)) eqn:Elp.
  { exists (assign set_home_location w),
      (λ s', Ok [(_home_location s',
                  {| name := Some "Smile P1"%string;
                     types := {["power"%string; "home"%string]};
                     class := Some "gateway"%string;
                     location := home_location |})]),
      w, (Ok (locations, home_location)).
    split_and!; try (intros []; destruct w; done); [|done].
    intros s2 Hc. unfold get_all_appliances, bind. rewrite HL by done.
    specialize (Hcfg s2 Hc). destruct (assign set_home_location w s2).
    injection Hcfg as -> -> -> -> -> -> ->.
    unfold read, legacy_power, ret; cbn. by rewrite Elp. }
  destruct apps as [apps|].
  2: { exists (assign set_home_location w), (λ _, Raise TypeError),
         w, (Ok (locations, home_location)).
       split_and!; try (intros []; destruct w; done); [|done].
       intros s2 Hc. unfold get_all_appliances, bind. rewrite HL by done.
       specialize (Hcfg s2 Hc). destruct (assign set_home_location w s2).
       injection Hcfg as -> -> -> -> -> -> ->.
       unfold read, legacy_power, ret; cbn. by rewrite Elp. }
  destruct (find_gateway_heater_spec (children apps)) as (wg & wh & r1 & Hloop).
  destruct r1 as [[]|e].
  2: { exists (λ s2, assign set_heater_id wh
                       (assign set_gateway_id wg
                          (assign set_home_location w s2))),
         (λ _, Raise e), w, (Ok (locations, home_location)).
       split_and!; try (intros []; destruct w, wg, wh; done).
       - intros s2 Hc. unfold get_all_appliances, bind. rewrite HL by done.
         specialize (Hcfg s2 Hc). destruct (assign set_home_location w s2).
         injection Hcfg as -> -> -> -> -> -> ->.
         unfold read, legacy_power, ret, lift; cbn. rewrite Elp. cbn.
         by rewrite Hloop.
       - done.
       - intros [] Hfix. clear HL Hcfg Hloop.
         destruct w, wg, wh;
           unfold assign, set_heater_id, set_gateway_id, set_home_location
             in *; cbn in Hfix |- *;
           first [reflexivity | injection Hfix; intros; subst; reflexivity]. }
  set (fix_gateway := λ s3 : smile,
         if legacy_thermostat s3
         then set_gateway_id (heater_id s3) s3 else s3).
  exists (λ s2, fix_gateway
                  (assign set_heater_id wh
                     (assign set_gateway_id wg
                        (assign set_home_location w s2)))),
    (λ s4,
       '(appliances, locations') ←
         for_each (appliance_entry_of (heater_id s4) (gateway_id s4) nm
                                      home_location)
                  (children apps) ([], locations);
       Ok (fmap (M:=list) (prod_map id (resolve locations' home_location))
                appliances)),
    w, (Ok (locations, home_location)).
  split_and!.
  - intros s2 Hc. unfold get_all_appliances, bind. rewrite HL by done.
    specialize (Hcfg s2 Hc). destruct (assign set_home_location w s2).
    injection Hcfg as -> -> -> -> -> -> ->.
    unfold read, legacy_power, ret, lift, write; cbn.
    rewrite Elp. cbn. rewrite Hloop.
    unfold fix_gateway, legacy_thermostat.
    destruct wg, wh; cbn;
      (destruct (legacy && bool_decide (ty = Some "thermostat"%string)); cbn;
       by destruct (for_each _ _ _) as [[]|]).
  - done.
  - intros []. unfold fix_gateway, legacy_thermostat.
    destruct w, wg, wh; cbn;
      by destruct (_smile_legacy0 && bool_decide (_ = _)).
  - intros []. unfold fix_gateway, legacy_thermostat.
    destruct w, wg, wh; cbn;
      (destruct (_smile_legacy0 && bool_decide (_ = _)) eqn:E; cbn;
       rewrite ?E; done).
  - intros [] Hfix. unfold fix_gateway, legacy_thermostat in Hfix.
    clear HL Hcfg Hloop.
    destruct w, wg, wh;
      unfold assign, set_heater_id, set_gateway_id, set_home_location in *;
      cbn in Hfix |- *;
      try destruct (_smile_legacy0 && bool_decide (_ = _));
      first [reflexivity | injection Hfix; intros; subst; reflexivity].
Qed.

(** Once [get_all_appliances] has run, running it or [get_all_locations]
    again assigns nothing new and returns the same. *)
Lemma get_all_appliances_settles s s1 a :
  get_all_appliances s = (s1, a) →
  get_all_appliances s1 = (s1, a) ∧ ∃ l, get_all_locations s1 = (s1, l).
Proof.
  intros H.
  destruct (get_all_appliances_spec s) as (U & F & w & rl & HA & HL & Hc & Hi & Hh).
  rewrite (HA s eq_refl) in H. injection H as <- <-.
  rewrite (HA (U s) (Hc s)), Hi. split; [done|].
  exists rl. rewrite (HL (U s) (Hc s)). by rewrite Hh.
Qed.

(** The inner loop of [scan_thermostats] assigns [self._thermo_master_id]
    or leaves it: what it assigns does not depend on what was there. *)
Lemma scan_appliances_master legacy loc_id appliances z h :
  ∃ z' h' c, ∀ t,
    foldl (scan_appliance legacy loc_id)
          {| scan_zone := z; high_prio := h; thermo_master := t |} appliances
    = {| scan_zone := z'; high_prio := h'; thermo_master := default t c |}.
Proof.
  revert z h. induction appliances as [|[appliance_id details] rest IH];
    intros z h.
  { by exists z, h, None. }
  cbn [foldl]. unfold scan_appliance at 2. cbn [scan_zone high_prio thermo_master].
  destruct (prio (class details)) as [p|].
  2: { destruct (IH z h) as (z' & h' & c & H). by exists z', h', c. }
  destruct (h <? p)%Z.
  - destruct (IH (if in_zone legacy loc_id details
                  then elect appliance_id p z else z) p)
      as (z' & h' & c & H).
    exists z', h', (Some (default appliance_id c)). intros t. by rewrite H.
  - destruct (IH (if in_zone legacy loc_id details
                  then elect appliance_id p z else z) h)
      as (z' & h' & c & H).
    by exists z', h', c.
Qed.

(** The same for the outer loop. *)
Lemma scan_locations_master legacy home_location appliances ls d h :
  ∃ d' h' c, ∀ t,
    foldl (scan_location legacy home_location appliances) (d, h, t) ls
    = (d', h', default t c).
Proof.
  revert d h. induction ls as [|[loc_id details] rest IH]; intros d h.
  { by exists d, h, None. }
  cbn [foldl]. unfold scan_location at 2.
  destruct (is_zone legacy home_location loc_id details).
  2: { destruct (IH (dict_set d loc_id details) h) as (d' & h' & c & H).
       by exists d', h', c. }
  destruct (scan_appliances_master legacy loc_id appliances no_master h)
    as (z1 & h1 & c1 & H1).
  destruct (IH (dict_set d loc_id (with_zone z1 details)) h1)
    as (d' & h' & c & H).
  exists d', h', (match c with Some v => Some v | None => c1 end).
  intros t. rewrite H1. cbn [scan_zone high_prio thermo_master].
  rewrite H. by destruct c.
Qed.

(** On an object [get_all_appliances] has settled, [get_device_data]
    assigns [self._thermo_master_id] at most, and what it assigns and
    returns does not depend on what was there. *)
Lemma get_device_data_settled {lx : Lxml} total_seconds weekday now v a l :
  get_all_appliances v = (v, a) →
  get_all_locations v = (v, l) →
  ∃ c R, ∀ dev_id t,
    get_device_data total_seconds weekday now dev_id
                    (set_thermo_master_id t v)
    = (set_thermo_master_id (default t c) v, R dev_id).
Proof.
  intros HA HL.
  assert (∀ t, get_all_appliances (set_thermo_master_id t v)
               = (set_thermo_master_id t v, a)) as HA'.
  { intros t. by rewrite ignores_get_all_appliances, HA. }
  assert (∀ t, get_all_locations (set_thermo_master_id t v)
               = (set_thermo_master_id t v, l)) as HL'.
  { intros t. by rewrite ignores_get_all_locations, HL. }
  destruct a as [appliances|e].
  2: { exists None, (λ _, Raise e). intros dev_id t.
       unfold get_device_data, get_all_devices, bind. by rewrite HA'. }
  destruct l as [[locations home_location]|e].
  2: { exists None, (λ _, Raise e). intros dev_id t.
       unfold get_device_data, get_all_devices, scan_thermostats,
         match_locations, bind.
       by rewrite HA', HL'. }
  set (matched :=
         foldl (λ match_locations '(location_id, location_details),
                  dict_set match_locations location_id
                    (match_location appliances location_id location_details))
               [] locations).
  destruct (scan_locations_master (_smile_legacy v) home_location appliances
              matched matched 0) as (d' & h' & c & Hscan).
  exists c,
    (λ dev_id,
       (device_record total_seconds weekday now dev_id
          (foldl (λ devices '(appliance, details),
                    dict_set devices appliance
                      (device_of d' home_location appliance details))
                 [] appliances) v).2).
  intros dev_id t.
  unfold get_device_data, get_all_devices, scan_thermostats,
    match_locations, bind.
  rewrite HA', HL', HA'. unfold ret, read. rewrite HA'.
  change (_smile_legacy (set_thermo_master_id t v)) with (_smile_legacy v).
  change (_thermo_master_id (set_thermo_master_id t v)) with t.
  fold matched. rewrite Hscan. unfold write.
  change (set_thermo_master_id (default t c) (set_thermo_master_id t v))
    with (set_thermo_master_id (default t c) v).
  rewrite ignores_device_record, reader_device_record. done.
Qed.

(** After one [get_device_data] the object is settled: every further
    call leaves it as it is, and the call repeated returns the same. *)
Lemma get_device_data_once {lx : Lxml} total_seconds weekday now dev_id s :
  ∃ R, (get_device_data total_seconds weekday now dev_id s).2 = R dev_id ∧
       ∀ d, get_device_data total_seconds weekday now d
              (get_device_data total_seconds weekday now dev_id s).1
            = ((get_device_data total_seconds weekday now dev_id s).1, R d).
Proof.
  destruct (get_all_appliances s) as [v a] eqn:HA.
  destruct (get_all_appliances_settles _ _ _ HA) as [HAv [l HLv]].
  destruct (get_device_data_settled total_seconds weekday now v a l HAv HLv)
    as (c & R & H).
  assert (get_device_data total_seconds weekday now dev_id s
          = get_device_data total_seconds weekday now dev_id
              (set_thermo_master_id (_thermo_master_id v) v)) as ->.
  { replace (set_thermo_master_id (_thermo_master_id v) v) with v
      by by destruct v.
    unfold get_device_data, get_all_devices, bind. by rewrite HA, HAv. }
  exists R. rewrite H. split; [done|]. intros d. cbn [fst].
  rewrite H. by destruct c.
Qed.

Lemma device_records_settled {lx : Lxml} total_seconds weekday now R ids s :
  (∀ d, get_device_data total_seconds weekday now d s = (s, R d)) →
  device_records total_seconds weekday now ids s = (s, R <$> ids).
Proof.
  intros H. induction ids as [|d ids IH]; [done|].
  cbn [device_records]. by rewrite H, IH.
Qed.

(** C9, amended.  [get_device_data] assigns to the object: the ids of
    the gateway, of the heater and of the master thermostat, and the home
    location; and it reads the ids an earlier run left there.  On one
    object, with the same documents and the same time, the pipeline run
    a second time, [get_device_data] for every device id in turn,
    returns for every device id what the first run returned, a record
    or an exception, and leaves the object as the first run left it. *)
Theorem device_records_twice {lx : Lxml} total_seconds weekday now ids self :
  device_records total_seconds weekday now ids
    (device_records total_seconds weekday now ids self).1
  = device_records total_seconds weekday now ids self.
Proof.
  destruct ids as [|dev_id rest]; [done|].
  destruct (get_device_data_once total_seconds weekday now dev_id self)
    as (R & Hr & HR).
  cbn [device_records].
  destruct (get_device_data total_seconds weekday now dev_id self)
    as [self' r]. cbn [fst snd] in Hr, HR. subst r.
  rewrite (device_records_settled _ _ _ R rest self' HR). cbn [fst].
  by rewrite HR, (device_records_settled _ _ _ R rest self' HR).
Qed.

(** ** The properties on the example snapshots *)


Lemma scan_thermostats_master_not_slave_witness :
  ∃ self' locations details z,
    scan_thermostats adam = (self', Ok (locations, PStr "home")) ∧
    (PStr "z1", details) ∈ locations ∧ zone details = Some z ∧
    master z = PStr "lisa" ∧ master z ∉ slaves z.
Proof.
  assert (∃ self' locations details z,
            scan_thermostats adam = (self', Ok (locations, PStr "home")) ∧
            (PStr "z1", details) ∈ locations ∧ zone details = Some z ∧
            master z = PStr "lisa")
    as (self' & locations & details & z & H & Hin & Hz & Hm).
  { eexists _, _, _, _. split_and!.
    - vm_compute. reflexivity.
    - right. left.
    - reflexivity.
    - reflexivity. }
  exists self', locations, details, z. split_and!; try done.
  apply (scan_thermostats_master_not_slave adam self' locations _ H
           (PStr "z1") details z Hin Hz).
  by rewrite Hm.
Defined.

Lemma get_all_devices_slave_class_witness :
  ∃ self' devices,
    get_all_devices adam = (self', Ok devices) ∧
    ∃ self1 appliances thermo_locations home_location,
      get_all_appliances adam = (self1, Ok appliances) ∧
      scan_thermostats self1 = (self', Ok (thermo_locations, home_location)) ∧
      keys devices = keys appliances.
Proof.
  assert (∃ self' devices, get_all_devices adam = (self', Ok devices))
    as (self' & devices & H).
  { eexists _, _. vm_compute. reflexivity. }
  exists self', devices. split; [exact H|].
  destruct (get_all_devices_slave_class adam self' devices H)
    as (s1 & appliances & thermo_locations & home & Ha & Hs & Hk & _).
  by exists s1, appliances, thermo_locations, home.
Defined.

Lemma legacy_without_locations_witness :
  ∃ locations,
    get_all_locations anna = (anna, Ok (locations, PInt 0)) ∧
    ∃ home, locations = [(PInt 0, home)] ∧
            loc_types home = {["temperature"%string]} ∧
            members home = {["a1"%string; "a2"%string; "a3"%string]}.
Proof.
  eexists. split.
  - apply (legacy_without_locations anna (node "locations" []) anna_appliances);
      try reflexivity.
    repeat constructor; by eexists.
  - eexists. split_and!; [reflexivity|reflexivity|].
    cbn. set_solver.
Defined.

Lemma in_between_half_open_wrap_around_witness :
  in_between (at_hm 10 0) (at_hm 6 0) (at_hm 22 0) = true.
Proof.
  assert (∀ h m, (0 ≤ h < 24)%Z → (0 ≤ m < 60)%Z → valid_time (at_hm h m))
    as Hvalid by (unfold valid_time; cbn; lia).
  destruct (in_between_half_open_wrap_around
              (at_hm 10 0) (at_hm 6 0) (at_hm 22 0))
    as (Hinside & _); [apply Hvalid; lia..|].
  apply Hinside; unfold micros; cbn; lia.
Defined.

Lemma water_pressure_above_limit_omitted_witness :
  ∃ data,
    (get_appliance_data (lx:=refusing) (PStr "heater") (boiler "4.0")).2
    = Ok data ∧
    dict_get data "water_pressure"%string = None.
Proof.
  assert (∃ self' data,
            get_appliance_data (lx:=refusing) (PStr "heater") (boiler "4.0")
            = (self', Ok data)) as (self' & data & H).
  { eexists _, _. vm_compute. reflexivity. }
  exists data. split; [by rewrite H|].
  eapply (proj1 water_pressure_above_limit_omitted
            (PStr "heater") (boiler "4.0") self' data) in H;
    [| reflexivity | reflexivity | reflexivity | by vm_compute ].
  exact H.
Defined.

Lemma open_therm_gateway_discarded_witness :
  ∃ self' devices,
    get_all_devices adam = (self', Ok devices) ∧
    ∀ appliance_id details, (appliance_id, details) ∈ devices →
      class details ≠ Some "open_therm_gateway"%string.
Proof.
  assert (∃ self' devices, get_all_devices adam = (self', Ok devices))
    as (self' & devices & H).
  { eexists _, _. vm_compute. reflexivity. }
  exists self', devices. split; [exact H|].
  exact (proj2 (open_therm_gateway_discarded adam self') devices H).
Defined.



Lemma device_records_twice_witness :
  device_records (lx:=refusing) at_epoch 0 (at_hm 12 0)
    [PStr "gw"; PStr "lisa"]
    (device_records (lx:=refusing) at_epoch 0 (at_hm 12 0)
       [PStr "gw"; PStr "lisa"] adam).1
  = device_records (lx:=refusing) at_epoch 0 (at_hm 12 0)
      [PStr "gw"; PStr "lisa"] adam.
Proof.
  exact (device_records_twice at_epoch 0 (at_hm 12 0)
           [PStr "gw"; PStr "lisa"] adam).
Defined.

(** The claim as it is written fails: [get_device_data] assigns to the
    object, and what it returns depends on what an earlier run left
    there.  A legacy Anna is polled when it no longer lists its boiler.
    The object that ran [get_device_data] while the boiler was listed
    still holds the boiler's id in [heater_id], and files the gateway
    under it; a new object files the gateway under [None].  With the same
    documents and the same time, the device id "h" has a record on the
    one object and raises [TypeError] on the other. *)
Lemma get_device_data_depends_on_earlier_run :
  heater_id new_object = PNone ∧
  ∀ lx : Lxml,
    config old_object = config new_object ∧
    heater_id old_object = PStr "h" ∧
    (get_device_data at_epoch 0 (at_hm 12 0) (PStr "h") old_object).2
    = Ok [] ∧
    (get_device_data at_epoch 0 (at_hm 12 0) (PStr "h") new_object).2
    = Raise TypeError.
Proof. split; [|intros lx; split_and!]; by vm_compute. Qed.

(** * Further properties

    ** The poll and the objects it leaves *)

Lemma keeps_ret {A T} (f : smile → T) (a : A) : keeps f (ret a).
Proof. done. Qed.

Lemma keeps_lift {A T} (f : smile → T) (r : result A) : keeps f (lift r).
Proof. done. Qed.

Lemma keeps_read {B T} (f : smile → T) (g : smile → B) :
  keeps f (read g).
Proof. done. Qed.

Lemma keeps_bind {A B T} (f : smile → T) (m : M A) (k : A → M B) :
  keeps f m → (∀ a, keeps f (k a)) → keeps f (bind m k).
Proof.
  intros Hm Hk s. unfold bind. specialize (Hm s).
  destruct (m s) as [s1 [a|e]]; cbn in *; [|done].
  by rewrite Hk.
Qed.

Lemma keeps_update {T} (f : smile → T) request command set :
  (∀ v s, f (set v s) = f s) → keeps f (update request command set).
Proof.
  intros Hset. apply keeps_bind; [apply keeps_lift|].
  intros [doc|]; [|apply keeps_ret]. intros s. apply Hset.
Qed.

Ltac keeps_step :=
  first [ apply keeps_ret | apply keeps_lift | apply keeps_read
        | apply keeps_update; by intros ? []
        | match goal with
          | |- keeps _ (if ?b then _ else _) => destruct b
          end
        | apply keeps_bind; [|intros ?] ].

(** X1.  A poll assigns documents only: [full_update_device], whatever
    the requests return or raise, leaves [_home_location],
    [_thermo_master_id], [gateway_id], [heater_id], the legacy flag, the
    name and the type of the Smile as they were. *)
Theorem full_update_device_keeps_ids request :
  keeps carried (full_update_device request).
Proof.
  unfold full_update_device, update_appliances, update_direct_objects,
    update_domain_objects, update_locations.
  repeat keeps_step.
Qed.

Lemma update_complete request command set s :
  (∀ doc s, complete s → complete (set (Some doc) s)) →
  complete s →
  complete (update request command set s).1 ∧
  ((update request command set s).2 = Ok tt ∨
   ∃ e, request command = Raise e ∧
        (update request command set s).2 = Raise e).
Proof.
  intros Hset Hc. unfold update, bind, lift.
  destruct (request command) as [[doc|]|e]; cbn; eauto.
Qed.

Lemma is_none_Some {A} (o : option A) : is_Some o → is_none o = false.
Proof. by intros [? ->]. Qed.

(** X2.  Documents are replaced, never cleared.  On an object that
    holds the four documents, [full_update_device] leaves it holding four
    documents, and either returns or raises the exception one of its
    requests raised: [XMLDataMissingError] is not raised by the poll
    itself any more. *)
Theorem full_update_device_complete request s :
  complete s →
  complete (full_update_device request s).1 ∧
  ((full_update_device request s).2 = Ok tt ∨
   ∃ command e, request command = Raise e ∧
                (full_update_device request s).2 = Raise e).
Proof.
  intros Hc.
  assert (∀ s, complete s →
            complete (update_appliances request s).1 ∧
            ((update_appliances request s).2 = Ok tt ∨
             ∃ e, request APPLIANCES = Raise e ∧
                  (update_appliances request s).2 = Raise e)) as H1.
  { intros s0 H0. unfold update_appliances, bind, read.
    destruct (legacy_power s0); [by eauto|].
    apply update_complete; [|done]. by intros doc [] (?&?&?&?). }
  assert (∀ s, complete s →
            complete (update_direct_objects request s).1 ∧
            ((update_direct_objects request s).2 = Ok tt ∨
             ∃ e, request DIRECT_OBJECTS = Raise e ∧
                  (update_direct_objects request s).2 = Raise e)) as H2.
  { intros s0 H0. unfold update_direct_objects, bind, read.
    destruct (legacy_power s0); [by eauto|].
    apply update_complete; [|done]. by intros doc [] (?&?&?&?). }
  assert (∀ s, complete s →
            complete (update_domain_objects request s).1 ∧
            ((update_domain_objects request s).2 = Ok tt ∨
             ∃ e, request DOMAIN_OBJECTS = Raise e ∧
                  (update_domain_objects request s).2 = Raise e)) as H3.
  { intros s0 H0. apply update_complete; [|done].
    by intros doc [] (?&?&?&?). }
  assert (∀ s, complete s →
            complete (update_locations request s).1 ∧
            ((update_locations request s).2 = Ok tt ∨
             ∃ e, request LOCATIONS = Raise e ∧
                  (update_locations request s).2 = Raise e)) as H4.
  { intros s0 H0. apply update_complete; [|done].
    by intros doc [] (?&?&?&?). }
  unfold full_update_device, bind, read, lift, ret.
  destruct (H1 s Hc) as [C1 R1].
  destruct (update_appliances request s) as [s1 r1]. cbn [fst snd] in C1, R1.
  destruct R1 as [->|(e & ? & ->)]; [|split; [done|right; by eauto]].
  rewrite (is_none_Some _ (proj1 C1)). cbn [andb].
  destruct (H2 s1 C1) as [C2 R2].
  destruct (update_direct_objects request s1) as [s2 r2].
  cbn [fst snd] in C2, R2.
  destruct R2 as [->|(e & ? & ->)]; [|split; [done|right; by eauto]].
  rewrite (is_none_Some _ (proj1 (proj2 C2))). cbn [andb].
  destruct (H3 s2 C2) as [C3 R3].
  destruct (update_domain_objects request s2) as [s3 r3].
  cbn [fst snd] in C3, R3.
  destruct R3 as [->|(e & ? & ->)]; [|split; [done|right; by eauto]].
  rewrite (is_none_Some _ (proj1 (proj2 (proj2 C3)))).
  destruct (H4 s3 C3) as [C4 R4].
  destruct (update_locations request s3) as [s4 r4].
  cbn [fst snd] in C4, R4.
  destruct R4 as [->|(e & ? & ->)]; [|split; [done|right; by eauto]].
  rewrite (is_none_Some _ (proj2 (proj2 (proj2 C4)))). split; [done|by left].
Qed.

Lemma full_update_device_complete_witness :
  complete (full_update_device without_appliances new_object).1 ∧
  ((full_update_device without_appliances new_object).2 = Ok tt ∨
   ∃ command e, without_appliances command = Raise e ∧
                (full_update_device without_appliances new_object).2
                = Raise e).
Proof.
  apply (full_update_device_complete without_appliances new_object).
  unfold complete. vm_compute. repeat split; eexists; reflexivity.
Defined.

(** X3.  [get_device_data] assigns neither a document, nor the legacy
    flag, nor the name or the type of the Smile, whether it returns or
    raises. *)
Theorem get_device_data_keeps_documents {lx : Lxml}
    total_seconds weekday now dev_id s :
  config (get_device_data total_seconds weekday now dev_id s).1 = config s.
Proof.
  unfold get_device_data, bind.
  pose proof (frames_get_all_devices s) as H.
  destruct (get_all_devices s) as [s1 [devices|e]]; cbn in H; [|done].
  by rewrite reader_device_record.
Qed.

(** X4.  On a Smile that is not a legacy P1 and holds no appliances
    document, [get_device_data] raises for every device id: what
    [get_all_locations] raised, or [TypeError] from the loop over
    [self._appliances]. *)
Theorem get_device_data_without_appliances {lx : Lxml}
    total_seconds weekday now dev_id s :
  legacy_power s = false → _appliances s = None →
  (get_device_data total_seconds weekday now dev_id s).2
  = Raise (match (get_all_locations s).2 with
           | Raise e => e
           | Ok _ => TypeError
           end).
Proof.
  intros Hlp Happs.
  unfold get_device_data, get_all_devices, get_all_appliances, bind.
  pose proof (frames_get_all_locations s) as H.
  destruct (get_all_locations s) as [s1 [[locations home]|e]]; cbn in H;
    [|done].
  assert (legacy_power s1 = false ∧ _appliances s1 = None) as [H1 H2].
  { destruct s, s1. unfold config, legacy_power in *. cbn in *.
    by simplify_eq. }
  unfold read, lift, ret. by rewrite H1, H2.
Qed.

Lemma get_device_data_without_appliances_witness :
  (get_device_data (lx:=refusing) at_epoch 0 (at_hm 12 0) (PStr "lisa")
     (polled without_appliances (unpolled false "thermostat"))).2
  = Raise TypeError.
Proof.
  apply (get_device_data_without_appliances at_epoch 0 (at_hm 12 0)
           (PStr "lisa")
           (polled without_appliances (unpolled false "thermostat")));
    reflexivity.
Defined.

(** ** Locations, appliances and masters *)





Lemma legacy_power_config s s' :
  config s' = config s → legacy_power s' = legacy_power s.
Proof. destruct s, s'. unfold config, legacy_power. cbn. by intros [=]; subst. Qed.

Lemma legacy_thermostat_config s s' :
  config s' = config s → legacy_thermostat s' = legacy_thermostat s.
Proof.
  destruct s, s'. unfold config, legacy_thermostat. cbn.
  by intros [=]; subst.
Qed.

(** X6.  For a legacy P1, [get_all_appliances] does not read the
    appliances document: when [get_all_locations] returns, it returns one
    entry, the gateway "Smile P1" with the types power and home, under
    the key [self._home_location] and at the home location that was
    returned. *)
Theorem get_all_appliances_legacy_power s s' locations home_location :
  legacy_power s = true →
  get_all_locations s = (s', Ok (locations, home_location)) →
  get_all_appliances s
  = (s', Ok [(_home_location s',
              {| name := Some "Smile P1"%string;
                 types := {["power"%string; "home"%string]};
                 class := Some "gateway"%string;
                 location := home_location |})]).
Proof.
  intros Hlp H. unfold get_all_appliances, bind. rewrite H.
  pose proof (frames_get_all_locations s) as Hc. rewrite H in Hc.
  apply legacy_power_config in Hc. cbn in Hc.
  unfold read. by rewrite Hc, Hlp.
Qed.

Lemma get_all_appliances_legacy_power_witness :
  ∃ s' locations,
    get_all_locations legacy_p1 = (s', Ok (locations, PStr "p1")) ∧
    get_all_appliances legacy_p1
    = (s', Ok [(_home_location s',
                {| name := Some "Smile P1"%string;
                   types := {["power"%string; "home"%string]};
                   class := Some "gateway"%string;
                   location := PStr "p1" |})]).
Proof.
  assert (∃ s' locations,
            get_all_locations legacy_p1 = (s', Ok (locations, PStr "p1")))
    as (s' & locations & H).
  { eexists _, _. vm_compute. reflexivity. }
  exists s', locations. split; [exact H|].
  exact (get_all_appliances_legacy_power legacy_p1 s' locations (PStr "p1")
           eq_refl H).
Defined.

(** X7.  For a legacy thermostat, after [get_all_appliances] has
    returned, [gateway_id] and [heater_id] are the same. *)
Theorem get_all_appliances_legacy_thermostat s s' appliances :
  legacy_thermostat s = true →
  get_all_appliances s = (s', Ok appliances) →
  gateway_id s' = heater_id s'.
Proof.
  intros Hlt H. unfold get_all_appliances in H.
  apply bind_ok in H as (s1 & [locations home] & HL & H).
  pose proof (frames_get_all_locations s) as Hc1. rewrite HL in Hc1.
  cbn in Hc1.
  apply bind_ok in H as (s2 & lp & [-> ->]%read_ok & H).
  destruct (legacy_power s1) eqn:Hlp.
  { rewrite (legacy_power_config _ _ Hc1) in Hlp.
    destruct s as [? ? ? ? ? lg ? ? ? ? ?].
    unfold legacy_power, legacy_thermostat in *. cbn in *.
    destruct lg; [|done]. repeat case_bool_decide; by simplify_eq. }
  apply bind_ok in H as (s3 & ? & [-> _]%read_ok & H).
  apply bind_ok in H as (s4 & apps & [-> _]%lift_ok & H).
  apply bind_ok in H as (s5 & ? & Hloop & H).
  assert (config s5 = config s1) as Hc5.
  { assert (frames (for_eachM find_gateway_heater (children apps))) as Hf.
    { apply frames_for_eachM. intros a. unfold find_gateway_heater.
      repeat frames_step. }
    specialize (Hf s1). by rewrite Hloop in Hf. }
  apply bind_ok in H as (s6 & lt & [-> ->]%read_ok & H).
  rewrite (legacy_thermostat_config _ _ Hc5),
    (legacy_thermostat_config _ _ Hc1), Hlt in H.
  apply bind_ok in H as (s7 & ? & Hw & H).
  apply bind_ok in Hw as (s8 & ht & [-> ->]%read_ok & Hw).
  injection Hw as <-.
  apply bind_ok in H as (s9 & ? & [-> _]%read_ok & H).
  apply bind_ok in H as (s10 & ? & [-> _]%read_ok & H).
  apply bind_ok in H as (s11 & ? & [-> _]%read_ok & H).
  apply bind_ok in H as (s12 & [? ?] & [-> _]%lift_ok & H).
  apply ret_ok in H as [-> _]. by destruct s5.
Qed.

Lemma get_all_appliances_legacy_thermostat_witness :
  ∃ s' appliances,
    get_all_appliances anna = (s', Ok appliances) ∧
    gateway_id s' = heater_id s'.
Proof.
  assert (∃ s' appliances, get_all_appliances anna = (s', Ok appliances))
    as (s' & appliances & H).
  { eexists _, _. vm_compute. reflexivity. }
  exists s', appliances. split; [exact H|].
  exact (get_all_appliances_legacy_thermostat anna s' appliances eq_refl H).
Defined.

Lemma appliance_entry_of_shares ht gw nm home appliance acc acc' :
  appliance_entry_of ht gw nm home appliance acc = Ok acc' →
  (∀ k e, (k, e) ∈ acc.1 → e_location e = PNone → e_types e = HomeTypes) →
  ∀ k e, (k, e) ∈ acc'.1 → e_location e = PNone → e_types e = HomeTypes.
Proof.
  destruct acc as [appliances locations]. unfold appliance_entry_of.
  intros H Hacc.
  apply rbind_ok in H as (id & _ & H).
  apply rbind_ok in H as (type_el & _ & H).
  apply rbind_ok in H as (name_el & _ & H).
  case_bool_decide as Hotg; [by injection H as <-|].
  apply rbind_ok in H as ([[[loc tys] aid] anm] & Hloc & H).
  assert (loc = PNone → tys = HomeTypes) as Hshare.
  { destruct (find [Child "location"] appliance).
    - by apply rbind_ok in Hloc as (? & _ & [= <- _ _ _]).
    - apply rbind_ok in Hloc as (? & _ & Hloc).
      repeat case_bool_decide; by injection Hloc as _ <- _ _. }
  repeat case_match; injection H as <-; cbn [fst];
    intros k' e' [[= -> ->]|Hin]%elem_of_dict_set; cbn; eauto;
    intros L; specialize (Hshare L); by simplify_eq.
Qed.

(** X8.  The appliances without a location share one [types] set, the
    one of the home location: in the result of [get_all_appliances] any
    two entries whose location is [None] have the same types. *)
Theorem get_all_appliances_shared_types s s' appliances :
  get_all_appliances s = (s', Ok appliances) →
  ∀ id1 details1 id2 details2,
    (id1, details1) ∈ appliances → (id2, details2) ∈ appliances →
    location details1 = PNone → location details2 = PNone →
    types details1 = types details2.
Proof.
  unfold get_all_appliances. intros H.
  apply bind_ok in H as (s1 & [locations home] & _ & H).
  apply bind_ok in H as (s2 & lp & _ & H).
  destruct lp.
  - apply bind_ok in H as (s3 & hl & _ & H).
    apply ret_ok in H as [_ ->].
    by intros ???? [= -> ->]%list_elem_of_singleton
                   [= -> ->]%list_elem_of_singleton.
  - apply bind_ok in H as (s3 & ? & _ & H).
    apply bind_ok in H as (s4 & apps & _ & H).
    apply bind_ok in H as (s5 & ? & _ & H).
    apply bind_ok in H as (s6 & ? & _ & H).
    apply bind_ok in H as (s7 & ? & _ & H).
    apply bind_ok in H as (s8 & ht & _ & H).
    apply bind_ok in H as (s9 & gw & _ & H).
    apply bind_ok in H as (s10 & nm & _ & H).
    apply bind_ok in H as (s11 & [entries locations'] & Hloop & H).
    apply ret_ok in H as [_ ->].
    apply lift_ok in Hloop as [_ Hloop].
    assert (∀ k e, (k, e) ∈ (entries, locations').1 →
                   e_location e = PNone → e_types e = HomeTypes) as Hinv.
    { eapply (for_each_inv
                (λ acc, ∀ k e, (k, e) ∈ acc.1 → e_location e = PNone →
                               e_types e = HomeTypes));
        [ | | exact Hloop].
      - intros a acc acc' _ Hacc Hbody.
        by eapply appliance_entry_of_shares.
      - intros ?? []%elem_of_nil. }
    cbn in Hinv.
    intros id1 d1 id2 d2
      ([k1 e1] & [= -> ->] & H1)%list_elem_of_fmap
      ([k2 e2] & [= -> ->] & H2)%list_elem_of_fmap.
    cbn. intros L1 L2.
    by rewrite (Hinv _ _ H1 L1), (Hinv _ _ H2 L2).
Qed.

Lemma get_all_appliances_shared_types_witness :
  ∃ s' appliances thermostat gateway,
    get_all_appliances anna = (s', Ok appliances) ∧
    dict_get appliances (PStr "a1") = Some thermostat ∧
    dict_get appliances (PStr "a2") = Some gateway ∧
    "thermostat"%string ∈ types thermostat ∧
    types thermostat = types gateway.
Proof.
  assert (∃ s' appliances thermostat gateway,
            get_all_appliances anna = (s', Ok appliances) ∧
            dict_get appliances (PStr "a1") = Some thermostat ∧
            dict_get appliances (PStr "a2") = Some gateway ∧
            "thermostat"%string ∈ types thermostat ∧
            location thermostat = PNone ∧ location gateway = PNone)
    as (s' & appliances & d1 & d2 & H & H1 & H2 & Ht & L1 & L2).
  { eexists _, _, _, _. vm_compute.
    split_and!; reflexivity. }
  exists s', appliances, d1, d2. split_and!; try done.
  apply (get_all_appliances_shared_types anna s' appliances H
           (PStr "a1") d1 (PStr "a2") d2);
    try done; by apply dict_get_Some_elem.
Defined.

Lemma location_entry_NoDup lp location acc acc' :
  location_entry lp location acc = Ok acc' →
  NoDup (keys acc.1) → NoDup (keys acc'.1).
Proof.
  destruct acc as [locations home]. unfold location_entry.
  intros H Hacc. cbn in Hacc.
  apply rbind_ok in H as (name_el & _ & H).
  apply rbind_ok in H as (location_id & _ & H).
  apply rbind_ok in H as (location_members & _ & H).
  destruct (bool_decide (text name_el = Some "Home"%string));
    apply rbind_ok in H as ([[location_name home'] types] & _ & H);
    injection H as <-; cbn [fst]; by apply NoDup_keys_dict_set.
Qed.

Lemma get_all_locations_NoDup s s' locations home :
  get_all_locations s = (s', Ok (locations, home)) → NoDup (keys locations).
Proof.
  unfold get_all_locations. intros H.
  apply bind_ok in H as (s1 & ? & _ & H).
  apply bind_ok in H as (s2 & locs & _ & H).
  apply bind_ok in H as (s3 & legacy & _ & H).
  destruct (_ && _).
  - apply bind_ok in H as (s4 & ? & _ & H).
    apply bind_ok in H as (s5 & ? & _ & H).
    apply bind_ok in H as (s6 & ? & _ & H).
    apply ret_ok in H as [_ [= -> _]]. apply NoDup_singleton.
  - apply bind_ok in H as (s4 & ? & _ & H).
    apply bind_ok in H as (s5 & [locations' home'] & [_ Hloop]%lift_ok & H).
    apply bind_ok in H as (s6 & ? & _ & H).
    apply ret_ok in H as [_ [= -> _]].
    change locations' with (locations', home').1.
    eapply (for_each_inv (λ acc, NoDup (keys acc.1))); [| |exact Hloop].
    + intros a acc acc' _ Hacc Hbody. by eapply location_entry_NoDup.
    + apply NoDup_nil_2.
Qed.

Lemma match_location_spec appliances k l :
  loc_name (match_location appliances k l) = loc_name l ∧
  members (match_location appliances k l) = members l ∧
  ∀ t, t ∈ loc_types (match_location appliances k l) ↔
       t ∈ loc_types l ∨
       ∃ id d, (id, d) ∈ appliances ∧ location d = k ∧ t ∈ types d.
Proof.
  unfold match_location. revert l.
  induction appliances as [|[id d] appliances IH]; intros l; cbn [foldl].
  - split_and!; [done..|]. intros t. split; [by left|].
    intros [|(? & ? & []%elem_of_nil & _)]. done.
  - destruct (IH (if bool_decide (location d = k)
                  then add_types (types d) l else l)) as (Hn & Hm & Ht).
    rewrite Hn, Hm. split_and!; [by case_bool_decide..|].
    intros t. rewrite Ht. setoid_rewrite elem_of_cons.
    case_bool_decide as Hk; cbn; [rewrite elem_of_union|]; split.
    + intros [[|]|(id' & d' & ? & ? & ?)]; [by left|..];
        right; [exists id, d|exists id', d']; auto.
    + intros [|(id' & d' & [[= -> ->]|] & ? & ?)]; [by auto|by auto|].
      right. eauto.
    + intros [|(id' & d' & ? & ? & ?)]; [by left|].
      right. exists id', d'. auto.
    + intros [|(id' & d' & [[= -> ->]|] & ? & ?)]; [by auto|done|].
      right. eauto.
Qed.

(** X9.  [match_locations] returns the locations of
    [get_all_locations] under the same ids in the same order, with their
    names and members, and with types extended by those of the
    appliances located there, and by nothing else. *)
Theorem match_locations_extends_types s s' matched home_location :
  match_locations s = (s', Ok (matched, home_location)) →
  ∃ s1 locations appliances,
    get_all_locations s = (s1, Ok (locations, home_location)) ∧
    get_all_appliances s1 = (s', Ok appliances) ∧
    keys matched = keys locations ∧
    ∀ k l, (k, l) ∈ locations →
      ∃ l', dict_get matched k = Some l' ∧
            loc_name l' = loc_name l ∧ members l' = members l ∧
            ∀ t, t ∈ loc_types l' ↔
                 t ∈ loc_types l ∨
                 ∃ id d, (id, d) ∈ appliances ∧ location d = k ∧
                         t ∈ types d.
Proof.
  unfold match_locations. intros H.
  apply bind_ok in H as (s1 & [locations home'] & HL & H).
  apply bind_ok in H as (s2 & appliances & HA & H).
  apply ret_ok in H as [-> [= -> ->]].
  exists s1, locations, appliances. split_and!; [done..| |].
  all: pose proof (get_all_locations_NoDup _ _ _ _ HL) as Hnd;
    rewrite (foldl_dict_set_nil
               (λ k l, match_location appliances k l) locations Hnd).
  - apply keys_fmap_snd.
  - intros k l Hin. exists (match_location appliances k l).
    split; [|apply match_location_spec].
    apply dict_get_elem.
    + by rewrite keys_fmap_snd.
    + apply list_elem_of_fmap. by exists (k, l).
Qed.

Lemma match_locations_extends_types_witness :
  ∃ s' matched s1 locations appliances,
    match_locations adam = (s', Ok (matched, PStr "home")) ∧
    get_all_locations adam = (s1, Ok (locations, PStr "home")) ∧
    get_all_appliances s1 = (s', Ok appliances) ∧
    keys matched = keys locations.
Proof.
  assert (∃ s' matched, match_locations adam
                        = (s', Ok (matched, PStr "home")))
    as (s' & matched & H).
  { eexists _, _. vm_compute. reflexivity. }
  destruct (match_locations_extends_types adam s' matched (PStr "home") H)
    as (s1 & locations & appliances & HL & HA & Hk & _).
  by exists s', matched, s1, locations, appliances.
Defined.

(** X10.  [get_all_devices] keeps the name and the types of every
    appliance, and its location unless that is [None], which becomes the
    home location. *)
Theorem get_all_devices_location self self' devices :
  get_all_devices self = (self', Ok devices) →
  ∃ self1 appliances thermo_locations home_location,
    get_all_appliances self = (self1, Ok appliances) ∧
    scan_thermostats self1 = (self', Ok (thermo_locations, home_location)) ∧
    ∀ appliance details,
      (appliance, details) ∈ appliances →
      ∃ device,
        dict_get devices appliance = Some device ∧
        name device = name details ∧ types device = types details ∧
        location device = if bool_decide (location details = PNone)
                          then home_location else location details.
Proof.
  unfold get_all_devices. intros H.
  apply bind_ok in H as (s1 & appliances & Ha & H).
  apply bind_ok in H as (s2 & [thermo_locations home] & Hs & H).
  apply ret_ok in H as [-> ->].
  exists s1, appliances, thermo_locations, home.
  pose proof (get_all_appliances_well_keyed _ _ _ Ha) as [Hnd _].
  rewrite (foldl_dict_set_nil
             (λ appliance details,
                device_of thermo_locations home appliance details)) by done.
  split_and!; [done|done|].
  intros appliance details Hin.
  exists (device_of thermo_locations home appliance details). split.
  - apply dict_get_elem; [by rewrite keys_fmap_snd|].
    apply list_elem_of_fmap. by exists (appliance, details).
  - unfold device_of.
    by destruct (is_slave _ _ _); case_bool_decide.
Qed.

Lemma get_all_devices_location_witness :
  ∃ self' devices gateway,
    get_all_devices adam = (self', Ok devices) ∧
    dict_get devices (PStr "gw") = Some gateway ∧
    location gateway = PStr "home".
Proof.
  assert (∃ self' devices, get_all_devices adam = (self', Ok devices))
    as (self' & devices & H).
  { eexists _, _. vm_compute. reflexivity. }
  destruct (get_all_devices_location adam self' devices H)
    as (s1 & appliances & locations & home & Ha & Hs & Hdev).
  assert (∃ s1' appliances' details,
            get_all_appliances adam = (s1', Ok appliances') ∧
            dict_get appliances' (PStr "gw") = Some details ∧
            location details = PNone ∧
            (r ← (scan_thermostats s1').2; Ok r.2) = Ok (PStr "home"))
    as (s1' & appliances' & details & Ha' & Hget & Hloc & Hs').
  { eexists _, _, _.
    split; [vm_compute; reflexivity|].
    split; [vm_compute; reflexivity|].
    split; vm_compute; reflexivity. }
  rewrite Ha in Ha'. injection Ha' as <- <-.
  rewrite Hs in Hs'. cbn in Hs'. injection Hs' as ->.
  destruct (Hdev _ _ (dict_get_Some_elem _ _ _ Hget))
    as (gateway & Hg & _ & _ & Hl).
  rewrite Hloc in Hl. by exists self', devices, gateway.
Defined.

Lemma first_highest_cons id p rest :
  (0 < p)%Z →
  first_highest ((id, p) :: rest)
  = if (p <? max_prio rest)%Z then first_highest rest else Some id.
Proof.
  intros Hp. unfold first_highest.
  assert (max_prio ((id, p) :: rest) = Z.max p (max_prio rest)) as -> by done.
  destruct (p <? max_prio rest)%Z eqn:E.
  - apply Z.ltb_lt in E. rewrite Z.max_r by lia.
    rewrite filter_cons_False by (cbn; lia). done.
  - apply Z.ltb_ge in E. rewrite Z.max_l by lia.
    by rewrite filter_cons_True.
Qed.

(** The inner loop of [scan_thermostats]: [high_prio] and
    [self._thermo_master_id] after it. *)
Lemma scan_appliances_highest legacy loc_id appliances z h t :
  (0 ≤ h)%Z →
  let s := foldl (scan_appliance legacy loc_id)
                 {| scan_zone := z; high_prio := h; thermo_master := t |}
                 appliances in
  let M := max_prio (thermostats appliances) in
  high_prio s = Z.max h M ∧
  thermo_master s = if (h <? M)%Z
                    then default t (first_highest (thermostats appliances))
                    else t.
Proof.
  revert z h t.
  induction appliances as [|[id d] rest IH]; intros z h t Hh; cbn zeta.
  { cbn. split; [unfold max_prio; cbn; lia|].
    by destruct (h <? _)%Z. }
  cbn [foldl].
  unfold thermostats. cbn [omap list_omap]. fold (thermostats rest).
  destruct (prio (class d)) as [p|] eqn:Hp; cbn [mbind option_bind].
  2: { replace (scan_appliance legacy loc_id _ (id, d))
         with {| scan_zone := z; high_prio := h; thermo_master := t |}
         by (unfold scan_appliance; cbn; by rewrite Hp).
       by apply IH. }
  replace (scan_appliance legacy loc_id _ (id, d))
    with (if (h <? p)%Z
          then {| scan_zone := if in_zone legacy loc_id d
                               then elect id p z else z;
                  high_prio := p; thermo_master := id |}
          else {| scan_zone := if in_zone legacy loc_id d
                               then elect id p z else z;
                  high_prio := h; thermo_master := t |})
    by (unfold scan_appliance; cbn; by rewrite Hp).
  pose proof (prio_positive _ _ Hp) as Hpos.
  pose proof (max_prio_nonneg (thermostats rest)) as Hnn.
  assert (max_prio ((id, p) :: thermostats rest)
          = Z.max p (max_prio (thermostats rest))) as -> by done.
  rewrite first_highest_cons by done.
  destruct (h <? p)%Z eqn:E.
  - apply Z.ltb_lt in E.
    destruct (IH (if in_zone legacy loc_id d then elect id p z else z)
                 p id ltac:(lia)) as [-> ->].
    split; [lia|].
    replace (h <? Z.max p (max_prio (thermostats rest)))%Z with true
      by (symmetry; apply Z.ltb_lt; lia).
    destruct (p <? max_prio (thermostats rest))%Z eqn:E2; [|done].
    apply Z.ltb_lt in E2.
    unfold first_highest.
    destruct (head _) as [[]|] eqn:Hhead; [done|].
    exfalso. apply head_None in Hhead.
    assert (∃ c, c ∈ thermostats rest ∧ c.2 = max_prio (thermostats rest))
      as (c & Hc & Hc2).
    { clear -E2 Hpos. induction (thermostats rest) as [|[i q] l IHl].
      - unfold max_prio in E2. cbn in E2. lia.
      - assert (max_prio ((i, q) :: l) = Z.max q (max_prio l)) as Hm by done.
        rewrite Hm in *.
        destruct (Z.max_spec q (max_prio l)) as [[? Heq]|[? Heq]];
          rewrite Heq in *.
        + destruct IHl as (c & ? & ?); [lia|].
          exists c. split; [by right|done].
        + exists (i, q). split; [by left|done]. }
    assert (c ∈ filter (λ c, c.2 = max_prio (thermostats rest))
                       (thermostats rest)) as Hin
      by by apply list_elem_of_filter.
    rewrite Hhead in Hin. by apply elem_of_nil in Hin.
  - apply Z.ltb_ge in E.
    destruct (IH (if in_zone legacy loc_id d then elect id p z else z)
                 h t Hh) as [-> ->].
    split; [lia|].
    destruct (h <? max_prio (thermostats rest))%Z eqn:E2.
    + apply Z.ltb_lt in E2.
      replace (h <? Z.max p (max_prio (thermostats rest)))%Z with true
        by (symmetry; apply Z.ltb_lt; lia).
      replace (p <? max_prio (thermostats rest))%Z with true
        by (symmetry; apply Z.ltb_lt; lia).
      done.
    + apply Z.ltb_ge in E2.
      replace (h <? Z.max p (max_prio (thermostats rest)))%Z with false
        by (symmetry; apply Z.ltb_ge; lia).
      done.
Qed.

Lemma keeps_for_eachM {A T} (f : smile → T) (body : A → M unit) l :
  (∀ a, keeps f (body a)) → keeps f (for_eachM body l).
Proof.
  intros Hbody. induction l as [|a l IH]; [apply keeps_ret|].
  cbn. apply keeps_bind; [apply Hbody|]. by intros _.
Qed.

Lemma keeps_write {T} (f : smile → T) (set : smile → smile) :
  (∀ s, f (set s) = f s) → keeps f (write set).
Proof. intros H s. apply H. Qed.

Ltac keeps_master_step :=
  first
    [ apply keeps_ret | apply keeps_lift | apply keeps_read
    | apply keeps_write; by intros []
    | apply keeps_bind; [|intros ?]
    | apply keeps_for_eachM; intros ?
    | match goal with
      | |- keeps _ (if ?b then _ else _) => destruct b
      | |- keeps _ (match ?x with _ => _ end) => destruct x
      end ].

Lemma get_all_locations_keeps_master :
  keeps _thermo_master_id get_all_locations.
Proof. unfold get_all_locations. repeat keeps_master_step. Qed.

Lemma get_all_appliances_keeps_master :
  keeps _thermo_master_id get_all_appliances.
Proof.
  unfold get_all_appliances, find_gateway_heater.
  repeat (keeps_master_step || apply get_all_locations_keeps_master).
Qed.

Lemma match_locations_keeps_master :
  keeps _thermo_master_id match_locations.
Proof.
  unfold match_locations.
  repeat (keeps_master_step || apply get_all_locations_keeps_master
          || apply get_all_appliances_keeps_master).
Qed.

(** The outer loop of [scan_thermostats]: once a zone has been scanned,
    no later zone finds a higher priority. *)
Lemma scan_locations_highest legacy home appliances ls d h t :
  (0 ≤ h)%Z →
  let r := foldl (scan_location legacy home appliances) (d, h, t) ls in
  let M := max_prio (thermostats appliances) in
  let any := existsb (λ '(k, l), is_zone legacy home k l) ls in
  r.1.2 = (if any then Z.max h M else h) ∧
  r.2 = if any && (h <? M)%Z
        then default t (first_highest (thermostats appliances)) else t.
Proof.
  revert d h t. induction ls as [|[k l] ls IH]; intros d h t Hh; cbn zeta.
  { done. }
  cbn [foldl existsb]. unfold scan_location at 2 4.
  destruct (is_zone legacy home k l); cbn [orb].
  - destruct (scan_appliances_highest legacy k appliances no_master h t Hh)
      as [Hhigh Htm].
    cbn zeta in Hhigh, Htm.
    destruct (IH (dict_set d k (with_zone
                    (scan_zone (foldl (scan_appliance legacy k)
                       {| scan_zone := no_master; high_prio := h;
                          thermo_master := t |} appliances)) l))
                 (high_prio (foldl (scan_appliance legacy k)
                       {| scan_zone := no_master; high_prio := h;
                          thermo_master := t |} appliances))
                 (thermo_master (foldl (scan_appliance legacy k)
                       {| scan_zone := no_master; high_prio := h;
                          thermo_master := t |} appliances))
                 ltac:(lia)) as [-> ->].
    rewrite Hhigh, Htm.
    replace (Z.max h (max_prio (thermostats appliances))
             <? max_prio (thermostats appliances))%Z with false
      by (symmetry; apply Z.ltb_ge; lia).
    rewrite andb_false_r. split; [|done].
    destruct (existsb _ ls); lia.
  - by apply IH.
Qed.

Lemma thermostats_none appliances :
  max_prio (thermostats appliances) = 0%Z → thermostats appliances = [].
Proof.
  destruct (thermostats appliances) as [|[id p] l] eqn:E; [done|].
  assert ((id, p) ∈ thermostats appliances) as Hin by (rewrite E; left).
  unfold thermostats in Hin.
  apply list_elem_of_omap in Hin as ([id' d] & _ & Hp).
  destruct (prio (class d)) as [q|] eqn:Hq; [|done].
  injection Hp as -> ->. apply prio_positive in Hq.
  assert (max_prio ((id, p) :: l) = Z.max p (max_prio l)) as -> by done.
  pose proof (max_prio_nonneg l). lia.
Qed.

(** X11.  When [scan_thermostats] returns, [self._thermo_master_id] is
    as it was if no location was scanned or no appliance has a
    thermostat class; otherwise it is the first appliance of
    [get_all_appliances], wherever it is located, whose class has the
    highest priority among all the appliances. *)
Theorem scan_thermostats_master_id s s' locations home_location :
  scan_thermostats s = (s', Ok (locations, home_location)) →
  ∃ s1 s2 matched appliances,
    match_locations s = (s1, Ok (matched, home_location)) ∧
    get_all_appliances s1 = (s2, Ok appliances) ∧
    _thermo_master_id s'
    = if existsb (λ '(k, l), is_zone (_smile_legacy s) home_location k l)
                 matched
      then default (_thermo_master_id s)
                   (first_highest (thermostats appliances))
      else _thermo_master_id s.
Proof.
  unfold scan_thermostats. intros H.
  apply bind_ok in H as (s1 & [matched home] & Hm & H).
  apply bind_ok in H as (s2 & appliances & Ha & H).
  apply bind_ok in H as (s3 & legacy & [-> ->]%read_ok & H).
  apply bind_ok in H as (s4 & tm & [-> ->]%read_ok & H).
  pose proof (scan_locations_highest (_smile_legacy s2) home appliances
                matched matched 0 (_thermo_master_id s2) ltac:(lia))
    as [_ Htm]. cbn zeta in Htm.
  destruct (foldl _ _ matched) as [[locations' high] tm'] eqn:Hfold.
  cbn in Htm.
  apply bind_ok in H as (s5 & [] & [= <-] & H).
  apply ret_ok in H as [-> [= -> ->]].
  exists s1, s2, matched, appliances. split_and!; [done..|].
  assert (_thermo_master_id s2 = _thermo_master_id s) as Hs2.
  { pose proof (match_locations_keeps_master s) as H1.
    pose proof (get_all_appliances_keeps_master s1) as H2.
    rewrite Hm in H1. rewrite Ha in H2. cbn in *. congruence. }
  assert (_smile_legacy s2 = _smile_legacy s) as Hl2.
  { rewrite (frames_legacy _ _ _ _ frames_get_all_appliances Ha).
    by rewrite (frames_legacy _ _ _ _ frames_match_locations Hm). }
  replace (_thermo_master_id (set_thermo_master_id tm' s2)) with tm'
    by by destruct s2.
  rewrite Htm, Hs2, Hl2. clear Htm Hfold.
  destruct (existsb _ matched); cbn [andb]; [|done].
  destruct (0 <? max_prio (thermostats appliances))%Z eqn:E; [done|].
  apply Z.ltb_ge in E.
  pose proof (max_prio_nonneg (thermostats appliances)).
  rewrite (thermostats_none appliances) by lia. done.
Qed.

Lemma scan_thermostats_master_id_witness :
  ∃ s', (scan_thermostats adam).1 = s' ∧ _thermo_master_id s' = PStr "lisa".
Proof.
  assert (∃ s' locations,
            scan_thermostats adam = (s', Ok (locations, PStr "home")))
    as (s' & locations & H).
  { eexists _, _. vm_compute. reflexivity. }
  exists s'. split; [by rewrite H|].
  destruct (scan_thermostats_master_id adam s' locations (PStr "home") H)
    as (s1 & s2 & matched & appliances & Hm & Ha & ->).
  vm_compute in Hm. injection Hm as <- <-.
  vm_compute in Ha. injection Ha as _ <-.
  vm_compute. reflexivity.
Defined.

Lemma elect_all_master z cands :
  PNone ∉ cands.*1 → (∀ q, q ∈ cands.*2 → 0 < q)%Z →
  (0 ≤ master_prio z)%Z ∧ (master z = PNone ↔ master_prio z = 0%Z) →
  (0 ≤ master_prio (elect_all z cands))%Z ∧
  (master (elect_all z cands) = PNone ↔
   master_prio (elect_all z cands) = 0%Z).
Proof.
  revert z. induction cands as [|[id p] cands IH]; intros z Hid Hp Hz;
    [done|].
  cbn in Hid. apply not_elem_of_cons in Hid as [Hid Hids].
  assert (0 < p)%Z as Hpos by (apply Hp; left).
  unfold elect_all. cbn [foldl]. apply IH; [done| |].
  { intros q Hq. apply Hp. by right. }
  unfold elect. destruct (master_prio z <? p)%Z eqn:E; cbn; [|done].
  split; [lia|]. split; [done|lia].
Qed.

Lemma count_masters (locations : list (pyid * Location)) c :
  (∀ k l z, (k, l) ∈ locations → zone l = Some z →
            (0 <? master_prio z)%Z = negb (bool_decide (master z = PNone))) →
  foldl (fun count '(_, data) =>
           match zone data with
           | Some z => if (0 <? master_prio z)%Z then (count + 1)%Z
                       else count
           | None => count
           end) c locations
  = (c + Z.of_nat (length (filter (λ kl, has_master kl.2) locations)))%Z.
Proof.
  revert c. induction locations as [|[k l] locations IH]; intros c H.
  { cbn. lia. }
  cbn [foldl].
  rewrite IH by (intros k' l' z' Hin; apply (H k' l' z'); by right).
  specialize (H k l). rewrite filter_cons. cbn [snd].
  destruct (has_master l) eqn:Ehm; unfold has_master in Ehm;
    destruct (zone l) as [z|]; try done;
    rewrite ?(H z) by (done || left); rewrite ?Ehm;
    destruct (decide _); try done; cbn [length]; lia.
Qed.

(** X12.  [single_master_thermostat] counts the locations of
    [scan_thermostats] that have a master: it returns [None] when there
    is none, [True] when there is exactly one and [False] otherwise. *)
Theorem single_master_thermostat_counts s s' r :
  single_master_thermostat s = (s', Ok r) →
  ∃ (locations : list (pyid * Location)) home_location,
    scan_thermostats s = (s', Ok (locations, home_location)) ∧
    r = match length (filter (λ kl, has_master kl.2) locations) with
        | 0%nat => None
        | 1%nat => Some true
        | _ => Some false
        end.
Proof.
  unfold single_master_thermostat. intros H.
  apply bind_ok in H as (s1 & [locations home] & Hs & H).
  exists locations, home.
  rewrite count_masters in H.
  - destruct (length _) as [|[|n]]; cbn in H.
    + by apply ret_ok in H as [-> ->].
    + by apply ret_ok in H as [-> ->].
    + replace (0 + Z.of_nat (S (S n)) =? 0)%Z with false in H
        by (symmetry; apply Z.eqb_neq; lia).
      replace (0 + Z.of_nat (S (S n)) =? 1)%Z with false in H
        by (symmetry; apply Z.eqb_neq; lia).
      by apply ret_ok in H as [-> ->].
  - intros k l z Hin Hz.
    apply scan_thermostats_ok in Hs
      as (s2 & s3 & matched & appliances & Hm & Ha & Hnd & Hwk & ->).
    apply list_elem_of_fmap in Hin as ([k' l'] & [= -> ->] & Hin).
    unfold scanned in Hz.
    destruct (is_zone _ _ _ _); cbn in Hz.
    2: { by rewrite (match_locations_unscanned _ _ _ _ Hm _ _ Hin) in Hz. }
    injection Hz as <-.
    destruct (elect_all_master no_master
                (candidates (_smile_legacy s) k' appliances))
      as [Hnn Hiff].
    + intros (c & Hc & Hcin)%list_elem_of_fmap. destruct c as [id p].
      cbn in Hc. subst id.
      apply elem_of_candidates in Hcin as (d & Hd & Hp & _).
      destruct Hwk as [_ Hwk]. destruct (Hwk _ _ Hd) as [_ Hstr].
      destruct Hstr as [? [=]]. by rewrite Hp.
    + intros q (c & -> & Hcin)%list_elem_of_fmap. destruct c as [id p].
      apply elem_of_candidates in Hcin as (d & Hd & Hp & _).
      by eapply prio_positive.
    + done.
    + change (election (candidates (_smile_legacy s) k' appliances))
        with (elect_all no_master
                (candidates (_smile_legacy s) k' appliances)).
      set (z := elect_all no_master _) in *.
      case_bool_decide as Hmaster; cbn.
      * apply Z.ltb_ge. apply Hiff in Hmaster. lia.
      * apply Z.ltb_lt.
        destruct (decide (master_prio z = 0%Z)) as [H0|H0];
          [by apply Hiff in H0|lia].
Qed.

Lemma single_master_thermostat_counts_witness :
  ∃ s', single_master_thermostat adam = (s', Ok (Some true)).
Proof.
  assert (∃ s' r, single_master_thermostat adam = (s', Ok r))
    as (s' & r & H).
  { eexists _, _. vm_compute. reflexivity. }
  destruct (single_master_thermostat_counts adam s' r H)
    as (locations & home & Hs & Hr).
  exists s'. rewrite H. do 2 f_equal.
  vm_compute in Hs. injection Hs as _ <- _. exact Hr.
Defined.

(** ** The keys of the measurements *)

(** A measurement writes under its name and under the name with the
    suffixes of its other logs: every other key is left alone. *)
Lemma read_measurement_other legacy appliance measurement name key
    data data' :
  name ≠ key →
  name +:+ "_interval" ≠ key →
  name +:+ "_cumulative" ≠ key →
  (name +:+ "_interval") +:+ "_cumulative" ≠ key →
  read_measurement legacy appliance (measurement, name) data = Ok data' →
  dict_get data' key = dict_get data key.
Proof.
  intros H0 H1 H2 H3. unfold read_measurement.
  destruct (Xml.find (log_locator "point_log" measurement) appliance) as [m|].
  - destruct (_ && _); [by intros [= <-]|].
    intros (unrealistic & _ & H)%rbind_ok.
    destruct unrealistic; [by injection H as <-|].
    apply rbind_ok in H as (v & _ & H).
    rewrite (other_logs_keeps _ _ _ _ _ _ H1 H2 H3 H).
    by rewrite dict_get_set_ne.
  - by apply other_logs_keeps.
Qed.

(** X13.  On a legacy Smile the data [get_appliance_data] returns
    never has the key dhw_state. *)
Theorem get_appliance_data_legacy_dhw_state {lx : Lxml} dev_id s s' data :
  _smile_legacy s = true →
  get_appliance_data dev_id s = (s', Ok data) →
  dict_get data "dhw_state"%string = None.
Proof.
  intros Hlegacy H. unfold get_appliance_data in H.
  apply bind_ok in H as (s1 & legacy & [-> ->]%read_ok & H).
  rewrite Hlegacy in H.
  apply bind_ok in H as (s2 & ? & _ & H).
  apply bind_ok in H as (s3 & search & _ & H).
  apply bind_ok in H as (s4 & appliances & _ & H).
  apply lift_ok in H as [_ H].
  eapply (for_each_inv (λ acc, dict_get acc "dhw_state"%string = None));
    [| |exact H]; [|done].
  intros appliance acc acc' _ Hacc Happ.
  eapply (for_each_inv (λ acc, dict_get acc "dhw_state"%string = None));
    [|exact Hacc|exact Happ].
  clear. intros [measurement name] acc acc' Hin Hacc Hitem.
  rewrite <- Hacc.
  destruct (decide (name = "dhw_state"%string)) as [->|Hname].
  - assert (measurement = "domestic_hot_water_state"%string) as ->.
    { unfold DEVICE_MEASUREMENTS in Hin.
      repeat (apply elem_of_cons in Hin as [Heq|Hin]; [by simplify_eq|]).
      by apply elem_of_nil in Hin. }
    unfold read_measurement in Hitem.
    destruct (Xml.find _ appliance).
    + rewrite bool_decide_true in Hitem by done. by injection Hitem as <-.
    + eapply other_logs_keeps; [| | |exact Hitem]; by cbn.
  - eapply read_measurement_other; [done|..|exact Hitem].
    all: unfold DEVICE_MEASUREMENTS in Hin.
    all: repeat (apply elem_of_cons in Hin as [[= -> ->]|Hin]; [done|]).
    all: by apply elem_of_nil in Hin.
Qed.

Lemma get_appliance_data_legacy_dhw_state_witness :
  ∃ s' data,
    get_appliance_data (lx:=refusing) (PStr "heater") legacy_boiler
    = (s', Ok data) ∧
    dict_get data "modulation_level"%string = Some (VInt 0) ∧
    dict_get data "dhw_state"%string = None.
Proof.
  assert (∃ s' data,
            get_appliance_data (lx:=refusing) (PStr "heater") legacy_boiler
            = (s', Ok data) ∧
            dict_get data "modulation_level"%string = Some (VInt 0))
    as (s' & data & H & Hm).
  { eexists _, _. vm_compute. split; reflexivity. }
  exists s', data. split_and!; [exact H|exact Hm|].
  exact (get_appliance_data_legacy_dhw_state (PStr "heater") legacy_boiler
           s' data eq_refl H).
Defined.

(** The keys of two measurements are apart, and so are the keys of
    one. *)
Lemma measurement_keys_apart :
  Forall (λ i,
    (i.2 ≠ i.2 +:+ "_cumulative" ∧
     i.2 +:+ "_interval" ≠ i.2 +:+ "_cumulative" ∧
     (i.2 +:+ "_interval") +:+ "_cumulative" ≠ i.2 +:+ "_cumulative") ∧
    Forall (λ j,
      i.2 = j.2 ∨
      (j.2 ≠ i.2 +:+ "_cumulative" ∧
       j.2 +:+ "_interval" ≠ i.2 +:+ "_cumulative" ∧
       j.2 +:+ "_cumulative" ≠ i.2 +:+ "_cumulative" ∧
       (j.2 +:+ "_interval") +:+ "_cumulative" ≠ i.2 +:+ "_cumulative" ∧
       j.2 ≠ (i.2 +:+ "_interval") +:+ "_cumulative" ∧
       j.2 +:+ "_interval" ≠ (i.2 +:+ "_interval") +:+ "_cumulative" ∧
       j.2 +:+ "_cumulative" ≠ (i.2 +:+ "_interval") +:+ "_cumulative" ∧
       (j.2 +:+ "_interval") +:+ "_cumulative"
       ≠ (i.2 +:+ "_interval") +:+ "_cumulative"))
      DEVICE_MEASUREMENTS)
    DEVICE_MEASUREMENTS.
Proof. apply (bool_decide_unpack _). by vm_compute. Qed.

Lemma measurements_NoDup : NoDup DEVICE_MEASUREMENTS.*2.
Proof. apply (bool_decide_unpack _). by vm_compute. Qed.

(** X14.  [name] is rebound by the interval log before the cumulative
    log is read.  When the locator of the device id selects one
    appliance of the document, for a measurement, other than the hot water state and the water
    pressure, that has an interval log and a cumulative log, the
    cumulative reading is under the key with both suffixes,
    [_interval_cumulative], and there is no key with the suffix
    [_cumulative] alone. *)
Theorem get_appliance_data_cumulative_after_interval {lx : Lxml}
    dev_id self self' data search appliance measurement name mi mc :
  get_appliance_data dev_id self = (self', Ok data) →
  (if _smile_legacy self then _domain_objects self else _appliances self)
  = Some search →
  findall_text (appliance_locator dev_id) search = Ok [appliance] →
  (measurement, name) ∈ DEVICE_MEASUREMENTS →
  measurement ≠ "domestic_hot_water_state"%string →
  measurement ≠ "central_heater_water_pressure"%string →
  Xml.find (log_locator "interval_log" measurement) appliance = Some mi →
  Xml.find (log_locator "cumulative_log" measurement) appliance = Some mc →
  ∃ v, _format_measure (text mc) = Ok v ∧
       dict_get data ((name +:+ "_interval") +:+ "_cumulative") = Some v ∧
       dict_get data (name +:+ "_cumulative") = None.
Proof.
  intros H Hsearch Hone Hin Hdhw Hpressure Hmi Hmc.
  unfold get_appliance_data in H.
  apply bind_ok in H as (s1 & legacy & [-> ->]%read_ok & H).
  apply bind_ok in H as (s2 & search' & Hs & H).
  assert (search' = Some search) as ->.
  { destruct (_smile_legacy self); apply read_ok in Hs as [_ ->]; done. }
  apply bind_ok in H as (s3 & ? & [_ [= <-]]%lift_ok & H).
  apply bind_ok in H as (s4 & appliances & [_ Happ]%lift_ok & H).
  rewrite Hone in Happ. injection Happ as <-.
  apply lift_ok in H as [_ H]. cbn [for_each] in H.
  apply rbind_ok in H as (data0 & H & [= <-]).
  pose proof Hin as Hsplit.
  apply list_elem_of_split in Hsplit as (pre & post & Hsplit).
  pose proof measurements_NoDup as Hnd. rewrite Hsplit in Hnd, H.
  rewrite fmap_app, fmap_cons in Hnd.
  apply NoDup_app in Hnd as (_ & Hpre & Hpost).
  apply NoDup_cons in Hpost as [Hpost _]. cbn [snd] in Hpre, Hpost.
  pose proof measurement_keys_apart as Hapart.
  rewrite Forall_forall in Hapart.
  destruct (Hapart _ Hin) as [(Ha & Hb & Hc) Hothers]. cbn [snd] in *.
  rewrite Forall_forall in Hothers.
  assert (∀ items d d',
            items ⊆ DEVICE_MEASUREMENTS → name ∉ items.*2 →
            for_each (read_measurement (_smile_legacy self) appliance)
                     items d = Ok d' →
            dict_get d' ((name +:+ "_interval") +:+ "_cumulative")
            = dict_get d ((name +:+ "_interval") +:+ "_cumulative") ∧
            dict_get d' (name +:+ "_cumulative")
            = dict_get d (name +:+ "_cumulative")) as Hkeep.
  { clear -Hothers. intros items d d' Hsub Hnot Hloop.
    eapply (for_each_inv
              (λ acc,
                 dict_get acc ((name +:+ "_interval") +:+ "_cumulative")
                 = dict_get d ((name +:+ "_interval") +:+ "_cumulative") ∧
                 dict_get acc (name +:+ "_cumulative")
                 = dict_get d (name +:+ "_cumulative")));
      [|done|exact Hloop].
    intros [m' n'] acc acc' Hj [<- <-] Hitem.
    destruct (Hothers (m', n') (Hsub _ Hj)) as [->|Hne]; cbn [snd] in *.
    { exfalso. apply Hnot. apply list_elem_of_fmap. by exists (m', n'). }
    destruct Hne as (H1&H2&H3&H4&H5&H6&H7&H8).
    split.
    - exact (read_measurement_other _ _ _ _ _ _ _ H5 H6 H7 H8 Hitem).
    - exact (read_measurement_other _ _ _ _ _ _ _ H1 H2 H3 H4 Hitem). }
  rewrite for_each_app in H. apply rbind_ok in H as (d1 & Hd1 & H).
  cbn [for_each] in H. apply rbind_ok in H as (d2 & Hd2 & H).
  destruct (Hkeep pre [] d1) as [K1 K2]; [| |done|].
  { intros x Hx. rewrite Hsplit. apply elem_of_app. by left. }
  { intros Hx. apply (Hpre _ Hx). left. }
  destruct (Hkeep post d2 data0) as [K3 K4]; [|done|done|].
  { intros x Hx. rewrite Hsplit. apply elem_of_app. right. by right. }
  rewrite K3, K4. clear Hkeep K3 K4 H Hd1.
  cbn in K1, K2.
  assert (∀ d, other_logs appliance measurement name d = Ok d2 →
               dict_get d (name +:+ "_cumulative") = None →
               ∃ v, _format_measure (text mc) = Ok v ∧
                    dict_get d2 ((name +:+ "_interval") +:+ "_cumulative")
                    = Some v ∧
                    dict_get d2 (name +:+ "_cumulative") = None) as Hlogs.
  { intros d Hd Hnone. unfold other_logs in Hd. rewrite Hmi, Hmc in Hd.
    apply rbind_ok in Hd as ([n1 dd] & Hi & Hd).
    apply rbind_ok in Hi as (vi & _ & [= <- <-]).
    apply rbind_ok in Hd as (v & Hv & [= <-]).
    exists v. split_and!; [done|apply dict_get_set_eq|].
    by rewrite !dict_get_set_ne. }
  unfold read_measurement in Hd2.
  destruct (Xml.find (log_locator "point_log" measurement) appliance).
  - rewrite (bool_decide_false _ Hdhw), andb_false_r in Hd2.
    rewrite (bool_decide_false _ Hpressure) in Hd2. cbn in Hd2.
    apply rbind_ok in Hd2 as (v0 & _ & Hd2).
    apply (Hlogs _ Hd2). by rewrite dict_get_set_ne.
  - by apply (Hlogs _ Hd2).
Qed.

Lemma get_appliance_data_cumulative_after_interval_witness :
  ∃ s' data,
    get_appliance_data (lx:=refusing) (PStr "plug") plug = (s', Ok data) ∧
    dict_get data "electricity_consumed_interval_cumulative"%string
    = Some (VInt 250) ∧
    dict_get data "electricity_consumed_cumulative"%string = None.
Proof.
  assert (∃ s' data,
            get_appliance_data (lx:=refusing) (PStr "plug") plug
            = (s', Ok data)) as (s' & data & H).
  { eexists _, _. vm_compute. reflexivity. }
  exists s', data. split; [exact H|].
  assert (∃ appliance search mi,
            _appliances plug = Some search ∧
            findall_text (lx:=refusing) (appliance_locator (PStr "plug"))
                         search = Ok [appliance] ∧
            Xml.find (log_locator "interval_log" "electricity_consumed")
                     appliance = Some mi ∧
            Xml.find (log_locator "cumulative_log" "electricity_consumed")
                     appliance = Some (leaf "measurement" "250"))
    as (appliance & search & mi & Hs & Hone & Hmi & Hmc).
  { eexists _, _, _. vm_compute. split_and!; reflexivity. }
  assert (("electricity_consumed", "electricity_consumed")
          ∈ DEVICE_MEASUREMENTS) as Hin.
  { unfold DEVICE_MEASUREMENTS. do 6 apply list_elem_of_further.
    apply list_elem_of_here. }
  destruct (get_appliance_data_cumulative_after_interval
              (PStr "plug") plug s' data search appliance
              "electricity_consumed" "electricity_consumed" mi
              (leaf "measurement" "250") H Hs Hone Hin
              ltac:(discriminate) ltac:(discriminate) Hmi Hmc)
    as (v & Hv & Hget & Hnone).
  vm_compute in Hv. injection Hv as <-. split; [exact Hget|exact Hnone].
Defined.

(** ** Schedules, presets and rules *)

(** X15.  [determine_selected] appends the names of the schedules to
    [available] in their order, and selects the last schedule that is
    active, or keeps [selected] when none is. *)
Theorem determine_selected_last_active
    (available : list (option string)) (selected : option string)
    (schemas : list (option string * bool)) :
  determine_selected available selected schemas
  = (available ++ schemas.*1,
     default selected (last (filter (λ kv, kv.2 = true) schemas).*1)).
Proof.
  unfold determine_selected. revert available selected.
  induction schemas as [|[name active] schemas IH];
    intros available selected.
  { cbn. by rewrite app_nil_r. }
  cbn [foldl]. rewrite IH, fmap_cons. cbn [fst].
  rewrite <- app_assoc. f_equal.
  rewrite filter_cons. cbn [snd].
  destruct active; case_decide; try done.
  rewrite fmap_cons. cbn [fst].
  destruct (filter _ schemas).*1 as [|n l] eqn:E; [done|].
  rewrite last_cons_cons.
  destruct (last (n :: l)) eqn:El; [done|]. by apply last_None in El.
Qed.

Lemma determine_selected_member available selected schemas :
  let r := determine_selected available selected schemas in
  (r.2 = selected ∨ r.2 ∈ schemas.*1) ∧ r.1 = available ++ schemas.*1.
Proof.
  unfold determine_selected. revert available selected.
  induction schemas as [|[name active] schemas IH];
    intros available selected; cbn zeta.
  { cbn. split; [by left|by rewrite app_nil_r]. }
  cbn [foldl]. destruct (IH (available ++ [name])
                            (if active then name else selected))
    as [Hsel ->].
  split; [|by rewrite <- app_assoc].
  rewrite fmap_cons. cbn [fst].
  destruct Hsel as [->|Hsel]; [|right; by right].
  destruct active; [right; left|by left].
Qed.

(** X16.  The schedule [get_schemas] selects is [None] or one of the
    available schedules it returns.  On a legacy Smile there is at most
    one available schedule and no setpoint of the schedule. *)
Theorem get_schemas_selected {lx : Lxml} weekday now loc_id s s'
    available selected setpoint :
  get_schemas weekday now loc_id s = (s', Ok (available, selected, setpoint)) →
  (selected = None ∨ selected ∈ available) ∧
  (_smile_legacy s = true →
   setpoint = None ∧ (length available ≤ 1)%nat).
Proof.
  unfold get_schemas. intros H.
  apply bind_ok in H as (s1 & legacy & [-> ->]%read_ok & H).
  destruct (_smile_legacy s).
  - apply bind_ok in H as (s2 & ? & _ & H).
    apply bind_ok in H as (s3 & domain_objects & _ & H).
    apply bind_ok in H as (s4 & name & _ & H).
    destruct (determine_selected [] None _) as [av sel] eqn:E.
    apply ret_ok in H as [_ [= -> -> ->]].
    match type of E with
    | determine_selected _ _ ?schemas = _ =>
        pose proof (determine_selected_member [] None schemas) as [Hs Ha]
    end.
    rewrite E in Hs, Ha. cbn [fst snd] in Hs, Ha. subst av.
    split; [tauto|]. intros _. split; [done|].
    destruct name; cbn; lia.
  - split; [|done].
    apply bind_ok in H as (s2 & rule_ids & _ & H).
    destruct rule_ids as [rule_ids|].
    2: { apply ret_ok in H as [_ [= -> -> ->]]. by left. }
    apply bind_ok in H as (s3 & ? & _ & H).
    apply bind_ok in H as (s4 & domain_objects & _ & H).
    apply bind_ok in H as (s5 & presets & _ & H).
    apply bind_ok in H as (s6 & acc & _ & H).
    destruct (returned acc).
    { apply ret_ok in H as [_ [= -> -> ->]]. by left. }
    destruct (determine_selected [] None _) as [av sel] eqn:E.
    apply ret_ok in H as [_ [= -> -> ->]].
    pose proof (determine_selected_member [] None (schemas acc)) as [Hs Ha].
    rewrite E in Hs, Ha. cbn [fst snd] in Hs, Ha. subst av. tauto.
Qed.

Lemma get_schemas_selected_witness :
  ∃ s' setpoint,
    get_schemas (lx:=refusing) 0 (at_hm 10 0) (PStr "z1") adam_polled
    = (s', Ok ([Some "Weekschema"%string], Some "Weekschema"%string,
               setpoint)) ∧
    (Some "Weekschema"%string = None ∨
     Some "Weekschema"%string ∈ [Some "Weekschema"%string]).
Proof.
  assert (∃ s' setpoint,
            get_schemas (lx:=refusing) 0 (at_hm 10 0) (PStr "z1") adam_polled
            = (s', Ok ([Some "Weekschema"%string], Some "Weekschema"%string,
                       setpoint))) as (s' & setpoint & H).
  { eexists _, _. vm_compute. reflexivity. }
  exists s', setpoint. split; [exact H|].
  exact (proj1 (get_schemas_selected 0 (at_hm 10 0) (PStr "z1") adam_polled
                  s' _ _ setpoint H)).
Defined.

Lemma preset_of_two directive presets presets' :
  preset_of directive presets = Ok presets' →
  (∀ name l, (name, l) ∈ presets →
             ∃ h c, l = [VFloat h; c] ∧ (c = VInt 0 ∨ ∃ x, c = VFloat x)) →
  ∀ name l, (name, l) ∈ presets' →
            ∃ h c, l = [VFloat h; c] ∧ (c = VInt 0 ∨ ∃ x, c = VFloat x).
Proof.
  unfold preset_of. intros H Hacc.
  apply rbind_ok in H as (then_ & _ & H).
  apply rbind_ok in H as (key & _ & H).
  apply rbind_ok in H as (setpoints & Hs & H).
  apply rbind_ok in H as (pname & _ & [= <-]).
  intros name l [[= -> ->]|Hin]%elem_of_dict_set; [|by eauto].
  case_bool_decide.
  - apply rbind_ok in Hs as (t & _ & [= <-]). exists t, (VInt 0). auto.
  - apply rbind_ok in Hs as (h & _ & Hs).
    apply rbind_ok in Hs as (c & _ & [= <-]).
    exists h, (VFloat c). split; [done|right; by exists c].
Qed.

(** X17.  Every preset [get_presets] returns is a list of two
    setpoints, the first a float and the second a float or the integer
    [0]; on a legacy Smile the result is never [None] and the second
    setpoint is always [0]. *)
Theorem get_presets_two_setpoints {lx : Lxml} loc_id s s' r :
  get_presets loc_id s = (s', Ok r) →
  (_smile_legacy s = true → is_Some r) ∧
  ∀ presets name setpoints,
    r = Some presets → (name, setpoints) ∈ presets →
    ∃ heating cooling,
      setpoints = [VFloat heating; cooling] ∧
      (cooling = VInt 0 ∨ ∃ x, cooling = VFloat x) ∧
      (_smile_legacy s = true → cooling = VInt 0).
Proof.
  unfold get_presets. intros H.
  apply bind_ok in H as (s1 & legacy & [-> ->]%read_ok & H).
  destruct (_smile_legacy s).
  - apply bind_ok in H as (s2 & presets & Hp & H).
    apply ret_ok in H as [_ ->]. split; [by eauto|].
    intros ? name l [= <-] Hin.
    unfold __get_presets_legacy in Hp.
    apply bind_ok in Hp as (s3 & ? & _ & Hp).
    apply bind_ok in Hp as (s4 & domain_objects & _ & Hp).
    apply lift_ok in Hp as [_ Hp].
    revert name l Hin.
    eapply (for_each_inv
              (λ acc, ∀ name l, (name, l) ∈ acc →
                 ∃ h c, l = [VFloat h; c] ∧
                        (c = VInt 0 ∨ ∃ x, c = VFloat x) ∧
                        (true = true → c = VInt 0)));
      [| |exact Hp].
    + intros directive acc acc' _ Hacc Hbody.
      cbn beta in Hbody.
      destruct (get directive "icon") as [icon|]; [|by injection Hbody as <-].
      apply rbind_ok in Hbody as (t & _ & [= <-]).
      intros name l [[= -> ->]|Hin]%elem_of_dict_set; [|by eauto].
      exists t, (VInt 0). auto.
    + intros ?? []%elem_of_nil.
  - split; [done|].
    apply bind_ok in H as (s2 & rule_ids & _ & H).
    apply bind_ok in H as (s3 & rule_ids' & _ & H).
    destruct rule_ids' as [ids|]; [|by apply ret_ok in H as [_ ->]].
    apply bind_ok in H as (s4 & ? & _ & H).
    apply bind_ok in H as (s5 & domain_objects & _ & H).
    apply bind_ok in H as (s6 & presets & [_ Hp]%lift_ok & H).
    apply ret_ok in H as [_ ->].
    intros ? name l [= <-] Hin.
    assert (∃ h c, l = [VFloat h; c] ∧ (c = VInt 0 ∨ ∃ x, c = VFloat x))
      as (h & c & -> & Hc); [|by exists h, c].
    revert name l Hin.
    eapply (for_each_inv
              (λ acc, ∀ name l, (name, l) ∈ acc →
                 ∃ h c, l = [VFloat h; c] ∧
                        (c = VInt 0 ∨ ∃ x, c = VFloat x)));
      [| |exact Hp].
    + intros rule_id acc acc' _ Hacc Hbody.
      apply rbind_ok in Hbody as (found & _ & Hbody).
      apply rbind_ok in Hbody as (directives & _ & Hbody).
      eapply (for_each_inv
                (λ acc, ∀ name l, (name, l) ∈ acc →
                   ∃ h c, l = [VFloat h; c] ∧
                          (c = VInt 0 ∨ ∃ x, c = VFloat x)));
        [|exact Hacc|exact Hbody].
      intros directive a a' _ Ha Hd. by eapply preset_of_two.
    + intros ?? []%elem_of_nil.
Qed.

Lemma get_presets_two_setpoints_witness :
  ∃ s' presets heating cooling,
    get_presets (lx:=refusing) (PStr "z1") adam_polled
    = (s', Ok (Some presets)) ∧
    dict_get presets "home"%string = Some [VFloat heating; cooling].
Proof.
  assert (∃ s' presets setpoints,
            get_presets (lx:=refusing) (PStr "z1") adam_polled
            = (s', Ok (Some presets)) ∧
            dict_get presets "home"%string = Some setpoints)
    as (s' & presets & setpoints & H & Hget).
  { eexists _, _, _. vm_compute. split; reflexivity. }
  destruct (get_presets_two_setpoints (PStr "z1") adam_polled s' _ H)
    as [_ Htwo].
  destruct (Htwo presets "home"%string setpoints eq_refl)
    as (heating & cooling & -> & _).
  { by apply dict_get_Some_elem. }
  by exists s', presets, heating, cooling.
Defined.

(** X18.  For times of day, an interval whose start is its end holds
    no time, and otherwise the interval from [end] to [start] holds
    exactly the times the interval from [start] to [end] does not. *)
Theorem in_between_complement now start end_ :
  valid_time now → valid_time start → valid_time end_ →
  in_between now start start = false ∧
  (micros start ≠ micros end_ →
   in_between now end_ start = negb (in_between now start end_)).
Proof.
  intros Hn Hs He.
  pose proof (time_leb_micros start end_ Hs He) as L1.
  pose proof (time_leb_micros end_ start He Hs) as L2.
  pose proof (time_leb_micros start start Hs Hs) as L3.
  pose proof (time_leb_micros start now Hs Hn) as L4.
  pose proof (time_leb_micros end_ now He Hn) as L5.
  pose proof (time_ltb_micros now start Hn Hs) as L6.
  pose proof (time_ltb_micros now end_ Hn He) as L7.
  unfold in_between. split; [|intros Hne];
    destruct (time_leb start end_), (time_leb end_ start),
      (time_leb start start), (time_leb start now), (time_leb end_ now),
      (time_ltb now start), (time_ltb now end_); cbn; try done;
    exfalso; intuition (try discriminate; lia).
Qed.

Lemma in_between_complement_witness :
  in_between (at_hm 23 0) (at_hm 6 0) (at_hm 6 0) = false ∧
  in_between (at_hm 23 0) (at_hm 22 0) (at_hm 6 0)
  = negb (in_between (at_hm 23 0) (at_hm 6 0) (at_hm 22 0)).
Proof.
  assert (∀ h m, (0 ≤ h < 24)%Z → (0 ≤ m < 60)%Z → valid_time (at_hm h m))
    as Hvalid by (unfold valid_time; cbn; lia).
  destruct (in_between_complement (at_hm 23 0) (at_hm 6 0) (at_hm 22 0))
    as [H1 H2]; [apply Hvalid; lia..|].
  split; [exact H1|]. apply H2. unfold micros. cbn. lia.
Defined.

(** X19.  [get_rule_ids_by_tag] and [get_rule_ids_by_name] never
    return an empty dictionary.  By tag, every id is the id of a rule in
    which the locator of the tag finds a template, and is mapped to the
    location asked for or to [None]; by name, every id is the id of one
    of the rules the locator of the name selects, in which the locator
    of the location finds an element, and is mapped to that location. *)
Theorem get_rule_ids_values {lx : Lxml} tag name loc_id s domain_objects :
  _domain_objects s = Some domain_objects →
  (∀ s' ids,
     get_rule_ids_by_tag tag loc_id s = (s', Ok (Some ids)) →
     ids ≠ [] ∧
     ∀ id v, (id, v) ∈ ids →
       (v = loc_id ∨ v = PNone) ∧
       ∃ rule template,
         rule ∈ findall [Desc "rule"] domain_objects ∧
         get rule "id" = Some id ∧
         find_text (template_locator tag) rule = Ok (Some template)) ∧
  (∀ s' ids,
     get_rule_ids_by_name name loc_id s = (s', Ok (Some ids)) →
     ids ≠ [] ∧
     ∃ rules,
       findall_text (named_rule_locator name) domain_objects = Ok rules ∧
       ∀ id v, (id, v) ∈ ids →
         v = loc_id ∧
         ∃ rule location,
           rule ∈ rules ∧
           get rule "id" = Some id ∧
           find_text (zone_locator loc_id) rule = Ok (Some location)).
Proof.
  intros Hdom. split; intros s' ids H.
  - unfold get_rule_ids_by_tag in H.
    apply bind_ok in H as (s1 & ? & [-> ->]%read_ok & H).
    rewrite Hdom in H.
    apply bind_ok in H as (s2 & ? & [-> [= <-]]%lift_ok & H).
    apply bind_ok in H as (s3 & schema_ids & [-> Hloop]%lift_ok & H).
    apply ret_ok in H as [_ Hids].
    destruct schema_ids as [|kv schema_ids]; [done|].
    injection Hids as ->. split; [done|].
    eapply (for_each_inv
              (λ acc, ∀ id v, (id, v) ∈ acc →
                 (v = loc_id ∨ v = PNone) ∧
                 ∃ rule template,
                   rule ∈ findall [Desc "rule"] domain_objects ∧
                   get rule "id" = Some id ∧
                   find_text (template_locator tag) rule
                   = Ok (Some template)));
      [| |exact Hloop].
    + intros rule acc acc' Hrule Hacc Hbody. cbn beta in Hbody.
      apply rbind_ok in Hbody as (template & Ht & Hbody).
      destruct template as [template|]; [|by injection Hbody as <-].
      apply rbind_ok in Hbody as (location & _ & Hbody).
      apply rbind_ok in Hbody as (id & Hid & [= <-]).
      intros id' v [[= -> ->]|Hin]%elem_of_dict_set; [|by eauto].
      split; [by destruct location; auto|].
      exists rule, template. split_and!; [done| |done].
      unfold attrib_item in Hid.
      destruct (get rule "id"); cbn in Hid; by simplify_eq.
    + intros ?? []%elem_of_nil.
  - unfold get_rule_ids_by_name in H.
    apply bind_ok in H as (s1 & ? & [-> ->]%read_ok & H).
    rewrite Hdom in H.
    apply bind_ok in H as (s2 & ? & [-> [= <-]]%lift_ok & H).
    apply bind_ok in H as (s3 & rules & [-> Hrules]%lift_ok & H).
    apply bind_ok in H as (s4 & schema_ids & [-> Hloop]%lift_ok & H).
    apply ret_ok in H as [_ Hids].
    destruct schema_ids as [|kv schema_ids]; [done|].
    injection Hids as ->. split; [done|].
    exists rules. split; [done|].
    eapply (for_each_inv
              (λ acc, ∀ id v, (id, v) ∈ acc →
                 v = loc_id ∧
                 ∃ rule location,
                   rule ∈ rules ∧
                   get rule "id" = Some id ∧
                   find_text (zone_locator loc_id) rule
                   = Ok (Some location)));
      [| |exact Hloop].
    + intros rule acc acc' Hrule Hacc Hbody. cbn beta in Hbody.
      apply rbind_ok in Hbody as (location & Hz & Hbody).
      destruct location as [location|]; [|by injection Hbody as <-].
      apply rbind_ok in Hbody as (id & Hid & [= <-]).
      intros id' v [[= -> ->]|Hin]%elem_of_dict_set; [|by eauto].
      split; [done|].
      exists rule, location. split_and!; [done| |done].
      unfold attrib_item in Hid.
      destruct (get rule "id"); cbn in Hid; by simplify_eq.
    + intros ?? []%elem_of_nil.
Qed.

Lemma get_rule_ids_values_witness :
  ∃ s' ids,
    get_rule_ids_by_name (lx:=refusing) "Weekschema" (PStr "z1") adam_polled
    = (s', Ok (Some ids)) ∧
    ids ≠ [] ∧ ∀ id v, (id, v) ∈ ids → v = PStr "z1".
Proof.
  assert (∃ s' ids,
            get_rule_ids_by_name (lx:=refusing) "Weekschema" (PStr "z1")
                                 adam_polled
            = (s', Ok (Some ids))) as (s' & ids & H).
  { eexists _, _. vm_compute. reflexivity. }
  exists s', ids. split; [exact H|].
  destruct (get_rule_ids_values (lx:=refusing) "" "Weekschema" (PStr "z1")
              adam_polled adam_domain_objects eq_refl) as [_ Hname].
  destruct (Hname s' ids H) as (Hne & rules & _ & Hv). split; [exact Hne|].
  intros id v Hin. by destruct (Hv id v Hin).
Defined.

(** ** The keys of a record *)

(** X20.  For a device id that is not a key of [get_all_devices],
    [get_device_data] raises: no record is returned. *)
Theorem get_device_data_unknown {lx : Lxml}
    total_seconds weekday now dev_id s s1
    devices :
  get_all_devices s = (s1, Ok devices) →
  dict_get devices dev_id = None →
  ∃ e, (get_device_data total_seconds weekday now dev_id s).2 = Raise e.
Proof.
  intros H Hnone. unfold get_device_data, bind. rewrite H.
  unfold device_record, bind. rewrite Hnone.
  destruct (get_appliance_data dev_id s1) as [s2 [data|e]]; [|by eexists].
  unfold lift at 1.
  destruct (if dict_in data "boiler_state" then _ else _) as [data'|e];
    by eexists.
Qed.

Lemma get_device_data_unknown_witness :
  ∃ e, (get_device_data (lx:=refusing) at_epoch 0 (at_hm 12 0) (PStr "otg")
          adam_polled).2
       = Raise e.
Proof.
  assert (∃ s1 devices,
            get_all_devices adam_polled = (s1, Ok devices) ∧
            dict_get devices (PStr "otg") = None) as (s1 & devices & H & Hn).
  { eexists _, _. vm_compute. split; reflexivity. }
  exact (get_device_data_unknown at_epoch 0 (at_hm 12 0) (PStr "otg")
           adam_polled s1 devices H Hn).
Defined.

Section DictDel.
Context {V : Type}.
Implicit Types (d : dict string V) (k : string).

Lemma keys_dict_del d k : keys (dict_del d k) ⊆ keys d.
Proof.
  induction d as [|[k' v] d IH]; [done|]. cbn.
  case_bool_decide; cbn.
  - by apply list_subseteq_cons.
  - intros x [->|Hx]%elem_of_cons; [left|right; by apply IH].
Qed.

Lemma NoDup_dict_del d k : NoDup (keys d) → NoDup (keys (dict_del d k)).
Proof.
  induction d as [|[k' v] d IH]; [done|]. cbn.
  intros [Hk Hd]%NoDup_cons. case_bool_decide; [done|]. cbn.
  apply NoDup_cons. split; [|by apply IH].
  intros Hin. apply Hk. by apply (keys_dict_del d k).
Qed.

Lemma dict_get_del d k : NoDup (keys d) → dict_get (dict_del d k) k = None.
Proof.
  induction d as [|[k' v] d IH]; [done|]. cbn.
  intros [Hk Hd]%NoDup_cons. case_bool_decide as E.
  - subst. by apply dict_get_None.
  - cbn. rewrite decide_False by done. by apply IH.
Qed.

Lemma dict_get_del_ne d k k' : k ≠ k' → dict_get (dict_del d k) k' = dict_get d k'.
Proof.
  intros Hne. induction d as [|[k0 v] d IH]; [done|]. cbn.
  case_bool_decide as E.
  - subst. by rewrite decide_False.
  - cbn. by rewrite IH.
Qed.
End DictDel.

Lemma other_logs_NoDup appliance measurement name data data' :
  other_logs appliance measurement name data = Ok data' →
  NoDup (keys data) → NoDup (keys data').
Proof.
  unfold other_logs. intros H Hnd.
  apply rbind_ok in H as ([name' data1] & Hi & H).
  assert (NoDup (keys data1)) as Hnd1.
  { destruct (Xml.find (log_locator "interval_log" measurement) appliance).
    - apply rbind_ok in Hi as (v & _ & [= _ <-]).
      by apply NoDup_keys_dict_set.
    - by injection Hi as _ <-. }
  destruct (Xml.find (log_locator "cumulative_log" measurement) appliance).
  - apply rbind_ok in H as (v & _ & [= <-]). by apply NoDup_keys_dict_set.
  - by injection H as <-.
Qed.

Lemma get_appliance_data_NoDup {lx : Lxml} dev_id s s' data :
  get_appliance_data dev_id s = (s', Ok data) → NoDup (keys data).
Proof.
  unfold get_appliance_data. intros H.
  apply bind_ok in H as (s1 & legacy & _ & H).
  apply bind_ok in H as (s2 & ? & _ & H).
  apply bind_ok in H as (s3 & search & _ & H).
  apply bind_ok in H as (s4 & appliances & _ & H).
  apply lift_ok in H as [_ H].
  eapply (for_each_inv (λ acc, NoDup (keys acc))); [| |exact H];
    [|apply NoDup_nil_2].
  intros appliance acc acc' _ Hacc Happ.
  eapply (for_each_inv (λ acc, NoDup (keys acc))); [|exact Hacc|exact Happ].
  clear. intros [measurement name] acc acc' _ Hacc Hitem.
  unfold read_measurement in Hitem.
  destruct (Xml.find _ appliance).
  - destruct (_ && _); [by injection Hitem as <-|].
    apply rbind_ok in Hitem as (unrealistic & _ & Hitem).
    destruct unrealistic; [by injection Hitem as <-|].
    apply rbind_ok in Hitem as (v & _ & Hitem).
    eapply other_logs_NoDup; [exact Hitem|]. by apply NoDup_keys_dict_set.
  - by eapply other_logs_NoDup.
Qed.

Lemma foldl_dict_set_other {V W} (f : W → V) (l : list (string * W))
    (d : dict string V) key :
  key ∉ l.*1 →
  dict_get (foldl (λ d '(k, v), dict_set d k (f v)) d l) key
  = dict_get d key.
Proof.
  revert d. induction l as [|[k v] l IH]; intros d Hkey; [done|].
  cbn in Hkey. apply not_elem_of_cons in Hkey as [Hne Hkey].
  cbn [foldl]. rewrite IH by done. by rewrite dict_get_set_ne.
Qed.

(** The keys of the power data start with the name of a home
    measurement or with [net_electricity]. *)
Lemma direct_entry_keys loc_logs power t_string measurement log_type
    peak_select direct_data direct_data' key :
  measurement ∈ keys HOME_MEASUREMENTS →
  (∀ c rest, key = String c rest →
             c ≠ "e"%char ∧ c ≠ "g"%char ∧ c ≠ "o"%char ∧ c ≠ "n"%char) →
  direct_entry loc_logs power t_string measurement log_type peak_select
               direct_data = Ok direct_data' →
  dict_get direct_data' key = dict_get direct_data key.
Proof.
  intros Hm Hkey. unfold direct_entry. cbn zeta.
  destruct (_ && bool_decide _); [by intros [= <-]|].
  destruct (Xml.find _ loc_logs); [|by intros [= <-]].
  intros (peak & _ & H)%rbind_ok.
  apply rbind_ok in H as (log_found & _ & H).
  apply rbind_ok in H as (val & _ & [= <-]).
  assert (∀ c rest, String c rest ≠ key ∨
                    (c ≠ "e"%char ∧ c ≠ "g"%char ∧ c ≠ "o"%char ∧
                     c ≠ "n"%char)) as Hk.
  { intros c rest. destruct (decide (String c rest = key)) as [<-|];
      [right; by eapply Hkey|by left]. }
  rewrite dict_get_set_ne.
  2: { unfold keys, HOME_MEASUREMENTS in Hm. cbn in Hm.
       repeat (apply elem_of_cons in Hm as [->|Hm];
               [destruct (contains _ "gas"); unfold String.app;
                match goal with
                | |- String ?c ?r ≠ _ =>
                    by destruct (Hk c r) as [?|(?&?&?&?)]
                end|]).
       by apply elem_of_nil in Hm. }
  destruct (contains measurement "electricity"); [|done].
  rewrite dict_get_set_ne; [done|]. unfold String.app.
  match goal with
  | |- String ?c ?r ≠ _ => by destruct (Hk c r) as [?|(?&?&?&?)]
  end.
Qed.

Lemma get_direct_objects_from_location_keys {lx : Lxml}
    loc_id s s' power_data key :
  (∀ c rest, key = String c rest →
             c ≠ "e"%char ∧ c ≠ "g"%char ∧ c ≠ "o"%char ∧ c ≠ "n"%char) →
  get_direct_objects_from_location loc_id s = (s', Ok (Some power_data)) →
  key ∉ power_data.*1.
Proof.
  intros Hkey H. unfold get_direct_objects_from_location in H.
  apply bind_ok in H as (s1 & lp & _ & H).
  apply bind_ok in H as (s2 & ? & _ & H).
  apply bind_ok in H as (s3 & search & _ & H).
  apply bind_ok in H as (s3' & found & _ & H).
  destruct found as [loc_logs|]; [|by apply ret_ok in H as [_ [=]]].
  apply bind_ok in H as (s4 & ty & _ & H).
  apply bind_ok in H as (s5 & direct_data & [_ Hloop]%lift_ok & H).
  apply ret_ok in H as [_ H].
  assert (dict_get direct_data key = None) as Hnone.
  { eapply (for_each_inv (λ acc, dict_get acc key = None));
      [| |exact Hloop]; [|done].
    intros measurement acc acc' Hm Hacc H1. cbn beta in H1.
    eapply (for_each_inv (λ acc, dict_get acc key = None));
      [|exact Hacc|exact H1].
    intros log_type a a' _ Ha H2. cbn beta in H2.
    eapply (for_each_inv (λ acc, dict_get acc key = None));
      [|exact Ha|exact H2].
    intros peak b b' _ Hb H3.
    by rewrite (direct_entry_keys _ _ _ _ _ _ _ _ _ Hm Hkey H3). }
  destruct direct_data; [done|]. injection H as H. subst power_data.
  by apply dict_get_None in Hnone.
Qed.

Lemma thermostat_data_other {lx : Lxml}
    total_seconds weekday now location d s s' d' key :
  thermostat_data total_seconds weekday now location d s = (s', Ok d') →
  key ∉ ["active_preset"; "presets"; "schedule_temperature";
         "available_schedules"; "selected_schedule"; "last_used"]%string →
  dict_get d' key = dict_get d key.
Proof.
  intros H Hkey. unfold thermostat_data in H.
  apply bind_ok in H as (s1 & active_preset & _ & H).
  apply bind_ok in H as (s2 & presets & _ & H).
  apply bind_ok in H as (s3 & [[av sel] sp] & _ & H).
  apply bind_ok in H as (s4 & legacy & _ & H).
  repeat (apply not_elem_of_cons in Hkey as [? Hkey]).
  destruct legacy.
  - apply ret_ok in H as [_ ->]. by rewrite !dict_get_set_ne.
  - apply bind_ok in H as (s5 & last_used & _ & H).
    apply ret_ok in H as [_ ->]. by rewrite !dict_get_set_ne.
Qed.

Lemma gateway_data_other {lx : Lxml} location d s s' d' key :
  gateway_data location d s = (s', Ok d') →
  (∀ c rest, key = String c rest →
             c ≠ "e"%char ∧ c ≠ "g"%char ∧ c ≠ "o"%char ∧ c ≠ "n"%char) →
  dict_get d' key = dict_get d key.
Proof.
  intros H Hkey. unfold gateway_data in H.
  apply bind_ok in H as (s1 & power_data & Hp & H).
  apply bind_ok in H as (s2 & heater_id & _ & H).
  apply bind_ok in H as (s3 & heater_data & _ & H).
  apply bind_ok in H as (s4 & outdoor_temperature & _ & H).
  assert (dict_get
            match power_data with
            | Some power_data =>
                foldl (λ d '(k, v), dict_set d k (VFloat v)) d power_data
            | None => d
            end key = dict_get d key) as Hpower.
  { destruct power_data as [power_data|]; [|done].
    apply (foldl_dict_set_other VFloat).
    by eapply get_direct_objects_from_location_keys. }
  destruct (truthy outdoor_temperature); apply ret_ok in H as [_ ->];
    [|done].
  rewrite dict_get_set_ne; [done|].
  intros <-. by destruct (Hkey _ _ eq_refl) as (_ & _ & ? & _).
Qed.

(** X21.  A record [get_device_data] returns never has the key
    boiler_state, and when it has the key setpoint it does not have the
    key heating_state. *)
Theorem get_device_data_boiler_state {lx : Lxml}
    total_seconds weekday now dev_id
    s s' record :
  get_device_data total_seconds weekday now dev_id s = (s', Ok record) →
  dict_get record "boiler_state"%string = None ∧
  (is_Some (dict_get record "setpoint"%string) →
   dict_get record "heating_state"%string = None).
Proof.
  unfold get_device_data. intros H.
  apply bind_ok in H as (s1 & devices & _ & H).
  unfold device_record in H.
  apply bind_ok in H as (s2 & data & Hdata & H).
  apply get_appliance_data_NoDup in Hdata.
  apply bind_ok in H as (s3 & d1 & [_ Hd1]%lift_ok & H).
  apply bind_ok in H as (s4 & details & _ & H).
  apply bind_ok in H as (s5 & d3 & Hd3 & H).
  apply bind_ok in H as (s6 & d4 & Hd4 & H).
  apply bind_ok in H as (s7 & gateway_id & _ & H).
  set (d2 := if dict_in d1 "setpoint" then dict_del d1 "heating_state"
             else d1) in *.
  assert (∀ key, key ∈ ["boiler_state"; "setpoint"; "heating_state"]%string →
                 dict_get record key = dict_get d2 key) as Hlate.
  { intros key Hkey.
    assert (dict_get d3 key = dict_get d2 key) as <-.
    { destruct (bool_decide (class details ∈ _));
        [|by apply ret_ok in Hd3 as [_ ->]].
      eapply thermostat_data_other; [exact Hd3|].
      repeat (apply elem_of_cons in Hkey as [->|Hkey];
              [apply (bool_decide_unpack _); by vm_compute|]).
      by apply elem_of_nil in Hkey. }
    assert (dict_get d4 key = dict_get d3 key) as <-.
    { destruct (bool_decide (class details = _));
        [|by apply ret_ok in Hd4 as [_ ->]].
      apply bind_ok in Hd4 as (s8 & illuminance & _ & Hd4).
      apply ret_ok in Hd4 as [_ ->]. rewrite dict_get_set_ne; [done|].
      repeat (apply elem_of_cons in Hkey as [->|Hkey]; [done|]).
      by apply elem_of_nil in Hkey. }
    destruct (_ || _); [|by apply ret_ok in H as [_ ->]].
    eapply gateway_data_other; [exact H|].
    repeat (apply elem_of_cons in Hkey as [->|Hkey];
            [by intros c rest [= <- _]|]).
    by apply elem_of_nil in Hkey. }
  rewrite !Hlate by (apply (bool_decide_unpack _); by vm_compute).
  clear Hlate H Hd3 Hd4.
  assert (NoDup (keys d1) ∧ dict_get d1 "boiler_state"%string = None)
    as [Hnd1 Hb1].
  { destruct (dict_in data "boiler_state") eqn:Hin.
    - apply rbind_ok in Hd1 as (v & _ & [= <-]). split.
      + do 2 apply NoDup_dict_del. by apply NoDup_keys_dict_set.
      + rewrite dict_get_del_ne by done. apply dict_get_del.
        by apply NoDup_keys_dict_set.
    - injection Hd1 as <-. split; [done|].
      destruct (dict_get data "boiler_state"%string) eqn:E; [|done].
      assert (dict_in data "boiler_state" = true) as Ht
        by (apply dict_in_true; by rewrite E).
      by rewrite Ht in Hin. }
  unfold d2. destruct (dict_in d1 "setpoint") eqn:Hin.
  - rewrite dict_get_del_ne by done. split; [done|].
    intros _. by apply dict_get_del.
  - split; [done|]. intros Hs. apply dict_in_true in Hs.
    by rewrite Hs in Hin.
Qed.

Lemma get_device_data_boiler_state_witness :
  ∃ s' record,
    get_device_data (lx:=refusing) at_epoch 0 (at_hm 12 0) (PStr "a1")
      anna_polled
    = (s', Ok record) ∧
    is_Some (dict_get record "setpoint"%string) ∧
    dict_get record "boiler_state"%string = None ∧
    dict_get record "heating_state"%string = None.
Proof.
  assert (∃ s' record,
            get_device_data (lx:=refusing) at_epoch 0 (at_hm 12 0) (PStr "a1")
              anna_polled
            = (s', Ok record) ∧
            is_Some (dict_get record "setpoint"%string))
    as (s' & record & H & Hs).
  { eexists _, _. vm_compute. split; [reflexivity|by eexists]. }
  exists s', record.
  destruct (get_device_data_boiler_state at_epoch 0 (at_hm 12 0) (PStr "a1")
              anna_polled s' record H) as [Hb Hh].
  split_and!; [exact H|exact Hs|exact Hb|exact (Hh Hs)].
Defined.

Lemma dict_set_mono {V} (d : dict string V) k v key :
  is_Some (dict_get d key) → is_Some (dict_get (dict_set d k v) key).
Proof.
  intros H. destruct (decide (k = key)) as [->|Hne].
  - rewrite dict_get_set_eq. by eexists.
  - by rewrite dict_get_set_ne.
Qed.

Lemma gateway_data_mono {lx : Lxml} location d s s' d' key :
  gateway_data location d s = (s', Ok d') →
  is_Some (dict_get d key) → is_Some (dict_get d' key).
Proof.
  intros H Hkey. unfold gateway_data in H.
  apply bind_ok in H as (s1 & power_data & Hp & H).
  apply bind_ok in H as (s2 & heater_id & _ & H).
  apply bind_ok in H as (s3 & heater_data & _ & H).
  apply bind_ok in H as (s4 & outdoor_temperature & _ & H).
  assert (is_Some (dict_get
            match power_data with
            | Some power_data =>
                foldl (λ d '(k, v), dict_set d k (VFloat v)) d power_data
            | None => d
            end key)) as Hpower.
  { destruct power_data as [power_data|]; [|done].
    clear Hp H. revert d Hkey.
    induction power_data as [|[k v] l IH]; intros d Hkey; [done|].
    cbn [foldl]. apply IH. by apply dict_set_mono. }
  destruct (truthy outdoor_temperature); apply ret_ok in H as [_ ->];
    [by apply dict_set_mono|done].
Qed.

Lemma thermostat_data_sets {lx : Lxml}
    total_seconds weekday now location d s s' d' :
  thermostat_data total_seconds weekday now location d s = (s', Ok d') →
  Forall (λ key, is_Some (dict_get d' key))
    ["active_preset"; "presets"; "available_schedules"; "selected_schedule";
     "last_used"]%string ∧
  (_smile_legacy s = false →
   is_Some (dict_get d' "schedule_temperature"%string)).
Proof.
  intros H. unfold thermostat_data in H.
  apply bind_ok in H as (s1 & active_preset & H1 & H).
  apply bind_ok in H as (s2 & presets & H2 & H).
  apply bind_ok in H as (s3 & [[av sel] sp] & H3 & H).
  apply bind_ok in H as (s4 & legacy & [-> ->]%read_ok & H).
  assert (s3 = s) as ->.
  { pose proof (reader_get_preset location s) as R1. rewrite H1 in R1.
    cbn in R1. subst s1.
    pose proof (reader_get_presets location s) as R2. rewrite H2 in R2.
    cbn in R2. subst s2.
    pose proof (reader_get_schemas weekday now location s) as R3.
    rewrite H3 in R3. done. }
  destruct (_smile_legacy s).
  - apply ret_ok in H as [_ ->]. split; [|done].
    repeat apply Forall_cons_2; try apply Forall_nil_2;
      repeat (rewrite dict_get_set_eq || rewrite dict_get_set_ne by done);
      by eexists.
  - apply bind_ok in H as (s5 & last_used & _ & H).
    apply ret_ok in H as [_ ->]. split; [|intros _].
    + repeat apply Forall_cons_2; try apply Forall_nil_2;
        repeat (rewrite dict_get_set_eq || rewrite dict_get_set_ne by done);
        by eexists.
    + repeat (rewrite dict_get_set_eq || rewrite dict_get_set_ne by done).
      by eexists.
Qed.

(** X22.  The record of a device with a thermostat class has the keys
    active_preset, presets, available_schedules, selected_schedule and
    last_used; it has schedule_temperature when the Smile is not legacy,
    and illuminance when the class is thermostat. *)
Theorem get_device_data_thermostat_keys {lx : Lxml}
    total_seconds weekday now dev_id
    s s1 devices details s' record :
  get_all_devices s = (s1, Ok devices) →
  dict_get devices dev_id = Some details →
  class details ∈ Some <$> thermostat_classes →
  get_device_data total_seconds weekday now dev_id s = (s', Ok record) →
  Forall (λ key, is_Some (dict_get record key))
    ["active_preset"; "presets"; "available_schedules"; "selected_schedule";
     "last_used"]%string ∧
  (_smile_legacy s = false →
   is_Some (dict_get record "schedule_temperature"%string)) ∧
  (class details = Some "thermostat"%string →
   is_Some (dict_get record "illuminance"%string)).
Proof.
  intros Hdev Hget Hclass H. unfold get_device_data, bind in H.
  rewrite Hdev in H.
  pose proof (frames_legacy _ _ _ _ frames_get_all_devices Hdev) as Hlegacy.
  unfold device_record in H. rewrite Hget in H.
  apply bind_ok in H as (s2 & data & Hdata & H).
  pose proof (reader_get_appliance_data dev_id s1) as R.
  rewrite Hdata in R. cbn in R. subst s2.
  apply bind_ok in H as (s3 & d1 & [-> _]%lift_ok & H).
  apply bind_ok in H as (s4 & ? & [-> [= <-]]%lift_ok & H).
  rewrite (bool_decide_true _ Hclass) in H.
  apply bind_ok in H as (s5 & d3 & Hd3 & H).
  apply thermostat_data_sets in Hd3 as [Hkeys Hsched].
  rewrite Hlegacy in Hsched.
  apply bind_ok in H as (s6 & d4 & Hd4 & H).
  apply bind_ok in H as (s7 & gateway_id & _ & H).
  assert (∀ key, is_Some (dict_get d3 key) → is_Some (dict_get d4 key)) as M1.
  { intros key Hk. destruct (bool_decide (class details = _));
      [|by apply ret_ok in Hd4 as [_ ->]].
    apply bind_ok in Hd4 as (s8 & illuminance & _ & Hd4).
    apply ret_ok in Hd4 as [_ ->]. by apply dict_set_mono. }
  assert (∀ key, is_Some (dict_get d4 key) → is_Some (dict_get record key))
    as M2.
  { intros key Hk. destruct (_ || _); [|by apply ret_ok in H as [_ ->]].
    by eapply gateway_data_mono. }
  split_and!.
  - eapply Forall_impl; [exact Hkeys|]. intros key Hk. by apply M2, M1.
  - intros Hl. by apply M2, M1, Hsched.
  - intros Hth. apply M2. rewrite (bool_decide_true _ Hth) in Hd4.
    apply bind_ok in Hd4 as (s8 & illuminance & _ & Hd4).
    apply ret_ok in Hd4 as [_ ->]. rewrite dict_get_set_eq. by eexists.
Qed.

Lemma get_device_data_thermostat_keys_witness :
  ∃ s' record,
    get_device_data (lx:=refusing) at_epoch 0 (at_hm 12 0) (PStr "lisa")
      adam_polled
    = (s', Ok record) ∧
    is_Some (dict_get record "schedule_temperature"%string).
Proof.
  assert (∃ s1 devices details s' record,
            get_all_devices adam_polled = (s1, Ok devices) ∧
            dict_get devices (PStr "lisa") = Some details ∧
            class details = Some "zone_thermostat"%string ∧
            get_device_data (lx:=refusing) at_epoch 0 (at_hm 12 0)
              (PStr "lisa") adam_polled
            = (s', Ok record))
    as (s1 & devices & details & s' & record & Hdev & Hget & Hclass & H).
  { eexists _, _, _, _, _. vm_compute. split_and!; reflexivity. }
  exists s', record. split; [exact H|].
  destruct (get_device_data_thermostat_keys (lx:=refusing) at_epoch 0
              (at_hm 12 0) (PStr "lisa") adam_polled s1 devices details s'
              record Hdev Hget) as (_ & Hs & _); [|exact H|by apply Hs].
  rewrite Hclass. unfold thermostat_classes. rewrite !fmap_cons.
  right. left.
Defined.

(** ** Escaping, types and locations left alone *)

Lemma sub_ampersand_length cs : (length cs ≤ length (sub_ampersand cs))%nat.
Proof.
  induction cs as [cs IH] using (induction_ltof1 _ (@length ascii)).
  unfold ltof in IH.
  destruct cs as [|c [|d rest]]; cbn; [lia|by case_bool_decide|].
  case_bool_decide.
  - destruct (entity_char d).
    + specialize (IH (d :: rest) ltac:(cbn; lia)). cbn in *. lia.
    + specialize (IH rest ltac:(cbn; lia)). cbn. lia.
  - specialize (IH (d :: rest) ltac:(cbn; lia)). cbn in *. lia.
Qed.

Lemma sub_ampersand_escaped cs : sub_ampersand cs = cs ↔ escaped cs = true.
Proof.
  induction cs as [|c rest IH]; [done|].
  cbn [sub_ampersand escaped]. case_bool_decide as Hc.
  - destruct rest as [|d rest']; [done|].
    destruct (entity_char d) eqn:Hd.
    + rewrite <- IH. cbn [andb]. split; [by intros [=]|by intros ->].
    + cbn [andb]. split; [|done]. intros Heq.
      apply (f_equal length) in Heq. cbn in Heq.
      pose proof (sub_ampersand_length rest'). lia.
  - cbn [andb]. rewrite <- IH. split; [by intros [=]|by intros ->].
Qed.

(** X23.  [escape_illegal_xml_characters] returns the text as it is
    exactly when no [&] of the text is followed by a character that is
    neither a letter nor [#]: references that are already escaped are
    not escaped again, and an [&] at the end is left alone. *)
Theorem escape_illegal_xml_characters_unchanged xmldata :
  escape_illegal_xml_characters xmldata = xmldata ↔
  escaped (chars xmldata) = true.
Proof.
  unfold escape_illegal_xml_characters, chars.
  rewrite <- sub_ampersand_escaped. split.
  - intros H. apply (f_equal list_ascii_of_string) in H.
    by rewrite list_ascii_of_string_of_list_ascii in H.
  - intros ->. apply string_of_list_ascii_of_string.
Qed.

(** One turn of the loop of [_types_finder] adds the type of its
    measurement or nothing. *)
Lemma types_finder_turn (data : element) (types : gset string)
    (measure measure_type : string) :
  let types' :=
    match Xml.find (point_log measure) data with
    | Some log =>
        let types :=
          if bool_decide (measure = "outdoor_temperature"%string)
          then {[measure_type]} ∪ types else types in
        match Xml.find [Desc "electricity_point_meter"] log with
        | Some meter =>
            if truthy_text (get meter "id")
            then {[measure_type]} ∪ types else types
        | None => types
        end
    | None => types
    end in
  types ⊆ types' ∧ types' ⊆ {[measure_type]} ∪ types ∧
  (measure = "outdoor_temperature"%string →
   is_Some (Xml.find (point_log measure) data) → measure_type ∈ types').
Proof.
  cbn zeta. destruct (Xml.find (point_log measure) data) as [log|].
  2: { split_and!; [set_solver..|]. by intros _ [? [=]]. }
  case_bool_decide;
    (destruct (Xml.find _ log) as [meter|];
     [destruct (truthy_text _)|]); split_and!; set_solver.
Qed.

Lemma types_finder_fold (data : element) (l : list (string * string))
    (acc : gset string) :
  let r :=
    foldl
      (fun types '(measure, measure_type) =>
         match Xml.find (point_log measure) data with
         | Some log =>
             let types :=
               if bool_decide (measure = "outdoor_temperature")
               then {[measure_type]} ∪ types else types in
             match Xml.find [Desc "electricity_point_meter"] log with
             | Some meter =>
                 if truthy_text (get meter "id")
                 then {[measure_type]} ∪ types else types
             | None => types
             end
         | None => types
         end)
      acc l in
  acc ⊆ r ∧ ∀ t, t ∈ r → t ∈ acc ∨ t ∈ l.*2.
Proof.
  revert acc. induction l as [|[measure measure_type] l IH]; intros acc;
    cbn zeta.
  { cbn. split; [done|]. by left. }
  cbn [foldl].
  destruct (types_finder_turn data acc measure measure_type)
    as (H1 & H2 & _). cbn zeta in H1, H2.
  match goal with
  | |- _ ⊆ foldl _ ?acc' l ∧ _ =>
      destruct (IH acc') as [H3 H4]; cbn zeta in H3, H4
  end.
  split; [by etrans|].
  intros t [Ht|Ht]%H4; [|right; by right].
  apply H2 in Ht. apply elem_of_union in Ht as [->%elem_of_singleton|Ht];
    [right; left|by left].
Qed.

(** X24.  [_types_finder] returns no type other than power, gas and
    temperature, and returns temperature whenever the data has a point
    log of the outdoor temperature. *)
Theorem types_finder_range data :
  (∀ t, t ∈ _types_finder data →
        t = "power" ∨ t = "gas" ∨ t = "temperature") ∧
  (is_Some (Xml.find (point_log "outdoor_temperature") data) →
   "temperature" ∈ _types_finder data).
Proof.
  split.
  - intros t Ht. unfold _types_finder in Ht.
    apply (types_finder_fold data HOME_MEASUREMENTS ∅) in Ht
      as [[]%elem_of_empty|Ht].
    unfold HOME_MEASUREMENTS in Ht. cbn in Ht.
    repeat (apply elem_of_cons in Ht as [->|Ht]; [by auto|]).
    by apply elem_of_nil in Ht.
  - intros Hlog. unfold _types_finder.
    change HOME_MEASUREMENTS
      with (take 3 HOME_MEASUREMENTS
            ++ [("outdoor_temperature", "temperature")]).
    rewrite foldl_app. cbn [foldl].
    match goal with
    | |- _ ∈ match _ with Some _ => _ | None => ?acc end =>
        destruct (types_finder_turn data acc "outdoor_temperature"
                    "temperature") as (_ & _ & H)
    end.
    by apply H.
Qed.

(** X25.  [scan_thermostats] returns the locations of
    [match_locations] under the same ids in the same order, and a
    location it does not scan as it was, without master or slaves. *)
Theorem scan_thermostats_keeps_locations s s' locations home_location :
  scan_thermostats s = (s', Ok (locations, home_location)) →
  ∃ s1 matched,
    match_locations s = (s1, Ok (matched, home_location)) ∧
    keys locations = keys matched ∧
    ∀ loc_id details,
      (loc_id, details) ∈ matched →
      is_zone (_smile_legacy s) home_location loc_id details = false →
      dict_get locations loc_id = Some details.
Proof.
  intros H. apply scan_thermostats_ok in H
    as (s1 & s2 & matched & appliances & Hm & _ & Hnd & _ & ->).
  exists s1, matched. split_and!; [done|apply keys_fmap_snd|].
  intros loc_id details Hin Hzone.
  apply dict_get_elem; [by rewrite keys_fmap_snd|].
  apply list_elem_of_fmap. exists (loc_id, details). split; [|done].
  unfold scanned. by rewrite Hzone.
Qed.

Lemma scan_thermostats_keeps_locations_witness :
  ∃ s' locations home,
    scan_thermostats adam = (s', Ok (locations, PStr "home")) ∧
    dict_get locations (PStr "home") = Some home ∧ zone home = None.
Proof.
  assert (∃ s' locations,
            scan_thermostats adam = (s', Ok (locations, PStr "home")))
    as (s' & locations & H).
  { eexists _, _. vm_compute. reflexivity. }
  destruct (scan_thermostats_keeps_locations adam s' locations (PStr "home") H)
    as (s1 & matched & Hm & _ & Hkeep).
  assert (∃ home, (PStr "home", home) ∈ matched ∧ zone home = None ∧
                  is_zone (_smile_legacy adam) (PStr "home") (PStr "home") home
                  = false) as (home & Hin & Hz & Hnot).
  { vm_compute in Hm. injection Hm as _ <-.
    eexists. split_and!; [apply list_elem_of_here|reflexivity|].
    by vm_compute. }
  exists s', locations, home. split_and!; [exact H| |exact Hz].
  exact (Hkeep _ _ Hin Hnot).
Defined.

(** ** The blanks of the parsers *)

Lemma lstrip_snoc l c :
  is_space c = false → lstrip (l ++ [c]) = lstrip l ++ [c].
Proof.
  intros Hc. induction l as [|a l IH]; cbn; [by rewrite Hc|].
  by destruct (is_space a).
Qed.

(** A first character that is no blank stays the first one. *)
Lemma strip_head c cs :
  is_space c = false → ∃ rest, strip (c :: cs) = c :: rest.
Proof.
  intros Hc. unfold strip. cbn [lstrip]. rewrite Hc. cbn [rev].
  rewrite (lstrip_snoc _ _ Hc), rev_app_distr. cbn. by eexists.
Qed.

Lemma separator_cases c :
  (28 ≤ code c ≤ 31)%N →
  c = "028"%char ∨ c = "029"%char ∨ c = "030"%char ∨ c = "031"%char.
Proof.
  intros H. rewrite <- (ascii_N_embedding c). unfold code in H.
  assert (N_of_ascii c = 28 ∨ N_of_ascii c = 29 ∨ N_of_ascii c = 30
          ∨ N_of_ascii c = 31)%N as Hn by lia.
  destruct Hn as [Hn|[Hn|[Hn|Hn]]]; rewrite Hn; auto.
Qed.

(** X26.  The separators with the code points 28 to 31 are no blanks
    for [int()] and [float()]: a text that starts with one of them is
    read by neither, and [_format_measure] returns it as it is. *)
Theorem format_measure_separator_kept c s :
  (28 ≤ code c ≤ 31)%N →
  py_int (String c s) = Raise ValueError ∧
  py_float (String c s) = Raise ValueError ∧
  _format_measure (Some (String c s)) = Ok (VStr (String c s)).
Proof.
  intros Hc.
  assert (is_space c = false) as Hsp.
  { by destruct (separator_cases c Hc) as [->|[->|[->| ->]]]. }
  destruct (strip_head c (chars s) Hsp) as [rest Hstrip].
  assert (py_int (String c s) = Raise ValueError) as Hi.
  { unfold py_int. change (chars (String c s)) with (c :: chars s).
    rewrite Hstrip.
    by destruct (separator_cases c Hc) as [->|[->|[->| ->]]]. }
  assert (py_float (String c s) = Raise ValueError) as Hf.
  { unfold py_float. change (chars (String c s)) with (c :: chars s).
    rewrite Hstrip.
    destruct (separator_cases c Hc) as [->|[->|[->| ->]]];
      cbn [drop_underscores]; rewrite !bool_decide_false by done;
      cbn [andb fmap]; (destruct (drop_underscores _ rest) as [l|]; [|done]);
      cbn [fmap option_fmap option_map sign list_fmap];
      rewrite !bool_decide_false by done; done. }
  split_and!; [done..|].
  unfold _format_measure. rewrite Hi, Hf. cbn.
  rewrite !bool_decide_false; [done| |].
  all: by destruct (separator_cases c Hc) as [->|[->|[->| ->]]].
Qed.

Lemma format_measure_separator_kept_witness :
  _format_measure (Some (String "028" "5")) = Ok (VStr (String "028" "5")).
Proof.
  apply (format_measure_separator_kept "028" "5"). unfold code. cbn. lia.
Defined.
